(** * The pluggable curation engine (curation_engine_pluggable.py)

    A shallow embedding of the strategy dispatcher: the result record, the
    fast regex filter, the specialized keyword scorer, the three strategies
    (LLM-only, multi-layer with its cache, hybrid) and the engine facade.

    Conventions of the model.
    - A Python [str] is a [string]; each character stands for the code point
      of the same number, so contents range over the code points 0..255, and
      every statement below is about such contents. On them [str.lower] works
      character by character, IGNORECASE folds letters within the range only
      and [str.encode] never raises. Beyond them Python differs (U+0130
      lower-cases to two characters, U+017F and U+212A fold to ASCII letters,
      a lone surrogate does not encode) and the model says nothing.
    - A Python [float] is a binary64 [float]; the literals of the source
      denote the same binary64 values here.
    - [CurationResult] objects live in a store (a list indexed by reference),
      because the cache, the strategies and the engine share and mutate them.
    - [time.time()], the remote LLM analyzer and the digest of the cache
      keys are the environment: a stream of clock readings, an oracle indexed
      by the number of calls made so far, and a function on strings. The
      general statements hold for any digest; [Hashlib.md5_hexdigest] is MD5
      itself, and the environments of the examples use it.
    - A coroutine runs from its call to its return without interleaving with
      another request; [await] is an ordinary call. Logging has no effect on
      the results and is left out. *)

From Stdlib Require Import ZArith NArith Ascii Lia Bool.
From Stdlib Require Import Uint63 Floats.PrimFloat Floats.SpecFloat Floats.FloatOps.
From stdpp Require Import gmap strings list pretty.

Set Warnings "-inexact-float".

(** ** Python's built-in operations on characters, strings and numbers *)

Module Py.

Definition code (c : ascii) : N := N_of_ascii c.

Definition in_range (lo hi : N) (c : ascii) : bool :=
  ((lo <=? code c) && (code c <=? hi))%N.

(** [str.isspace] on the code points below 256. *)
Definition isspace (c : ascii) : bool :=
  in_range 9 13 c || in_range 28 32 c || in_range 133 133 c || in_range 160 160 c.

(** [str.isalnum] on the code points below 256. *)
Definition isalnum (c : ascii) : bool :=
  in_range 48 57 c || in_range 65 90 c || in_range 97 122 c
  || in_range 170 170 c || in_range 178 179 c || in_range 181 181 c
  || in_range 185 186 c || in_range 188 190 c
  || in_range 192 214 c || in_range 216 246 c || in_range 248 255 c.

(** One character of [str.lower]. *)
Definition char_lower (c : ascii) : ascii :=
  if in_range 65 90 c || in_range 192 214 c || in_range 216 222 c
  then ascii_of_N (code c + 32) else c.

(** The upper-case partner a character has below 256, if any. *)
Definition char_upper (c : ascii) : ascii :=
  if in_range 97 122 c || in_range 224 246 c || in_range 248 254 c
  then ascii_of_N (code c - 32) else c.

(** [s.lower()], on the code points below 256: character by character. *)
Fixpoint lower (s : string) : string :=
  match s with
  | EmptyString => EmptyString
  | String c s' => String (char_lower c) (lower s')
  end.

(** [len(s)] *)
Definition len (s : string) : nat := String.length s.

(** [w in s]: [w] occurs in [s] as a contiguous substring. *)
Fixpoint contains (w s : string) : bool :=
  String.prefix w s ||
  match s with
  | EmptyString => false
  | String _ s' => contains w s'
  end.

(** [s.count(c)] for a one-character argument. *)
Fixpoint count (c : ascii) (s : string) : nat :=
  match s with
  | EmptyString => 0
  | String c' s' => (if Ascii.eqb c c' then 1 else 0) + count c s'
  end.

(** [any(w in s for w in ws)] *)
Definition any_in (ws : list string) (s : string) : bool :=
  existsb (fun w => contains w s) ws.

(** [sum(1 for w in ws if w in s)], also [len([w for w in ws if w in s])] *)
Definition count_in (ws : list string) (s : string) : nat :=
  length (List.filter (fun w => contains w s) ws).

(** [float(n)] for a small non-negative integer. *)
Definition float_of_nat (n : nat) : float := PrimFloat.of_uint63 (Uint63.of_Z (Z.of_nat n)).

(** [min(x, y)] on floats: [y] when [y < x], else [x]. *)
Definition fmin (x y : float) : float := if PrimFloat.ltb y x then y else x.

(** [int(x)]: truncation towards zero; [None] where Python raises (nan and
    the infinities). *)
Definition int (x : float) : option Z :=
  match Prim2SF x with
  | S754_zero _ => Some 0%Z
  | S754_finite s m e =>
      let v := if (0 <=? e)%Z then Z.shiftl (Z.pos m) e else Z.shiftr (Z.pos m) (- e) in
      Some (if s then (- v)%Z else v)
  | S754_infinity _ | S754_nan => None
  end.

(** [round(q * 100)] to the nearest integer, ties to even, for the exact
    value [m * 2^e] of a finite float. *)
Definition round_hundredths (m : positive) (e : Z) : Z :=
  if (0 <=? e)%Z then Z.shiftl (Z.pos m * 100) e
  else
    let d := Z.shiftl 1 (- e) in
    let n := (Z.pos m * 100)%Z in
    let q := (n / d)%Z in
    let r := (n mod d)%Z in
    match (2 * r ?= d)%Z with
    | Lt => q
    | Gt => (q + 1)%Z
    | Eq => if Z.even q then q else (q + 1)%Z
    end.

Definition two_digits (n : N) : string :=
  if (n <? 10)%N then "0" +:+ pretty n else pretty n.

(** [f"{x:.2f}"] *)
Definition format_2f (x : float) : string :=
  match Prim2SF x with
  | S754_nan => "nan"
  | S754_infinity s => if s then "-inf" else "inf"
  | S754_zero s => if s then "-0.00" else "0.00"
  | S754_finite s m e =>
      let h := Z.to_N (round_hundredths m e) in
      (if s then "-" else "") +:+ pretty (h / 100)%N +:+ "." +:+ two_digits (h mod 100)%N
  end.

End Py.

(** ** Regular expressions: the fragment of [re] the filter rules use *)

Module Re.

(** Character sets: [\s], [\w] and a bracket of ranges such as [[0-9a-zA-Z]]. *)
Inductive cset : Type :=
  | Space
  | Word
  | Ranges (rs : list (ascii * ascii)).

Inductive regex : Type :=
  | Eps
  | Chr (c : ascii)
  | Cls (cs : cset)
  | PlusCls (cs : cset)
  | WordB
  | Cat (r1 r2 : regex)
  | Alt (r1 r2 : regex).

Definition is_word (c : ascii) : bool := Py.isalnum c || Ascii.eqb c "_".

Definition in_ranges (rs : list (ascii * ascii)) (c : ascii) : bool :=
  existsb (fun r => Py.in_range (Py.code (fst r)) (Py.code (snd r)) c) rs.

(** Whether one character belongs to a set; [ic] is the IGNORECASE flag,
    which folds letters within the code points below 256. *)
Definition cset_match (ic : bool) (cs : cset) (c : ascii) : bool :=
  match cs with
  | Space => Py.isspace c
  | Word => is_word c
  | Ranges rs =>
      in_ranges rs c
      || (ic && (in_ranges rs (Py.char_lower c) || in_ranges rs (Py.char_upper c)))
  end.

Definition chr_match (ic : bool) (p c : ascii) : bool :=
  Ascii.eqb p c || (ic && Ascii.eqb (Py.char_lower p) (Py.char_lower c)).

(** [\b]: exactly one of the characters around the position is a word
    character; the ends of the string count as non-word. *)
Definition at_boundary (prev : option ascii) (s : string) : bool :=
  xorb (from_option is_word false prev)
       (match s with EmptyString => false | String c _ => is_word c end).

(** One or more characters satisfying [p], then the continuation. *)
Fixpoint plus (p : ascii -> bool) (s : string)
    (k : option ascii -> string -> bool) : bool :=
  match s with
  | EmptyString => false
  | String c s' =>
      if p c then (if plus p s' k then true else k (Some c) s') else false
  end.

(** [matches ic r prev s k]: [r] matches a prefix of [s] (the character
    before [s] being [prev]) and [k] accepts what follows. *)
Fixpoint matches (ic : bool) (r : regex) (prev : option ascii) (s : string)
    (k : option ascii -> string -> bool) : bool :=
  match r with
  | Eps => k prev s
  | Chr p =>
      match s with
      | EmptyString => false
      | String c s' => if chr_match ic p c then k (Some c) s' else false
      end
  | Cls cs =>
      match s with
      | EmptyString => false
      | String c s' => if cset_match ic cs c then k (Some c) s' else false
      end
  | PlusCls cs => plus (cset_match ic cs) s k
  | WordB => if at_boundary prev s then k prev s else false
  | Cat r1 r2 => matches ic r1 prev s (fun prev' s' => matches ic r2 prev' s' k)
  | Alt r1 r2 => if matches ic r1 prev s k then true else matches ic r2 prev s k
  end.

Fixpoint search_from (ic : bool) (r : regex) (prev : option ascii) (s : string) : bool :=
  if matches ic r prev s (fun _ _ => true) then true
  else match s with
       | EmptyString => false
       | String c s' => search_from ic r (Some c) s'
       end.

(** [re.compile(r, re.IGNORECASE).search(s)] as a truth value. *)
Definition search (ic : bool) (r : regex) (s : string) : bool :=
  search_from ic r None s.

(** Pattern builders. *)
Fixpoint lit (s : string) : regex :=
  match s with
  | EmptyString => Eps
  | String c s' => Cat (Chr c) (lit s')
  end.

Definition seq (rs : list regex) : regex := foldr Cat Eps rs.

Fixpoint alts (rs : list regex) : regex :=
  match rs with
  | [] => Eps
  | [r] => r
  | r :: rs' => Alt r (alts rs')
  end.

End Re.

(** ** The digest of the cache keys: [hashlib.md5] *)

Module Hashlib.

Local Open Scope N_scope.

Definition add32 (a b : N) : N := N.land (a + b) 0xffffffff.

Definition rotl32 (x c : N) : N :=
  N.land (N.lor (N.shiftl x c) (N.shiftr x (32 - c))) 0xffffffff.

Definition not32 (x : N) : N := N.lxor x 0xffffffff.

Definition shifts : list N :=
    [7; 12; 17; 22; 7; 12; 17; 22; 7; 12; 17; 22; 7; 12; 17; 22;
     5; 9; 14; 20; 5; 9; 14; 20; 5; 9; 14; 20; 5; 9; 14; 20;
     4; 11; 16; 23; 4; 11; 16; 23; 4; 11; 16; 23; 4; 11; 16; 23;
     6; 10; 15; 21; 6; 10; 15; 21; 6; 10; 15; 21; 6; 10; 15; 21].

Definition sines : list N :=
    [0xd76aa478; 0xe8c7b756; 0x242070db; 0xc1bdceee;
     0xf57c0faf; 0x4787c62a; 0xa8304613; 0xfd469501;
     0x698098d8; 0x8b44f7af; 0xffff5bb1; 0x895cd7be;
     0x6b901122; 0xfd987193; 0xa679438e; 0x49b40821;
     0xf61e2562; 0xc040b340; 0x265e5a51; 0xe9b6c7aa;
     0xd62f105d; 0x02441453; 0xd8a1e681; 0xe7d3fbc8;
     0x21e1cde6; 0xc33707d6; 0xf4d50d87; 0x455a14ed;
     0xa9e3e905; 0xfcefa3f8; 0x676f02d9; 0x8d2a4c8a;
     0xfffa3942; 0x8771f681; 0x6d9d6122; 0xfde5380c;
     0xa4beea44; 0x4bdecfa9; 0xf6bb4b60; 0xbebfbc70;
     0x289b7ec6; 0xeaa127fa; 0xd4ef3085; 0x04881d05;
     0xd9d4d039; 0xe6db99e5; 0x1fa27cf8; 0xc4ac5665;
     0xf4292244; 0x432aff97; 0xab9423a7; 0xfc93a039;
     0x655b59c3; 0x8f0ccc92; 0xffeff47d; 0x85845dd1;
     0x6fa87e4f; 0xfe2ce6e0; 0xa3014314; 0x4e0811a1;
     0xf7537e82; 0xbd3af235; 0x2ad7d2bb; 0xeb86d391].

(** [s.encode()]: UTF-8, for code points below 256 (none is a surrogate, so
    the encoding never raises). *)
Fixpoint encode (s : string) : list N :=
  match s with
  | EmptyString => []
  | String c s' =>
      let n := N_of_ascii c in
      (if n <? 128 then [n] else [192 + n / 64; 128 + n mod 64]) ++ encode s'
  end.

(** The little-endian bytes of a number, [k] of them. *)
Fixpoint bytes_le (k : nat) (n : N) : list N :=
  match k with
  | O => []
  | S k' => n mod 256 :: bytes_le k' (n / 256)
  end.

Fixpoint word_le (bs : list N) : N :=
  match bs with
  | [] => 0
  | b :: bs' => b + 256 * word_le bs'
  end.

(** The message with the bit 1, the zero bytes up to 56 modulo 64 and the
    length in bits. *)
Definition pad (msg : list N) : list N :=
  let len := N.of_nat (List.length msg) in
  let zeros := N.to_nat ((55 + 64 - len mod 64) mod 64) in
  msg ++ [128] ++ List.repeat 0 zeros ++ bytes_le 8 ((8 * len) mod 2 ^ 64).

(** The sixteen words of a block of 64 bytes. *)
Fixpoint words (k : nat) (bs : list N) : list N :=
  match k with
  | O => []
  | S k' => word_le (firstn 4 bs) :: words k' (skipn 4 bs)
  end.

Definition round (M : list N) (st : N * N * N * N) (i : nat) : N * N * N * N :=
  let '(A, B, C, D) := st in
  let n := N.of_nat i in
  let '(F, g) :=
    if n <? 16 then (N.lor (N.land B C) (N.land (not32 B) D), n)
    else if n <? 32 then (N.lor (N.land D B) (N.land (not32 D) C), (5 * n + 1) mod 16)
    else if n <? 48 then (N.lxor (N.lxor B C) D, (3 * n + 5) mod 16)
    else (N.lxor C (N.lor B (not32 D)), (7 * n) mod 16) in
  let F := add32 (add32 (add32 F A) (List.nth i sines 0)) (List.nth (N.to_nat g) M 0) in
  (D, add32 B (rotl32 F (List.nth i shifts 0)), B, C).

Definition block (st : N * N * N * N) (bs : list N) : N * N * N * N :=
  let '(a0, b0, c0, d0) := st in
  let '(A, B, C, D) := List.fold_left (round (words 16 bs)) (List.seq 0 64) st in
  (add32 a0 A, add32 b0 B, add32 c0 C, add32 d0 D).

Fixpoint blocks (k : nat) (st : N * N * N * N) (bs : list N) : N * N * N * N :=
  match k with
  | O => st
  | S k' => blocks k' (block st (firstn 64 bs)) (skipn 64 bs)
  end.

Definition md5 (msg : list N) : list N :=
  let padded := pad msg in
  let '(A, B, C, D) :=
    blocks (Nat.div (List.length padded) 64)
           (0x67452301, 0xefcdab89, 0x98badcfe, 0x10325476) padded in
  bytes_le 4 A ++ bytes_le 4 B ++ bytes_le 4 C ++ bytes_le 4 D.

Definition hex_char (n : N) : ascii :=
  if n <? 10 then ascii_of_N (48 + n) else ascii_of_N (87 + n).

Fixpoint hex (bs : list N) : string :=
  match bs with
  | [] => EmptyString
  | b :: bs' => String (hex_char (b / 16)) (String (hex_char (b mod 16)) (hex bs'))
  end.

(** [hashlib.md5(s.encode()).hexdigest()] *)
Definition md5_hexdigest (s : string) : string := hex (md5 (encode s)).

End Hashlib.

(** ** Data model *)

(** Modelled from the spec: the [AgeCategory] and [UserContext] types come
    from the generated LLM client (baml_client.types), which is not among the
    sources. The age category is the closed enumeration of the spec; the
    engine compares it with the strings ['UNDER_13'] and ['UNDER_16'] and
    formats it into the cache key, so each member stands for its name. *)
Inductive AgeCategory : Type := UNDER_13 | UNDER_16 | UNDER_18 | ADULT.

Definition AgeCategory_str (a : AgeCategory) : string :=
  match a with
  | UNDER_13 => "UNDER_13"
  | UNDER_16 => "UNDER_16"
  | UNDER_18 => "UNDER_18"
  | ADULT => "ADULT"
  end.

Record UserContext : Type := mkUserContext {
  age_category : AgeCategory;
  jurisdiction : string;
  parental_controls : string;
  content_preferences : list string;
  sensitivity_level : string
}.

(** The payload of the analyzer's [comprehensive_analysis]: the four entries
    [LLMOnlyStrategy] reads with [dict.get], each possibly missing. *)
Record Analysis : Type := mkAnalysis {
  an_safety_score : option float;        (* result['safety']['safety_score'] *)
  an_recommendation : option string;     (* result['recommendation'] *)
  an_overall_confidence : option float;  (* result['overall_confidence'] *)
  an_summary_reasoning : option string   (* result['summary_reasoning'] *)
}.

(** Values stored in a result's metadata dictionary. *)
Inductive PyValue : Type :=
  | VBool (b : bool)
  | VInt (z : Z)
  | VFloat (x : float)
  | VStr (s : string)
  | VStrList (l : list string)
  | VAnalysis (a : Analysis).

(** A Python number held by a field declared [int]: nothing stops a [float]
    from being stored there. *)
Inductive PyNum : Type :=
  | NInt (z : Z)
  | NFloat (x : float).

(** The dataclass of results. Every result is built with a dictionary of
    its own, which no other object refers to, so the metadata is kept inside
    the record. *)
Record CurationResult : Type := mkCurationResult {
  action : string;
  reason : string;
  confidence : float;
  safety_score : float;
  processing_time_ms : PyNum;
  strategy_used : string;
  metadata : option (gmap string PyValue)
}.

Definition set_processing_time_ms (v : PyNum) (r : CurationResult) : CurationResult :=
  mkCurationResult (action r) (reason r) (confidence r) (safety_score r)
    v (strategy_used r) (metadata r).

Definition set_strategy_used (v : string) (r : CurationResult) : CurationResult :=
  mkCurationResult (action r) (reason r) (confidence r) (safety_score r)
    (processing_time_ms r) v (metadata r).

Definition set_metadata (v : option (gmap string PyValue)) (r : CurationResult)
    : CurationResult :=
  mkCurationResult (action r) (reason r) (confidence r) (safety_score r)
    (processing_time_ms r) (strategy_used r) v.

(** [d or {}] for an optional dictionary: [None] and the empty dictionary are
    both falsy. *)
Definition or_empty (d : option (gmap string PyValue)) : gmap string PyValue :=
  default ∅ d.

(** [r.metadata[k] = v] *)
Definition metadata_setitem (k : string) (v : PyValue) (r : CurationResult)
    : CurationResult :=
  set_metadata (Some (<[k := v]> (or_empty (metadata r)))) r.

(** [r.metadata = r.metadata or {}] *)
Definition metadata_or_empty (r : CurationResult) : CurationResult :=
  set_metadata (Some (or_empty (metadata r))) r.

(** [r.metadata.update({k1: v1, k2: v2})], the metadata being a dictionary. *)
Definition metadata_update2 (k1 : string) (v1 : PyValue) (k2 : string) (v2 : PyValue)
    (r : CurationResult) : CurationResult :=
  set_metadata (Some (<[k2 := v2]> (<[k1 := v1]> (or_empty (metadata r))))) r.

Inductive CurationStrategy : Type := LLM_ONLY | MULTI_LAYER | HYBRID.

(** [strategy.value] *)
Definition CurationStrategy_value (s : CurationStrategy) : string :=
  match s with
  | LLM_ONLY => "llm_only"
  | MULTI_LAYER => "multi_layer"
  | HYBRID => "hybrid"
  end.

(** ** Exceptions, the store and the monad of the code *)

(** An exception (any subclass of [Exception]) with its message [str(e)]. *)
Inductive Exn : Type := Exception (msg : string).

Definition str_exn (e : Exn) : string := match e with Exception m => m end.

Inductive Outcome (A : Type) : Type :=
  | Ok (a : A)
  | Raise (e : Exn).
Arguments Ok {A} a.
Arguments Raise {A} e.

(** The environment of a run. *)
Record Env : Type := mkEnv {
  clock : nat → float;            (* the n-th reading of time.time() *)
  llm : nat → string → UserContext → Outcome Analysis;
                                   (* the n-th call of comprehensive_analysis,
                                      which wraps the remote client *)
  md5_hexdigest : string → string; (* hashlib.md5(s.encode()).hexdigest() *)
  BAML_AVAILABLE : bool
}.

(** The mutable state: the store of result objects (a reference is an index),
    the cache dictionary of the [MultiLayerStrategy] instance (keys to
    references), and how far the clock and the analyzer have been consumed. *)
Record State : Type := mkState {
  heap : list CurationResult;
  cache : gmap string nat;
  ticks : nat;
  llm_calls : nat
}.

Definition M (A : Type) : Type := State → Outcome A * State.

Global Instance M_ret : MRet M := λ A a st, (Ok a, st).

Global Instance M_bind : MBind M := λ A B f m st,
  match m st with
  | (Ok a, st') => f a st'
  | (Raise e, st') => (Raise e, st')
  end.

Definition raise {A : Type} (e : Exn) : M A := λ st, (Raise e, st).

(** [try: m  except Exception as e: h e]; what [m] did to the state before
    raising stays done. *)
Definition try_except {A : Type} (m : M A) (h : Exn → M A) : M A := λ st,
  match m st with
  | (Ok a, st') => (Ok a, st')
  | (Raise e, st') => h e st'
  end.

(** State transformers: a new object, an object updated in place, a cache
    entry written, one clock reading consumed, one analyzer call consumed. *)
Definition push (r : CurationResult) (st : State) : State :=
  mkState (heap st ++ [r]) (cache st) (ticks st) (llm_calls st).

Definition update (l : nat) (f : CurationResult → CurationResult) (st : State) : State :=
  mkState (alter f l (heap st)) (cache st) (ticks st) (llm_calls st).

Definition store (k : string) (l : nat) (st : State) : State :=
  mkState (heap st) (<[k := l]> (cache st)) (ticks st) (llm_calls st).

Definition tick (st : State) : State :=
  mkState (heap st) (cache st) (S (ticks st)) (llm_calls st).

Definition called (st : State) : State :=
  mkState (heap st) (cache st) (ticks st) (S (llm_calls st)).

(** Constructing an object: it gets the next free reference. *)
Definition alloc (r : CurationResult) : M nat := λ st,
  (Ok (length (heap st)), push r st).

(** Assigning to attributes of the object behind a reference. *)
Definition modify (l : nat) (f : CurationResult → CurationResult) : M unit := λ st,
  (Ok (), update l f st).

(** [k in self.cache] with [self.cache[k]], and [self.cache[k] = l] *)
Definition cache_lookup (k : string) : M (option nat) := λ st, (Ok (cache st !! k), st).

Definition cache_store (k : string) (l : nat) : M unit := λ st,
  (Ok (), store k l st).

(** [int(x)] in the monad, raising as Python does. *)
Definition py_int (x : float) : M Z :=
  match Py.int x with
  | Some z => mret z
  | None =>
      raise (Exception (if PrimFloat.is_nan x
                        then "cannot convert float NaN to integer"
                        else "cannot convert float infinity to integer"))
  end.

Section Engine.

Context (E : Env).

(** [time.time()] *)
Definition time_time : M float := λ st, (Ok (clock E (ticks st)), tick st).

(** [(time.time() - start_time) * 1000] *)
Definition elapsed (start_time : float) : M float :=
  now ← time_time;
  mret (PrimFloat.mul (PrimFloat.sub now start_time) 1000).

(** [int((time.time() - start_time) * 1000)] *)
Definition elapsed_ms (start_time : float) : M Z :=
  x ← elapsed start_time;
  py_int x.

(** [await self.analyzer.comprehensive_analysis(content, user_context)] *)
Definition comprehensive_analysis (content : string) (user_context : UserContext)
    : M Analysis := λ st,
  (llm E (llm_calls st) content user_context, called st).

(** *** FastFilterLayer *)

Definition profanity_patterns : list Re.regex :=
  [ (* \b(fuck|shit|damn|bitch)\b *)
    Re.seq [Re.WordB;
            Re.alts [Re.lit "fuck"; Re.lit "shit"; Re.lit "damn"; Re.lit "bitch"];
            Re.WordB];
    (* \b(kill|murder|die)\s+(you|yourself|them)\b *)
    Re.seq [Re.WordB;
            Re.alts [Re.lit "kill"; Re.lit "murder"; Re.lit "die"];
            Re.PlusCls Re.Space;
            Re.alts [Re.lit "you"; Re.lit "yourself"; Re.lit "them"];
            Re.WordB];
    (* \b(hate|kill)\s+all\s+\w+\b *)
    Re.seq [Re.WordB;
            Re.alts [Re.lit "hate"; Re.lit "kill"];
            Re.PlusCls Re.Space;
            Re.lit "all";
            Re.PlusCls Re.Space;
            Re.PlusCls Re.Word;
            Re.WordB] ].

Definition harmful_url_patterns : list Re.regex :=
  [ (* bit\.ly/[0-9a-zA-Z]+ *)
    Re.seq [Re.lit "bit.ly/";
            Re.PlusCls (Re.Ranges [("0", "9"); ("a", "z"); ("A", "Z")]%char)];
    (* pornhub\.com *)
    Re.lit "pornhub.com";
    (* xxx\. *)
    Re.lit "xxx.";
    (* \.onion *)
    Re.lit ".onion" ].

(** [pattern.search(content)] for a pattern compiled with [re.IGNORECASE]. *)
Definition pattern_search (p : Re.regex) (content : string) : bool :=
  Re.search true p content.

(** [for pattern in ps: if pattern.search(content): return <hit>] followed by
    the rest of the function body. *)
Fixpoint for_patterns {A : Type} (ps : list Re.regex) (content : string)
    (hit rest : M A) : M A :=
  match ps with
  | [] => rest
  | p :: ps' =>
      if pattern_search p content then hit
      else for_patterns ps' content hit rest
  end.

(** The two results [check] constructs. *)
Definition profanity_block (ms : Z) : CurationResult :=
  {| action := "block";
     reason := "Profanity or harmful language detected";
     confidence := 0.95;
     safety_score := 0.1;
     processing_time_ms := NInt ms;
     strategy_used := "fast_filter";
     metadata := Some {[ "filter_type" := VStr "profanity" ]} |}.

Definition harmful_url_block (ms : Z) : CurationResult :=
  {| action := "block";
     reason := "Harmful URL detected";
     confidence := 0.9;
     safety_score := 0.05;
     processing_time_ms := NInt ms;
     strategy_used := "fast_filter";
     metadata := Some {[ "filter_type" := VStr "harmful_url" ]} |}.

Definition FastFilterLayer_check (content : string) : M (option nat) :=
  start_time ← time_time;
  for_patterns profanity_patterns content
    (ms ← elapsed_ms start_time;
     l ← alloc (profanity_block ms);
     mret (Some l))
    (for_patterns harmful_url_patterns content
       (ms ← elapsed_ms start_time;
        l ← alloc (harmful_url_block ms);
        mret (Some l))
       (mret None)).

(** *** SpecializedAILayer *)

Definition toxicity_threshold : float := 0.7.
Definition nsfw_threshold : float := 0.8.

Definition toxic_words : list string :=
  ["hate"; "kill"; "stupid"; "idiot"; "moron"; "threat"].

Definition nsfw_words : list string :=
  ["sex"; "porn"; "naked"; "adult"; "explicit"].

Definition _mock_toxicity_analysis (content : string) : float :=
  let score :=
    PrimFloat.mul (Py.float_of_nat (Py.count_in toxic_words (Py.lower content))) 0.2 in
  Py.fmin score 1.0.

Definition _mock_nsfw_analysis (content : string) : float :=
  let score :=
    PrimFloat.mul (Py.float_of_nat (Py.count_in nsfw_words (Py.lower content))) 0.25 in
  Py.fmin score 1.0.

(** The two results [analyze] constructs. *)
Definition toxicity_block (toxicity_score : float) (ms : Z) : CurationResult :=
  {| action := "block";
     reason := "High toxicity detected (score: "
                 +:+ Py.format_2f toxicity_score +:+ ")";
     confidence := 0.85;
     safety_score := PrimFloat.sub 1.0 toxicity_score;
     processing_time_ms := NInt ms;
     strategy_used := "specialized_ai";
     metadata := Some (<[ "ai_type" := VStr "toxicity" ]>
                       {[ "toxicity_score" := VFloat toxicity_score ]}) |}.

Definition nsfw_block (nsfw_score : float) (ms : Z) : CurationResult :=
  {| action := "block";
     reason := "NSFW content detected (score: "
                 +:+ Py.format_2f nsfw_score +:+ ")";
     confidence := 0.9;
     safety_score := PrimFloat.sub 1.0 nsfw_score;
     processing_time_ms := NInt ms;
     strategy_used := "specialized_ai";
     metadata := Some (<[ "ai_type" := VStr "nsfw" ]>
                       {[ "nsfw_score" := VFloat nsfw_score ]}) |}.

Definition SpecializedAILayer_analyze (content : string) : M (option nat) :=
  start_time ← time_time;
  let toxicity_score := _mock_toxicity_analysis content in
  if PrimFloat.ltb toxicity_threshold toxicity_score then
    ms ← elapsed_ms start_time;
    l ← alloc (toxicity_block toxicity_score ms);
    mret (Some l)
  else
    let nsfw_score := _mock_nsfw_analysis content in
    if PrimFloat.ltb nsfw_threshold nsfw_score then
      ms ← elapsed_ms start_time;
      l ← alloc (nsfw_block nsfw_score ms);
      mret (Some l)
    else mret None.

(** *** LLMOnlyStrategy *)

(** [self.analyzer] is set exactly when [BAML_AVAILABLE]. The handler of the
    source logs and re-raises. *)
Definition llm_result (result : Analysis) (ms : Z) : CurationResult :=
  let safety_score := default 0.5%float (an_safety_score result) in
  let recommendation := default "caution" (an_recommendation result) in
  let confidence := default 0.7%float (an_overall_confidence result) in
  let reasoning := default "LLM analysis completed" (an_summary_reasoning result) in
  {| action := recommendation;
     reason := reasoning;
     confidence := confidence;
     safety_score := safety_score;
     processing_time_ms := NInt ms;
     strategy_used := "llm_only";
     metadata := Some (<[ "full_analysis" := VAnalysis result ]>
                       {[ "baml_used" := VBool true ]}) |}.

Definition LLMOnlyStrategy_analyze_content (content : string)
    (user_context : UserContext) : M nat :=
  start_time ← time_time;
  try_except
    (if BAML_AVAILABLE E then
       result ← comprehensive_analysis content user_context;
       ms ← elapsed_ms start_time;
       alloc (llm_result result ms)
     else
       raise (Exception "LLM-Only Strategy requires BAML but it's not available"))
    (λ e, raise e).

(** *** MultiLayerStrategy *)

Definition cache_key (content : string) (user_context : UserContext) : string :=
  md5_hexdigest E (content +:+ AgeCategory_str (age_category user_context)).

Definition _requires_llm_analysis (content : string) (user_context : UserContext)
    : bool :=
  let complex_indicators :=
    [ bool_decide (500 < Py.len content);
      bool_decide (AgeCategory_str (age_category user_context)
                     ∈ ["UNDER_13"; "UNDER_16"]);
      Py.any_in ["political"; "controversial"; "opinion"; "debate"] (Py.lower content);
      bool_decide (2 < Py.count "?" content) ] in
  existsb id complex_indicators.

(** The results of the last two branches. The first takes the elapsed time
    as it is computed, a float: that branch has no [int(...)] around it. *)
Definition cautious_result (t : float) : CurationResult :=
  {| action := "caution";
     reason := "Complex content requires LLM analysis but BAML is not available";
     confidence := 0.5;
     safety_score := 0.6;
     processing_time_ms := NFloat t;
     strategy_used := "multi_layer_cautious";
     metadata := Some (<[ "baml_required" := VBool true ]>
                       (<[ "baml_available" := VBool false ]>
                        {[ "engine_strategy" := VStr "multi_layer" ]})) |}.

Definition allow_result (ms : Z) : CurationResult :=
  {| action := "allow";
     reason := "Passed all automated checks";
     confidence := 0.8;
     safety_score := 0.9;
     processing_time_ms := NInt ms;
     strategy_used := "multi_layer_auto";
     metadata := Some {[ "layers_passed" :=
                           VStrList ["fast_filter"; "specialized_ai"] ]} |}.

(** The cache-hit branch: the cached object itself is updated and returned. *)
Definition cache_hit_path (cached_result : nat) : M nat :=
  modify cached_result (set_processing_time_ms (NInt 1));;
  modify cached_result metadata_or_empty;;
  modify cached_result (metadata_setitem "cache_hit" (VBool true));;
  mret cached_result.

(** The layers run on a cache miss. [self.llm_strategy] is an
    [LLMOnlyStrategy] exactly when [BAML_AVAILABLE], and [None] otherwise. *)
Definition layers (start_time : float) (key : string) (content : string)
    (user_context : UserContext) : M nat :=
  fast_result ← FastFilterLayer_check content;
  match fast_result with
  | Some fast_result => cache_store key fast_result;; mret fast_result
  | None =>
      specialized_result ← SpecializedAILayer_analyze content;
      match specialized_result with
      | Some specialized_result =>
          cache_store key specialized_result;; mret specialized_result
      | None =>
          if _requires_llm_analysis content user_context then
            if BAML_AVAILABLE E then
              llm_result ← LLMOnlyStrategy_analyze_content content user_context;
              modify llm_result (set_strategy_used "multi_layer_llm");;
              cache_store key llm_result;;
              mret llm_result
            else
              t ← elapsed start_time;
              result ← alloc (cautious_result t);
              cache_store key result;;
              mret result
          else
            ms ← elapsed_ms start_time;
            result ← alloc (allow_result ms);
            cache_store key result;;
            mret result
      end
  end.

Definition MultiLayerStrategy_analyze_content (content : string)
    (user_context : UserContext) : M nat :=
  start_time ← time_time;
  let key := cache_key content user_context in
  cached ← cache_lookup key;
  match cached with
  | Some cached_result => cache_hit_path cached_result
  | None => layers start_time key content user_context
  end.

(** *** HybridStrategy *)

Definition _should_use_llm_only (content : string) (user_context : UserContext)
    : bool :=
  let llm_indicators :=
    [ Py.contains "demo" (Py.lower content) || Py.contains "test" (Py.lower content);
      Py.any_in ["cultural"; "religious"; "philosophical"; "ethical";
                 "moral"; "values"; "belief"; "opinion"; "perspective"]
                (Py.lower content);
      Py.any_in ["learn"; "education"; "teaching"; "academic";
                 "study"; "research"; "knowledge"]
                (Py.lower content);
      bool_decide (1 < Py.count_in ["political"; "government"; "policy"; "election"]
                                   (Py.lower content)) ] in
  existsb id llm_indicators.

Definition HybridStrategy_analyze_content (content : string)
    (user_context : UserContext) : M nat :=
  if _should_use_llm_only content user_context then
    result ← LLMOnlyStrategy_analyze_content content user_context;
    modify result (set_strategy_used "hybrid_llm");;
    mret result
  else
    result ← MultiLayerStrategy_analyze_content content user_context;
    modify result (set_strategy_used "hybrid_multi");;
    mret result.

(** *** CurationEngine *)

(** [self.strategy.analyze_content], for the strategy instance that
    [_create_strategy] built for [self.strategy_type]. *)
Definition strategy_analyze_content (strategy_type : CurationStrategy)
    : string → UserContext → M nat :=
  match strategy_type with
  | LLM_ONLY => LLMOnlyStrategy_analyze_content
  | MULTI_LAYER => MultiLayerStrategy_analyze_content
  | HYBRID => HybridStrategy_analyze_content
  end.

(** The result the engine's handler constructs. *)
Definition error_result (e : Exn) (ms : Z) : CurationResult :=
  {| action := "caution";
     reason := "Engine error: " +:+ str_exn e;
     confidence := 0.0;
     safety_score := 0.5;
     processing_time_ms := NInt ms;
     strategy_used := "error_handling";
     metadata := Some {[ "error" := VStr (str_exn e) ]} |}.

Definition CurationEngine_curate_content (strategy_type : CurationStrategy)
    (content : string) (user_context : UserContext) : M nat :=
  start_time ← time_time;
  try_except
    (result ← strategy_analyze_content strategy_type content user_context;
     modify result metadata_or_empty;;
     total ← elapsed_ms start_time;
     modify result
       (metadata_update2
          "engine_strategy" (VStr (CurationStrategy_value strategy_type))
          "total_processing_time_ms" (VInt total));;
     mret result)
    (λ e,
       ms ← elapsed_ms start_time;
       alloc (error_result e ms)).

End Engine.

(** ** Specification-side definitions *)

Section Specification.

Context (E : Env).

(** Every elapsed-time measurement converts to an integer: the readings of
    the clock are ordinary numbers. *)
Definition clock_sane : Prop :=
  ∀ i j, is_Some (Py.int (PrimFloat.mul (PrimFloat.sub (clock E j) (clock E i)) 1000)).

(** The elapsed milliseconds between readings [i] and [j], as [int] gives them. *)
Definition ms_between (i j : nat) : Z :=
  default 0%Z (Py.int (PrimFloat.mul (PrimFloat.sub (clock E j) (clock E i)) 1000)).

(** Some rule of the category matches the content. *)
Definition matches_profanity (content : string) : bool :=
  existsb (λ p, pattern_search p content) profanity_patterns.

Definition matches_harmful_url (content : string) : bool :=
  existsb (λ p, pattern_search p content) harmful_url_patterns.

(** The cache only holds references to objects of the store. *)
Definition wf (st : State) : Prop :=
  ∀ k l, cache st !! k = Some l → l < length (heap st).

(** The fields of a result that carry the decision. *)
Definition decision (r : CurationResult) : string * string * float * float * string :=
  (action r, reason r, confidence r, safety_score r, strategy_used r).

(** The decision the layers reach on their own for a content and a user;
    [None] where the remote analyzer decides. *)
Definition layer_decision (content : string) (uc : UserContext)
    : option (string * string * float * float * string) :=
  if matches_profanity content then Some (decision (profanity_block 0))
  else if matches_harmful_url content then Some (decision (harmful_url_block 0))
  else if PrimFloat.ltb toxicity_threshold (_mock_toxicity_analysis content)
  then Some (decision (toxicity_block (_mock_toxicity_analysis content) 0))
  else if PrimFloat.ltb nsfw_threshold (_mock_nsfw_analysis content)
  then Some (decision (nsfw_block (_mock_nsfw_analysis content) 0))
  else if _requires_llm_analysis content uc
  then (if BAML_AVAILABLE E then None else Some (decision (cautious_result 0)))
  else Some (decision (allow_result 0)).

(** What a caller does to the result of a delegate: on success the returned
    object gets a new [strategy_used]; an exception passes through. *)
Definition retag (tag : string) (res : Outcome nat * State) : Outcome nat * State :=
  match res with
  | (Ok l, st) => (Ok l, update l (set_strategy_used tag) st)
  | (Raise e, st) => (Raise e, st)
  end.

(** The routing condition of the hybrid strategy in the words of its
    specification; every containment test is made on the lower-cased content. *)
Definition nuance_watchlist : list string :=
  ["cultural"; "religious"; "philosophical"; "ethical"; "moral"; "values";
   "belief"; "opinion"; "perspective"].

Definition educational_watchlist : list string :=
  ["learn"; "education"; "teaching"; "academic"; "study"; "research"; "knowledge"].

Definition political_watchlist : list string :=
  ["political"; "government"; "policy"; "election"].

Definition routes_to_llm (content : string) : Prop :=
  let lc := Py.lower content in
  (Py.contains "demo" lc = true ∨ Py.contains "test" lc = true)
  ∨ (∃ w, w ∈ nuance_watchlist ∧ Py.contains w lc = true)
  ∨ (∃ w, w ∈ educational_watchlist ∧ Py.contains w lc = true)
  ∨ (∃ w1 w2, w1 ≠ w2 ∧ w1 ∈ political_watchlist ∧ w2 ∈ political_watchlist
              ∧ Py.contains w1 lc = true ∧ Py.contains w2 lc = true).

End Specification.

(** ** Example environments and inputs *)

Definition example_clock (n : nat) : float :=
  nth n [100.0; 100.001; 100.0025; 100.0041; 100.0102; 100.0203; 100.0311]%float
      100.05%float.

Definition env_without_baml : Env :=
  mkEnv example_clock (λ _ _ _, Raise (Exception "analyzer not configured"))
        Hashlib.md5_hexdigest false.

Definition example_analysis : Analysis :=
  mkAnalysis (Some 0.9%float) (Some "allow") (Some 0.85%float)
             (Some "Educational content").

Definition env_with_baml : Env :=
  mkEnv example_clock (λ _ _ _, Ok example_analysis)
        Hashlib.md5_hexdigest true.

Definition env_failing_llm : Env :=
  mkEnv example_clock (λ _ _ _, Raise (Exception "LLM backend timed out"))
        Hashlib.md5_hexdigest true.

Definition adult_user : UserContext :=
  mkUserContext ADULT "US" "MODERATE" ["educational"] "MEDIUM".

Definition fresh_state : State := mkState [] ∅ 0 0.

(** A content of 600 characters with no flagged term. *)
Definition long_content : string :=
  String.string_of_list_ascii (replicate 600 "a"%char).

(** ** The rest of the module: serialization and the engine object *)

(** [repr(s)] of a string, for code points below 256. *)
Definition hex_digit (n : N) : ascii :=
  if (n <? 10)%N then ascii_of_N (48 + n) else ascii_of_N (87 + n).

Definition repr_char (quote c : ascii) : string :=
  if Ascii.eqb c "\" then "\\"
  else if Ascii.eqb c quote then String "\" (String quote "")
  else if Ascii.eqb c "009" then "\t"
  else if Ascii.eqb c "010" then "\n"
  else if Ascii.eqb c "013" then "\r"
  else if Py.in_range 0 31 c || Py.in_range 127 160 c || Py.in_range 173 173 c
  then "\x" +:+ String (hex_digit (Py.code c / 16)) (String (hex_digit (Py.code c mod 16)) "")
  else String c "".

Fixpoint repr_body (quote : ascii) (s : string) : string :=
  match s with
  | EmptyString => EmptyString
  | String c s' => repr_char quote c +:+ repr_body quote s'
  end.

Definition py_repr (s : string) : string :=
  let quote : ascii :=
    if Py.contains "'" s && negb (Py.contains (String "034" "") s)
    then "034"%char else "'"%char in
  String quote (repr_body quote s) +:+ String quote "".

(** [CurationStrategy(value)]: the member with that value; a [ValueError]
    for any other string. *)
Definition CurationStrategy_of_value (value : string) : Outcome CurationStrategy :=
  if String.eqb value "llm_only" then Ok LLM_ONLY
  else if String.eqb value "multi_layer" then Ok MULTI_LAYER
  else if String.eqb value "hybrid" then Ok HYBRID
  else Raise (Exception (py_repr value +:+ " is not a valid CurationStrategy")).

(** [get_strategy_name] of the strategy instance built for a strategy type. *)
Definition get_strategy_name (s : CurationStrategy) : string :=
  match s with
  | LLM_ONLY => "LLM-Only Strategy"
  | MULTI_LAYER => "Multi-Layer Strategy"
  | HYBRID => "Hybrid Strategy"
  end.

(** What [to_dict] puts under its keys. *)
Inductive DictValue : Type :=
  | DStr (s : string)
  | DFloat (x : float)
  | DNum (n : PyNum)
  | DDict (m : gmap string PyValue).

(** [if self.metadata:] a dictionary with at least one entry. *)
Definition metadata_truthy (md : option (gmap string PyValue)) : bool :=
  match md with
  | Some m => negb (Nat.eqb (size m) 0)
  | None => false
  end.

Definition to_dict (r : CurationResult) : gmap string DictValue :=
  let result : gmap string DictValue :=
    <["action" := DStr (action r)]>
    (<["reason" := DStr (reason r)]>
    (<["confidence" := DFloat (confidence r)]>
    (<["safety_score" := DFloat (safety_score r)]>
    (<["processing_time_ms" := DNum (processing_time_ms r)]>
    (<["strategy_used" := DStr (strategy_used r)]> ∅))))) in
  if metadata_truthy (metadata r)
  then <["metadata" := DDict (or_empty (metadata r))]> result
  else result.

(** An engine object: [self.strategy_type], and the class of the instance
    held in [self.strategy]. The state's cache is the cache of that instance;
    a newly built instance starts with an empty one. *)
Record CurationEngine : Type := mkCurationEngine {
  strategy_type : CurationStrategy;
  strategy : CurationStrategy
}.

(** [if isinstance(strategy, str): strategy = CurationStrategy(strategy)] *)
Definition resolve_strategy (strategy : string + CurationStrategy)
    : Outcome CurationStrategy :=
  match strategy with
  | inl value => CurationStrategy_of_value value
  | inr member => Ok member
  end.

Definition new_strategy_instance (st : State) : State :=
  mkState (heap st) ∅ (ticks st) (llm_calls st).

Section EngineObject.

Context (E : Env).

(** What [RealBAMLContentAnalyzer()] does when a strategy is built: it returns,
    or raises (it opens a log file and a collector). *)
Context (analyzer_init : Outcome unit).

(** [LLMOnlyStrategy()] builds the analyzer only when BAML is available. *)
Definition LLMOnlyStrategy_init : Outcome unit :=
  if BAML_AVAILABLE E then analyzer_init else Ok ().

(** [MultiLayerStrategy()]: the two layers, then
    [LLMOnlyStrategy() if BAML_AVAILABLE else None]. *)
Definition MultiLayerStrategy_init : Outcome unit :=
  if BAML_AVAILABLE E then LLMOnlyStrategy_init else Ok ().

(** [HybridStrategy()]: a multi-layer and then an LLM-only instance. *)
Definition HybridStrategy_init : Outcome unit :=
  match MultiLayerStrategy_init with
  | Ok _ => LLMOnlyStrategy_init
  | Raise e => Raise e
  end.

Definition _create_strategy (member : CurationStrategy) : Outcome unit :=
  match member with
  | LLM_ONLY => LLMOnlyStrategy_init
  | MULTI_LAYER => MultiLayerStrategy_init
  | HYBRID => HybridStrategy_init
  end.

(** [CurationEngine(strategy)] *)
Definition CurationEngine_init (strategy : string + CurationStrategy) (st : State)
    : Outcome CurationEngine * State :=
  match resolve_strategy strategy with
  | Ok member =>
      match _create_strategy member with
      | Ok _ => (Ok (mkCurationEngine member member), new_strategy_instance st)
      | Raise e => (Raise e, st)
      end
  | Raise e => (Raise e, st)
  end.

(** [self.switch_strategy(new_strategy)]: what the call does, the engine after
    it and the state after it. [self.strategy_type] is assigned before the
    new instance is built. *)
Definition CurationEngine_switch_strategy (self : CurationEngine)
    (new_strategy : string + CurationStrategy) (st : State)
    : Outcome unit * CurationEngine * State :=
  match resolve_strategy new_strategy with
  | Ok member =>
      let self1 := mkCurationEngine member (strategy self) in
      match _create_strategy member with
      | Ok _ => (Ok (), mkCurationEngine member member, new_strategy_instance st)
      | Raise e => (Raise e, self1, st)
      end
  | Raise e => (Raise e, self, st)
  end.

Definition CurationEngine_get_strategy_info (self : CurationEngine)
    : gmap string PyValue :=
  <["strategy_type" := VStr (CurationStrategy_value (strategy_type self))]>
  (<["strategy_name" := VStr (get_strategy_name (strategy self))]>
  (<["baml_available" := VBool (BAML_AVAILABLE E)]> ∅)).

(** [self.curate_content(content, user_context)]: the analysis is that of
    [self.strategy], the stamp is [self.strategy_type.value]. *)
Definition CurationEngine_curate (self : CurationEngine) (content : string)
    (user_context : UserContext) : M nat :=
  start_time ← time_time E;
  try_except
    (result ← strategy_analyze_content E (strategy self) content user_context;
     modify result metadata_or_empty;;
     total ← elapsed_ms E start_time;
     modify result
       (metadata_update2
          "engine_strategy" (VStr (CurationStrategy_value (strategy_type self)))
          "total_processing_time_ms" (VInt total));;
     mret result)
    (λ e,
       ms ← elapsed_ms E start_time;
       alloc (error_result e ms)).

End EngineObject.

(** ** The analyzer: BAML_Integration_Real.py *)

(** [round(x, 2)] of a float: the float nearest to the exact value of [x]
    rounded to two decimals, ties to even. From 2^46 on the floats are more
    than 0.01 apart and the result is [x] itself. *)
Definition py_round2 (x : float) : float :=
  match Prim2SF x with
  | S754_finite s m e =>
      if PrimFloat.leb 0x1p46 (PrimFloat.abs x) then x
      else
        let h := Py.round_hundredths m e in
        let r := PrimFloat.div (PrimFloat.of_uint63 (Uint63.of_Z h)) 100 in
        if s then PrimFloat.opp r else r
  | _ => x
  end.

Definition num_float (n : PyNum) : float :=
  match n with
  | NInt z => if (z <? 0)%Z then PrimFloat.opp (PrimFloat.of_uint63 (Uint63.of_Z (- z)))
              else PrimFloat.of_uint63 (Uint63.of_Z z)
  | NFloat x => x
  end.

(** [round(n, 2)] of an [int] is the [int]. *)
Definition num_round2 (n : PyNum) : PyNum :=
  match n with
  | NInt z => NInt z
  | NFloat x => NFloat (py_round2 x)
  end.

(** [sum(x for ... if ...)] with [n] items passing the test: the [int] 0 and
    then the items added one after the other. *)
Fixpoint float_sum (x : float) (n : nat) : float :=
  match n with
  | 0 => 0
  | S n' => PrimFloat.add (float_sum x n') x
  end.

Definition py_sum (x : float) (n : nat) : PyNum :=
  match n with
  | 0 => NInt 0
  | S _ => NFloat (float_sum x n)
  end.

(** [min(x, n)] and [max(x, y)]: the first argument unless the second is
    smaller, respectively greater. *)
Definition num_min (x : float) (n : PyNum) : PyNum :=
  if PrimFloat.ltb (num_float n) x then n else NFloat x.

Definition fmax (x y : float) : float := if PrimFloat.ltb x y then y else x.

(** Python objects as they occur in the analyzer's dictionaries. A dictionary
    is the list of its entries in insertion order. *)
Set Warnings "-register-all".

Inductive PyObj : Type :=
  | OStr (s : string)
  | OFloat (x : float)
  | OBool (b : bool)
  | OStrList (l : list string)
  | ODict (d : list (string * PyObj)).

Definition PyDict : Type := list (string * PyObj).

(** [d.get(k)] *)
Fixpoint dict_get (k : string) (d : PyDict) : option PyObj :=
  match d with
  | [] => None
  | (k', v) :: d' => if String.eqb k k' then Some v else dict_get k d'
  end.

(** The values [random.uniform] and [random.randint] return during one mock
    analysis, in the order of the calls. *)
Record Draws : Type := mkDraws {
  hate_speech_draw : float;
  misinformation_risk_draw : float;
  reading_level_draw : Z;
  factual_accuracy_draw : float;
  bias_score_draw : float;
  perspective_diversity_draw : float;
  controversy_level_draw : float;
  source_credibility_draw : float
}.

(** The dictionaries of the three mock classifiers have fixed keys: records
    with the keys as fields. *)
Record MockSafety : Type := mkMockSafety {
  ms_safety_score : float;
  ms_violence_level : PyNum;
  ms_adult_content : bool;
  ms_hate_speech : float;
  ms_misinformation_risk : float;
  ms_age_appropriateness : string;
  ms_reasoning : string;
  ms_content_warnings : list string;
  ms_model : string
}.

Record MockEducational : Type := mkMockEducational {
  me_educational_score : float;
  me_learning_objectives : list string;
  me_subject_areas : list string;
  me_cognitive_level : string;
  me_reading_level : Z;
  me_factual_accuracy : float;
  me_reasoning : string;
  me_model : string
}.

Record MockViewpoint : Type := mkMockViewpoint {
  mv_political_leaning : string;
  mv_bias_score : float;
  mv_perspective_diversity : float;
  mv_controversy_level : float;
  mv_source_credibility : float;
  mv_reasoning : string;
  mv_model : string
}.

Definition violence_keywords : list string :=
  ["violence"; "fight"; "attack"; "kill"; "hurt"; "fighting"].

Definition concerning_keywords : list string :=
  ["inappropriate"; "mature"; "concerning"; "scary"].

Definition educational_keywords : list string :=
  ["learn"; "education"; "study"; "research"; "science"; "school"].

Definition _mock_safety_classification (draws : Draws) (content : string)
    : MockSafety :=
  let content_lower := Py.lower content in
  let violence_score :=
    num_min 0.9 (py_sum 0.2 (Py.count_in violence_keywords content_lower)) in
  let has_concerning := Py.any_in concerning_keywords content_lower in
  let safety_score :=
    fmax 0.1
      (PrimFloat.sub (PrimFloat.sub 0.9 (num_float violence_score))
         (if has_concerning then 0.3 else 0)) in
  let warnings :=
    (if PrimFloat.ltb 0.2 (num_float violence_score) then ["violence"] else [])
    ++ (if has_concerning then ["mature themes"] else []) in
  {| ms_safety_score := py_round2 safety_score;
     ms_violence_level := num_round2 violence_score;
     ms_adult_content := has_concerning;
     ms_hate_speech := py_round2 (hate_speech_draw draws);
     ms_misinformation_risk := py_round2 (misinformation_risk_draw draws);
     ms_age_appropriateness :=
       if has_concerning then "18+"
       else if PrimFloat.ltb 0.2 (num_float violence_score) then "13+" else "all";
     ms_reasoning :=
       "Mock analysis - BAML unavailable. Safety score: "
       +:+ Py.format_2f safety_score;
     ms_content_warnings := warnings;
     ms_model := "Mock-Fallback" |}.

Definition _mock_educational_classification (draws : Draws) (content : string)
    : MockEducational :=
  let content_lower := Py.lower content in
  let educational_score :=
    Py.fmin 0.95
      (PrimFloat.add 0.3
         (num_float (py_sum 0.15 (Py.count_in educational_keywords content_lower)))) in
  {| me_educational_score := py_round2 educational_score;
     me_learning_objectives :=
       if PrimFloat.ltb 0.6 educational_score then ["understanding concepts"] else [];
     me_subject_areas :=
       if PrimFloat.ltb 0.5 educational_score then ["general knowledge"] else [];
     me_cognitive_level :=
       if PrimFloat.ltb 0.7 educational_score then "understand" else "remember";
     me_reading_level := reading_level_draw draws;
     me_factual_accuracy := py_round2 (factual_accuracy_draw draws);
     me_reasoning :=
       "Mock analysis - BAML unavailable. Educational score: "
       +:+ Py.format_2f educational_score;
     me_model := "Mock-Fallback" |}.

Definition _mock_viewpoint_classification (draws : Draws) : MockViewpoint :=
  {| mv_political_leaning := "neutral";
     mv_bias_score := py_round2 (bias_score_draw draws);
     mv_perspective_diversity := py_round2 (perspective_diversity_draw draws);
     mv_controversy_level := py_round2 (controversy_level_draw draws);
     mv_source_credibility := py_round2 (source_credibility_draw draws);
     mv_reasoning := "Mock analysis - BAML unavailable. Neutral viewpoint assumed.";
     mv_model := "Mock-Fallback" |}.

(** The recommendation [_mock_comprehensive_analysis] derives from the mock
    safety classification. *)
Definition mock_recommendation (safety : MockSafety) : string :=
  if PrimFloat.ltb (ms_safety_score safety) 0.6 then "block"
  else if PrimFloat.ltb (ms_safety_score safety) 0.8
          || negb (Nat.eqb (length (ms_content_warnings safety)) 0)
  then "caution"
  else "allow".

Definition _mock_comprehensive_analysis (draws : Draws) (content : string)
    : PyDict :=
  let safety := _mock_safety_classification draws content in
  let educational := _mock_educational_classification draws content in
  let viewpoint := _mock_viewpoint_classification draws in
  let recommendation := mock_recommendation safety in
  [ ("safety",
     ODict [ ("score", OFloat (ms_safety_score safety));
             ("age_appropriate", OStr (ms_age_appropriateness safety));
             ("warnings", OStrList (ms_content_warnings safety));
             ("reasoning", OStr (ms_reasoning safety)) ]);
    ("educational",
     ODict [ ("score", OFloat (me_educational_score educational));
             ("learning_objectives", OStrList (me_learning_objectives educational));
             ("subject_areas", OStrList (me_subject_areas educational));
             ("cognitive_level", OStr (me_cognitive_level educational)) ]);
    ("viewpoint",
     ODict [ ("political_leaning", OStr (mv_political_leaning viewpoint));
             ("bias_score", OFloat (mv_bias_score viewpoint));
             ("credibility", OFloat (mv_source_credibility viewpoint));
             ("reasoning", OStr (mv_reasoning viewpoint)) ]);
    ("recommendation", OStr recommendation);
    ("confidence",
     OFloat
       (py_round2
          (PrimFloat.div
             (PrimFloat.add
                (PrimFloat.add (ms_safety_score safety)
                               (me_educational_score educational))
                (PrimFloat.sub 1 (mv_bias_score viewpoint)))
             3)));
    ("summary",
     OStr ("Mock comprehensive analysis. Recommendation: " +:+ recommendation));
    ("model", OStr "Mock-Fallback") ].

(** The object the BAML client returns from [ComprehensiveContentAnalysis],
    by the attributes the analyzer reads. *)
Record ComprehensiveClassification : Type := mkComprehensiveClassification {
  safety_safety_score : PyObj;
  safety_age_appropriateness : PyObj;
  safety_content_warnings : PyObj;
  safety_reasoning : PyObj;
  educational_educational_score : PyObj;
  educational_learning_objectives : PyObj;
  educational_subject_areas : PyObj;
  educational_cognitive_level : PyObj;
  viewpoint_political_leaning : PyObj;
  viewpoint_bias_score : PyObj;
  viewpoint_source_credibility : PyObj;
  viewpoint_reasoning : PyObj;
  result_recommendation : PyObj;
  result_overall_confidence : PyObj;
  result_summary_reasoning : PyObj
}.

(** [RealBAMLContentAnalyzer.comprehensive_analysis]. [call] is what the body
    of its [try] does up to the [return]: the client's call and the writes to
    the log file give the client's result, or raise. *)
Definition RealBAMLContentAnalyzer_comprehensive_analysis
    (baml_available : bool) (call : Outcome ComprehensiveClassification)
    (draws : Draws) (content : string) : PyDict :=
  if negb baml_available then _mock_comprehensive_analysis draws content
  else
    match call with
    | Ok result =>
        [ ("safety",
           ODict [ ("score", safety_safety_score result);
                   ("age_appropriate", safety_age_appropriateness result);
                   ("warnings", safety_content_warnings result);
                   ("reasoning", safety_reasoning result) ]);
          ("educational",
           ODict [ ("score", educational_educational_score result);
                   ("learning_objectives", educational_learning_objectives result);
                   ("subject_areas", educational_subject_areas result);
                   ("cognitive_level", educational_cognitive_level result) ]);
          ("viewpoint",
           ODict [ ("political_leaning", viewpoint_political_leaning result);
                   ("bias_score", viewpoint_bias_score result);
                   ("credibility", viewpoint_source_credibility result);
                   ("reasoning", viewpoint_reasoning result) ]);
          ("recommendation", result_recommendation result);
          ("confidence", result_overall_confidence result);
          ("summary", result_summary_reasoning result);
          ("model", OStr "BAML-Real") ]
    | Raise _ => _mock_comprehensive_analysis draws content
    end.

(** What [LLMOnlyStrategy.analyze_content] reads from the analyzer's
    dictionary: each [.get] gives the entry, or nothing where the default is
    used. The outer [None] stands for values [Analysis] has no place for: a
    ["safety"] entry that is no dictionary, on which [.get] raises, and
    entries that are not of the type of the field they go to. *)
Definition get_float (k : string) (d : PyDict) : option (option float) :=
  match dict_get k d with
  | None => Some None
  | Some (OFloat x) => Some (Some x)
  | Some _ => None
  end.

Definition get_str (k : string) (d : PyDict) : option (option string) :=
  match dict_get k d with
  | None => Some None
  | Some (OStr s) => Some (Some s)
  | Some _ => None
  end.

Definition Analysis_of_dict (result : PyDict) : option Analysis :=
  safety ← match dict_get "safety" result with
           | None => Some []
           | Some (ODict d) => Some d
           | Some _ => None
           end;
  safety_score ← get_float "safety_score" safety;
  recommendation ← get_str "recommendation" result;
  confidence ← get_float "overall_confidence" result;
  reasoning ← get_str "summary_reasoning" result;
  Some (mkAnalysis safety_score recommendation confidence reasoning).

(** ** Definitions for the further properties *)

Section InUse.

Context (E : Env).

(** The verdict of a result: its decision without the [strategy_used] tag. *)
Definition verdict (r : CurationResult) : string * string * float * float :=
  (action r, reason r, confidence r, safety_score r).

(** An object as the cache holds it for a content and a user. Where the
    layers decide on their own it has their verdict. Its [strategy_used] is
    the tag of the deciding layer or, in an instance owned by a
    [HybridStrategy], "hybrid_multi" once the hybrid strategy has returned
    the object: [HybridStrategy.analyze_content] assigns that tag to the
    object it gets, which is the one the cache holds. *)
Definition made_for (hybrid_owned : bool) (content : string) (uc : UserContext)
    (r : CurationResult) : Prop :=
  match layer_decision E content uc with
  | Some d =>
      verdict r = d.1
      ∧ (strategy_used r = d.2
         ∨ (hybrid_owned = true ∧ strategy_used r = "hybrid_multi"))
  | None =>
      strategy_used r = "multi_layer_llm"
      ∨ (hybrid_owned = true ∧ strategy_used r = "hybrid_multi")
  end.

(** Every cache entry refers to an object made for a request that was made
    and has the entry's key. *)
Definition cache_sound (hybrid_owned : bool) (reqs : list (string * UserContext))
    (st : State) : Prop :=
  ∀ k l,
    cache st !! k = Some l →
    ∃ r content uc,
      heap st !! l = Some r
      ∧ (content, uc) ∈ reqs
      ∧ cache_key E content uc = k
      ∧ made_for hybrid_owned content uc r.

(** The states a [MultiLayerStrategy] instance and the store go through,
    with the requests made since the instance was built. It starts with an
    empty cache (any objects may exist already). Then it is called directly
    or through an engine on the multi-layer strategy or, when a
    [HybridStrategy] owns it, through that strategy or an engine on it;
    calls of the LLM-only strategy on the same store may come in between.
    The engine may be one that a failed switch has left with another
    [strategy_type]. *)
Inductive served (hybrid_owned : bool)
    : list (string * UserContext) → State → Prop :=
  | served_new h n m : served hybrid_owned [] (mkState h ∅ n m)
  | served_strategy reqs st member content uc o st' :
      served hybrid_owned reqs st →
      (member = HYBRID → hybrid_owned = true) →
      strategy_analyze_content E member content uc st = (o, st') →
      served hybrid_owned ((content, uc) :: reqs) st'
  | served_engine reqs st self content uc o st' :
      served hybrid_owned reqs st →
      (strategy self = HYBRID → hybrid_owned = true) →
      CurationEngine_curate E self content uc st = (o, st') →
      served hybrid_owned ((content, uc) :: reqs) st'.

(** No request made before has the cache key of this one without being for
    the same content and age category: the digest did not collide on the
    requests at hand. *)
Definition no_collision (reqs : list (string * UserContext)) (content : string)
    (uc : UserContext) : Prop :=
  ∀ c u,
    (c, u) ∈ reqs →
    cache_key E c u = cache_key E content uc →
    c = content ∧ age_category u = age_category uc.

End InUse.

(** A pattern whose bracket sets do not tell the letter case of a character
    apart once IGNORECASE is on. *)
Fixpoint case_blind (r : Re.regex) : Prop :=
  match r with
  | Re.Cls (Re.Ranges rs) | Re.PlusCls (Re.Ranges rs) =>
      ∀ c, Re.cset_match true (Re.Ranges rs) (Py.char_lower c)
           = Re.cset_match true (Re.Ranges rs) c
  | Re.Cat r1 r2 | Re.Alt r1 r2 => case_blind r1 ∧ case_blind r2
  | _ => True
  end.

(** [s[n:]] *)
Fixpoint slice_from (n : nat) (s : string) {struct n} : string :=
  match n, s with
  | 0, _ => s
  | S n', String _ s' => slice_from n' s'
  | S _, EmptyString => EmptyString
  end.

(** The characters a lower-cased content can show where [[0-9a-zA-Z]]
    matches. *)
Definition lower_alnum : list ascii :=
  String.list_ascii_of_string "0123456789abcdefghijklmnopqrstuvwxyz".

(** The analyzer behind the environment is the repository's: every call
    returns what [LLMOnlyStrategy] reads from a dictionary that
    [comprehensive_analysis] built. *)
Definition integrated_analyzer (E : Env) : Prop :=
  ∀ n content uc, ∃ baml_available call draws a,
    Analysis_of_dict
      (RealBAMLContentAnalyzer_comprehensive_analysis baml_available call draws content)
    = Some a
    ∧ llm E n content uc = Ok a.

(** The number of violence keywords in a content, and whether it has a
    concerning one. *)
Definition violence_hits (content : string) : nat :=
  Py.count_in violence_keywords (Py.lower content).

Definition has_concerning (content : string) : bool :=
  Py.any_in concerning_keywords (Py.lower content).

(** An environment whose analyzer is the mock fallback. *)
Definition example_draws : Draws :=
  mkDraws 0.1 0.2 10 0.8 0.25 0.7 0.3 0.75.

Definition env_mock_analyzer : Env :=
  mkEnv example_clock
        (λ _ content _,
           match Analysis_of_dict
                   (RealBAMLContentAnalyzer_comprehensive_analysis
                      false (Raise (Exception "unused")) example_draws content) with
           | Some a => Ok a
           | None => Raise (Exception "unreadable analysis")
           end)
        Hashlib.md5_hexdigest true.

(** ** Basic facts about the monad and the store *)

Local Ltac fin := first [ discriminate | assumption | (simpl; tauto) ].

Section Facts.

Context (E : Env).

Lemma elapsed_ms_run i st :
  clock_sane E →
  elapsed_ms E (clock E i) st = (Ok (ms_between E i (ticks st)), tick st).
Proof.
  intros Hs. unfold elapsed_ms, elapsed, time_time, ms_between, py_int.
  unfold mbind, M_bind, mret, M_ret. simpl.
  destruct (Hs i (ticks st)) as [z Hz]. rewrite Hz. reflexivity.
Qed.

Lemma for_patterns_existsb {A : Type} ps content (hit rest : M A) :
  for_patterns ps content hit rest =
  if existsb (λ p, pattern_search p content) ps then hit else rest.
Proof.
  induction ps as [|p ps IH]; simpl; [reflexivity|].
  destruct (pattern_search p content); simpl; auto.
Qed.

Lemma FastFilterLayer_check_run content st :
  clock_sane E →
  FastFilterLayer_check E content st =
  let ms := ms_between E (ticks st) (S (ticks st)) in
  if matches_profanity content
  then (Ok (Some (length (heap st))), push (profanity_block ms) (tick (tick st)))
  else if matches_harmful_url content
  then (Ok (Some (length (heap st))), push (harmful_url_block ms) (tick (tick st)))
  else (Ok None, tick st).
Proof.
  intros Hs. unfold FastFilterLayer_check.
  unfold mbind at 1, M_bind at 1, time_time at 1. cbv beta iota.
  rewrite !for_patterns_existsb.
  fold (matches_profanity content) (matches_harmful_url content).
  destruct (matches_profanity content).
  - unfold mbind, M_bind. rewrite (elapsed_ms_run _ _ Hs). reflexivity.
  - destruct (matches_harmful_url content).
    + unfold mbind, M_bind. rewrite (elapsed_ms_run _ _ Hs). reflexivity.
    + reflexivity.
Qed.

Lemma bind_run {A B : Type} (m : M A) (f : A → M B) st :
  (m ≫= f) st =
  match m st with
  | (Ok a, st') => f a st'
  | (Raise e, st') => (Raise e, st')
  end.
Proof. reflexivity. Qed.

Lemma try_except_reraise {A : Type} (m : M A) st :
  try_except m (λ e, raise e) st = m st.
Proof. unfold try_except, raise. destruct (m st) as [[a|e] st']; reflexivity. Qed.

Lemma SpecializedAILayer_analyze_run content st :
  clock_sane E →
  SpecializedAILayer_analyze E content st =
  let ms := ms_between E (ticks st) (S (ticks st)) in
  if PrimFloat.ltb toxicity_threshold (_mock_toxicity_analysis content)
  then (Ok (Some (length (heap st))),
        push (toxicity_block (_mock_toxicity_analysis content) ms) (tick (tick st)))
  else if PrimFloat.ltb nsfw_threshold (_mock_nsfw_analysis content)
  then (Ok (Some (length (heap st))),
        push (nsfw_block (_mock_nsfw_analysis content) ms) (tick (tick st)))
  else (Ok None, tick st).
Proof.
  intros Hs. unfold SpecializedAILayer_analyze.
  rewrite bind_run. unfold time_time at 1. cbv beta iota zeta.
  destruct (PrimFloat.ltb toxicity_threshold _).
  - rewrite bind_run, (elapsed_ms_run _ _ Hs). reflexivity.
  - destruct (PrimFloat.ltb nsfw_threshold _).
    + rewrite bind_run, (elapsed_ms_run _ _ Hs). reflexivity.
    + reflexivity.
Qed.

Lemma LLMOnlyStrategy_analyze_content_run content uc st :
  clock_sane E →
  LLMOnlyStrategy_analyze_content E content uc st =
  if BAML_AVAILABLE E then
    match llm E (llm_calls st) content uc with
    | Ok a =>
        (Ok (length (heap st)),
         push (llm_result a (ms_between E (ticks st) (S (ticks st))))
              (tick (called (tick st))))
    | Raise e => (Raise e, called (tick st))
    end
  else
    (Raise (Exception "LLM-Only Strategy requires BAML but it's not available"),
     tick st).
Proof.
  intros Hs. unfold LLMOnlyStrategy_analyze_content.
  rewrite bind_run. unfold time_time at 1. cbv beta iota.
  rewrite try_except_reraise.
  destruct (BAML_AVAILABLE E); [|reflexivity].
  rewrite bind_run. unfold comprehensive_analysis at 1. cbv beta.
  change (llm_calls (tick st)) with (llm_calls st).
  destruct (llm E (llm_calls st) content uc) as [a|e]; [|reflexivity].
  rewrite bind_run.
  change (clock E (ticks st)) with (clock E (ticks st)).
  rewrite (elapsed_ms_run _ _ Hs). reflexivity.
Qed.

Lemma MultiLayerStrategy_analyze_content_run content uc st :
  MultiLayerStrategy_analyze_content E content uc st =
  match cache st !! cache_key E content uc with
  | Some l =>
      (Ok l,
       update l (metadata_setitem "cache_hit" (VBool true))
         (update l metadata_or_empty
            (update l (set_processing_time_ms (NInt 1)) (tick st))))
  | None => layers E (clock E (ticks st)) (cache_key E content uc) content uc (tick st)
  end.
Proof.
  unfold MultiLayerStrategy_analyze_content.
  rewrite bind_run. unfold time_time at 1. cbv beta iota zeta.
  rewrite bind_run. unfold cache_lookup at 1. cbv beta iota.
  change (cache (tick st)) with (cache st).
  destruct (cache st !! cache_key E content uc); reflexivity.
Qed.

Lemma layers_run i key content uc st :
  clock_sane E →
  layers E (clock E i) key content uc st =
  let n := length (heap st) in
  let t := ticks st in
  if matches_profanity content then
    (Ok n, store key n (push (profanity_block (ms_between E t (S t))) (tick (tick st))))
  else if matches_harmful_url content then
    (Ok n, store key n (push (harmful_url_block (ms_between E t (S t))) (tick (tick st))))
  else if PrimFloat.ltb toxicity_threshold (_mock_toxicity_analysis content) then
    (Ok n, store key n
       (push (toxicity_block (_mock_toxicity_analysis content)
                             (ms_between E (S t) (S (S t))))
             (tick (tick (tick st)))))
  else if PrimFloat.ltb nsfw_threshold (_mock_nsfw_analysis content) then
    (Ok n, store key n
       (push (nsfw_block (_mock_nsfw_analysis content) (ms_between E (S t) (S (S t))))
             (tick (tick (tick st)))))
  else if _requires_llm_analysis content uc then
    if BAML_AVAILABLE E then
      match llm E (llm_calls st) content uc with
      | Ok a =>
          (Ok n, store key n
             (update n (set_strategy_used "multi_layer_llm")
                (push (llm_result a (ms_between E (S (S t)) (S (S (S t)))))
                      (tick (called (tick (tick (tick st))))))))
      | Raise e => (Raise e, called (tick (tick (tick st))))
      end
    else
      (Ok n, store key n
         (push (cautious_result
                  (PrimFloat.mul (PrimFloat.sub (clock E (S (S t))) (clock E i)) 1000))
               (tick (tick (tick st)))))
  else
    (Ok n, store key n
       (push (allow_result (ms_between E i (S (S t)))) (tick (tick (tick st))))).
Proof.
  intros Hs. unfold layers.
  rewrite bind_run, (FastFilterLayer_check_run _ _ Hs). cbv zeta.
  destruct (matches_profanity content); [reflexivity|].
  destruct (matches_harmful_url content); [reflexivity|].
  rewrite bind_run, (SpecializedAILayer_analyze_run _ _ Hs). cbv zeta.
  destruct (PrimFloat.ltb toxicity_threshold _); [reflexivity|].
  destruct (PrimFloat.ltb nsfw_threshold _); [reflexivity|].
  destruct (_requires_llm_analysis content uc).
  - destruct (BAML_AVAILABLE E) eqn:HB.
    + rewrite bind_run, (LLMOnlyStrategy_analyze_content_run _ _ _ Hs), HB.
      change (llm_calls (tick (tick st))) with (llm_calls st).
      destruct (llm E (llm_calls st) content uc); reflexivity.
    + reflexivity.
  - rewrite bind_run.
    change (ticks (tick (tick st))) with (S (S (ticks st))).
    rewrite (elapsed_ms_run _ _ Hs). reflexivity.
Qed.

(** *** The cache invariants *)

Lemma layer_decision_age content uc1 uc2 :
  age_category uc1 = age_category uc2 →
  layer_decision E content uc1 = layer_decision E content uc2.
Proof.
  intros Ha. unfold layer_decision, _requires_llm_analysis. rewrite Ha. reflexivity.
Qed.

Lemma alter_last {A : Type} (f : A → A) (h : list A) (r : A) :
  alter f (length h) (h ++ [r]) = h ++ [f r].
Proof.
  rewrite alter_app_r_alt by lia. rewrite Nat.sub_diag. reflexivity.
Qed.

Lemma CurationEngine_curate_content_run strategy content uc st :
  clock_sane E →
  CurationEngine_curate_content E strategy content uc st =
  match strategy_analyze_content E strategy content uc (tick st) with
  | (Ok l, st1) =>
      (Ok l,
       update l
         (metadata_update2
            "engine_strategy" (VStr (CurationStrategy_value strategy))
            "total_processing_time_ms" (VInt (ms_between E (ticks st) (ticks st1))))
         (tick (update l metadata_or_empty st1)))
  | (Raise e, st1) =>
      (Ok (length (heap st1)),
       push (error_result e (ms_between E (ticks st) (ticks st1))) (tick st1))
  end.
Proof.
  intros Hs. unfold CurationEngine_curate_content.
  rewrite bind_run. unfold time_time at 1. cbv beta iota.
  unfold try_except. rewrite bind_run.
  destruct (strategy_analyze_content E strategy content uc (tick st)) as [[l|e] st1].
  - rewrite bind_run. unfold modify at 1. cbv beta iota.
    rewrite bind_run, (elapsed_ms_run _ _ Hs). reflexivity.
  - rewrite bind_run, (elapsed_ms_run _ _ Hs). reflexivity.
Qed.

Lemma wf_fresh h n m : wf (mkState h ∅ n m).
Proof. intros k l Hk. simpl in Hk. rewrite lookup_empty in Hk. discriminate. Qed.

(** *** Successful calls return references to existing objects *)

Lemma MultiLayerStrategy_analyze_content_cached content uc st l st1 :
  clock_sane E → wf st →
  MultiLayerStrategy_analyze_content E content uc st = (Ok l, st1) →
  l < length (heap st1) ∧ cache st1 !! cache_key E content uc = Some l.
Proof.
  intros Hs Hwf Hrun.
  rewrite MultiLayerStrategy_analyze_content_run in Hrun.
  destruct (cache st !! cache_key E content uc) as [l0|] eqn:Hc.
  - injection Hrun as <- <-. simpl. rewrite !length_alter. split; [eauto | exact Hc].
  - rewrite (layers_run _ _ _ _ _ Hs) in Hrun. cbv zeta in Hrun.
    repeat match type of Hrun with
           | (if ?b then _ else _) = _ => destruct b
           | match ?o with Ok _ => _ | Raise _ => _ end = _ => destruct o
           end;
      try discriminate; injection Hrun as <- <-; simpl;
      rewrite ?length_alter, length_app; simpl;
      (split; [lia | apply lookup_insert_eq]).
Qed.

Lemma LLMOnlyStrategy_analyze_content_fresh content uc st l st1 :
  clock_sane E →
  LLMOnlyStrategy_analyze_content E content uc st = (Ok l, st1) →
  l = length (heap st) ∧ ∃ r, heap st1 = heap st ++ [r] ∧ strategy_used r = "llm_only".
Proof.
  intros Hs Hrun. rewrite (LLMOnlyStrategy_analyze_content_run _ _ _ Hs) in Hrun.
  destruct (BAML_AVAILABLE E); [|discriminate].
  destruct (llm E (llm_calls st) content uc) as [a|e]; [|discriminate].
  injection Hrun as <- <-. split; [reflexivity|]. eexists. split; reflexivity.
Qed.

Lemma HybridStrategy_analyze_content_run content uc st :
  HybridStrategy_analyze_content E content uc st =
  if _should_use_llm_only content uc
  then retag "hybrid_llm" (LLMOnlyStrategy_analyze_content E content uc st)
  else retag "hybrid_multi" (MultiLayerStrategy_analyze_content E content uc st).
Proof.
  unfold HybridStrategy_analyze_content, retag.
  destruct (_should_use_llm_only content uc); rewrite bind_run.
  - destruct (LLMOnlyStrategy_analyze_content E content uc st) as [[l|e] st1];
      reflexivity.
  - destruct (MultiLayerStrategy_analyze_content E content uc st) as [[l|e] st1];
      reflexivity.
Qed.

Lemma strategy_analyze_content_valid strategy content uc st l st1 :
  clock_sane E → wf st →
  strategy_analyze_content E strategy content uc st = (Ok l, st1) →
  l < length (heap st1).
Proof.
  intros Hs Hwf Hrun. destruct strategy; simpl in Hrun.
  - apply (LLMOnlyStrategy_analyze_content_fresh _ _ _ _ _ Hs) in Hrun
      as (-> & r & -> & _).
    rewrite length_app. simpl. lia.
  - by apply (MultiLayerStrategy_analyze_content_cached _ _ _ _ _ Hs Hwf) in Hrun
      as [? _].
  - rewrite HybridStrategy_analyze_content_run in Hrun.
    destruct (_should_use_llm_only content uc).
    + destruct (LLMOnlyStrategy_analyze_content E content uc st)
        as [[l0|e] st0] eqn:Hd; [|discriminate].
      injection Hrun as <- <-. simpl. rewrite length_alter.
      apply (LLMOnlyStrategy_analyze_content_fresh _ _ _ _ _ Hs) in Hd
        as (-> & r & -> & _).
      rewrite length_app. simpl. lia.
    + destruct (MultiLayerStrategy_analyze_content E content uc st)
        as [[l0|e] st0] eqn:Hd; [|discriminate].
      injection Hrun as <- <-. simpl. rewrite length_alter.
      by apply (MultiLayerStrategy_analyze_content_cached _ _ _ _ _ Hs Hwf) in Hd
        as [? _].
Qed.

(** *** The cache of an instance in use *)

Lemma CurationEngine_curate_consistent member content uc :
  CurationEngine_curate E (mkCurationEngine member member) content uc
  = CurationEngine_curate_content E member content uc.
Proof. reflexivity. Qed.

Lemma CurationEngine_curate_run self content uc st :
  clock_sane E →
  CurationEngine_curate E self content uc st =
  match strategy_analyze_content E (strategy self) content uc (tick st) with
  | (Ok l, st1) =>
      (Ok l,
       update l
         (metadata_update2
            "engine_strategy" (VStr (CurationStrategy_value (strategy_type self)))
            "total_processing_time_ms" (VInt (ms_between E (ticks st) (ticks st1))))
         (tick (update l metadata_or_empty st1)))
  | (Raise e, st1) =>
      (Ok (length (heap st1)),
       push (error_result e (ms_between E (ticks st) (ticks st1))) (tick st1))
  end.
Proof.
  intros Hs. unfold CurationEngine_curate.
  rewrite bind_run. unfold time_time at 1. cbv beta iota.
  unfold try_except. rewrite bind_run.
  destruct (strategy_analyze_content E (strategy self) content uc (tick st))
    as [[l|e] st1].
  - rewrite bind_run. unfold modify at 1. cbv beta iota.
    rewrite bind_run, (elapsed_ms_run _ _ Hs). reflexivity.
  - rewrite bind_run, (elapsed_ms_run _ _ Hs). reflexivity.
Qed.

Section Owner.

Context (hy : bool).

Lemma cache_sound_mono x reqs st :
  cache_sound E hy reqs st → cache_sound E hy (x :: reqs) st.
Proof.
  intros H k l Hk. destruct (H _ _ Hk) as (r & c & u & Hr & Hin & Hm).
  exists r, c, u. split; [done|]. split; [by constructor | done].
Qed.

Lemma cache_sound_grow reqs st st' r :
  heap st' = heap st ++ [r] → cache st' = cache st →
  cache_sound E hy reqs st → cache_sound E hy reqs st'.
Proof.
  intros Hh Hc H k l Hk. rewrite Hc in Hk.
  destruct (H _ _ Hk) as (r0 & c & u & Hr & Hm).
  exists r0, c, u. split; [|done].
  rewrite Hh, lookup_app_l; [done | by eapply lookup_lt_Some].
Qed.

Lemma made_for_keep content uc r r' :
  verdict r' = verdict r →
  strategy_used r' = strategy_used r
  ∨ (hy = true ∧ strategy_used r' = "hybrid_multi") →
  made_for E hy content uc r → made_for E hy content uc r'.
Proof.
  unfold made_for. intros Hv Hu.
  destruct (layer_decision E content uc) as [d|].
  - intros [H1 H2]. split; [congruence|].
    destruct Hu as [-> | Hu]; [exact H2 | by right].
  - intros H. destruct Hu as [-> | Hu]; [exact H | by right].
Qed.

Lemma cache_sound_update l f reqs st :
  (∀ r, verdict (f r) = verdict r
        ∧ (strategy_used (f r) = strategy_used r
           ∨ (hy = true ∧ strategy_used (f r) = "hybrid_multi"))) →
  cache_sound E hy reqs st → cache_sound E hy reqs (update l f st).
Proof.
  intros Hf H k l' Hk. simpl in Hk.
  destruct (H _ _ Hk) as (r & c & u & Hr & Hin & Hkey & Hm).
  destruct (decide (l = l')) as [-> | Hne].
  - exists (f r), c, u. simpl. rewrite list_lookup_alter_eq, Hr.
    split; [reflexivity|]. split; [done|]. split; [done|].
    destruct (Hf r). by eapply made_for_keep.
  - exists r, c, u. simpl. by rewrite list_lookup_alter_ne.
Qed.

Lemma cache_sound_fresh reqs st st' content uc r :
  cache_sound E hy reqs st →
  heap st' = heap st ++ [r] →
  cache st' = <[cache_key E content uc := length (heap st)]> (cache st) →
  made_for E hy content uc r →
  cache_sound E hy ((content, uc) :: reqs) st'.
Proof.
  intros H Hh Hc Hm k l Hk. rewrite Hc, lookup_insert in Hk. rewrite Hh.
  case_decide as Heq.
  - inversion Hk; subst l k. exists r, content, uc.
    split; [apply list_lookup_middle; reflexivity|].
    split; [by constructor | done].
  - destruct (H _ _ Hk) as (r0 & c & u & Hr & Hin & Hrest).
    exists r0, c, u.
    split; [rewrite lookup_app_l; [done | by eapply lookup_lt_Some]|].
    split; [by constructor | done].
Qed.

Lemma MultiLayerStrategy_analyze_content_sound content uc reqs st o st' :
  clock_sane E → cache_sound E hy reqs st →
  MultiLayerStrategy_analyze_content E content uc st = (o, st') →
  cache_sound E hy ((content, uc) :: reqs) st'.
Proof.
  intros Hs H Hrun. rewrite MultiLayerStrategy_analyze_content_run in Hrun.
  destruct (cache st !! cache_key E content uc) as [l|] eqn:Hc.
  - injection Hrun as <- <-. apply cache_sound_mono.
    do 3 (apply cache_sound_update; [by intros r; split; [|left]|]). exact H.
  - rewrite (layers_run _ _ _ _ _ Hs) in Hrun. cbv zeta in Hrun.
    assert (Hm : ∀ r,
      match layer_decision E content uc with
      | Some d => verdict r = d.1 ∧ strategy_used r = d.2
      | None => strategy_used r = "multi_layer_llm"
      end → made_for E hy content uc r).
    { intros r. unfold made_for.
      destruct (layer_decision E content uc); [intros [? ?]; auto | auto]. }
    unfold layer_decision in Hm.
    destruct (matches_profanity content).
    { injection Hrun as <- <-.
      eapply (cache_sound_fresh reqs (tick st)); [exact H | reflexivity ..|].
      apply Hm. split; reflexivity. }
    destruct (matches_harmful_url content).
    { injection Hrun as <- <-.
      eapply (cache_sound_fresh reqs (tick st)); [exact H | reflexivity ..|].
      apply Hm. split; reflexivity. }
    destruct (PrimFloat.ltb toxicity_threshold _).
    { injection Hrun as <- <-.
      eapply (cache_sound_fresh reqs (tick st)); [exact H | reflexivity ..|].
      apply Hm. split; reflexivity. }
    destruct (PrimFloat.ltb nsfw_threshold _).
    { injection Hrun as <- <-.
      eapply (cache_sound_fresh reqs (tick st)); [exact H | reflexivity ..|].
      apply Hm. split; reflexivity. }
    destruct (_requires_llm_analysis content uc).
    + destruct (BAML_AVAILABLE E).
      * change (llm_calls (tick st)) with (llm_calls st) in Hrun.
        destruct (llm E (llm_calls st) content uc) as [a|e].
        -- injection Hrun as <- <-.
           eapply (cache_sound_fresh reqs (tick st) _ _ _
                     (set_strategy_used "multi_layer_llm" (llm_result a _)));
             [exact H | simpl; apply alter_last | reflexivity |].
           apply Hm. reflexivity.
        -- injection Hrun as <- <-. apply cache_sound_mono. exact H.
      * injection Hrun as <- <-.
        eapply (cache_sound_fresh reqs (tick st)); [exact H | reflexivity ..|].
        apply Hm. split; reflexivity.
    + injection Hrun as <- <-.
      eapply (cache_sound_fresh reqs (tick st)); [exact H | reflexivity ..|].
      apply Hm. split; reflexivity.
Qed.

Lemma LLMOnlyStrategy_analyze_content_sound content uc reqs st o st' :
  clock_sane E → cache_sound E hy reqs st →
  LLMOnlyStrategy_analyze_content E content uc st = (o, st') →
  cache_sound E hy reqs st'.
Proof.
  intros Hs H Hrun. rewrite (LLMOnlyStrategy_analyze_content_run _ _ _ Hs) in Hrun.
  destruct (BAML_AVAILABLE E);
    [destruct (llm E (llm_calls st) content uc)|]; injection Hrun as <- <-.
  - eapply (cache_sound_grow reqs st); [reflexivity | reflexivity | exact H].
  - exact H.
  - exact H.
Qed.

End Owner.

Lemma HybridStrategy_analyze_content_sound content uc reqs st o st' :
  clock_sane E → cache_sound E true reqs st →
  HybridStrategy_analyze_content E content uc st = (o, st') →
  cache_sound E true ((content, uc) :: reqs) st'.
Proof.
  intros Hs H Hrun. rewrite HybridStrategy_analyze_content_run in Hrun.
  destruct (_should_use_llm_only content uc).
  - apply cache_sound_mono.
    rewrite (LLMOnlyStrategy_analyze_content_run _ _ _ Hs) in Hrun.
    destruct (BAML_AVAILABLE E);
      [destruct (llm E (llm_calls st) content uc)|]; injection Hrun as <- <-.
    + eapply (cache_sound_grow true reqs st);
        [simpl; apply alter_last | reflexivity | exact H].
    + exact H.
    + exact H.
  - destruct (MultiLayerStrategy_analyze_content E content uc st)
      as [[l|e] st1] eqn:Hd;
      apply (MultiLayerStrategy_analyze_content_sound true _ _ _ _ _ _ Hs H) in Hd;
      injection Hrun as <- <-.
    + apply cache_sound_update; [|exact Hd].
      intros r. split; [reflexivity | by right].
    + exact Hd.
Qed.

Section Owned.

Context (hy : bool).

Lemma strategy_analyze_content_sound member content uc reqs st o st' :
  clock_sane E → cache_sound E hy reqs st →
  (member = HYBRID → hy = true) →
  strategy_analyze_content E member content uc st = (o, st') →
  cache_sound E hy ((content, uc) :: reqs) st'.
Proof.
  intros Hs H Hown Hrun. destruct member; simpl in Hrun.
  - apply cache_sound_mono. by eapply LLMOnlyStrategy_analyze_content_sound.
  - by eapply MultiLayerStrategy_analyze_content_sound.
  - rewrite (Hown eq_refl) in *. by eapply HybridStrategy_analyze_content_sound.
Qed.

Lemma CurationEngine_curate_sound self content uc reqs st o st' :
  clock_sane E → cache_sound E hy reqs st →
  (strategy self = HYBRID → hy = true) →
  CurationEngine_curate E self content uc st = (o, st') →
  cache_sound E hy ((content, uc) :: reqs) st'.
Proof.
  intros Hs H Hown Hrun. rewrite (CurationEngine_curate_run _ _ _ _ Hs) in Hrun.
  destruct (strategy_analyze_content E (strategy self) content uc (tick st))
    as [[l|e] st1] eqn:Hd;
    apply (strategy_analyze_content_sound _ _ _ reqs (tick st) _ _ Hs H Hown)
      in Hd;
    injection Hrun as <- <-.
  - apply cache_sound_update; [by intros r; split; [|left]|].
    apply (cache_sound_update hy l metadata_or_empty);
      [by intros r; split; [|left] | exact Hd].
  - eapply (cache_sound_grow hy _ st1); [reflexivity | reflexivity | exact Hd].
Qed.

Lemma served_sound reqs st :
  clock_sane E → served E hy reqs st → cache_sound E hy reqs st.
Proof.
  intros Hs. induction 1 as [h n m | reqs st member c u o st' _ IH Hown Hrun
                             | reqs st self c u o st' _ IH Hown Hrun].
  - intros k l Hk. simpl in Hk. rewrite lookup_empty in Hk. discriminate.
  - by eapply strategy_analyze_content_sound.
  - by eapply CurationEngine_curate_sound.
Qed.


End Owned.

End Facts.

(** *** Strings *)

Lemma prefix_refl s : String.prefix s s = true.
Proof. induction s as [|c s IH]; simpl; [reflexivity|]. by destruct (ascii_dec c c). Qed.

Lemma contains_prefix w s : String.prefix w s = true → Py.contains w s = true.
Proof. intros H. destruct s; cbn [Py.contains]; by rewrite H. Qed.

Lemma contains_self s : Py.contains s s = true.
Proof. apply contains_prefix, prefix_refl. Qed.

Lemma contains_app_r p s : Py.contains s (p +:+ s) = true.
Proof.
  induction p as [|c p IH].
  - apply contains_self.
  - change (String c p +:+ s) with (String c (p +:+ s)).
    cbn [Py.contains]. rewrite IH. apply orb_true_r.
Qed.

Lemma prefix_lower w s :
  String.prefix w s = true → String.prefix (Py.lower w) (Py.lower s) = true.
Proof.
  revert s. induction w as [|a w IH]; intros [|b s]; simpl; try done.
  destruct (ascii_dec a b) as [->|]; [|done].
  intros H. destruct (ascii_dec (Py.char_lower b) (Py.char_lower b)); [auto|done].
Qed.

Lemma contains_lower w s :
  Py.contains w s = true → Py.contains (Py.lower w) (Py.lower s) = true.
Proof.
  induction s as [|c s IH]; cbn [Py.contains Py.lower].
  - rewrite orb_false_r. intros H. apply prefix_lower in H.
    cbn [Py.lower] in H. by rewrite H.
  - intros [H|H]%orb_true_iff.
    + apply prefix_lower in H. cbn [Py.lower] in H. by rewrite H.
    + rewrite (IH H). apply orb_true_r.
Qed.

(** *** The example environments meet the assumptions *)

Lemma example_clock_sane E : clock E = example_clock → clock_sane E.
Proof.
  intros HE i j. rewrite HE. unfold example_clock.
  do 8 (destruct i as [|i]; [do 8 (destruct j as [|j]; [vm_compute; eauto|]);
                              vm_compute; eauto |]).
  do 8 (destruct j as [|j]; [vm_compute; eauto|]); vm_compute; eauto.
Qed.

Lemma env_without_baml_sane : clock_sane env_without_baml.
Proof. by apply example_clock_sane. Qed.

Lemma env_with_baml_sane : clock_sane env_with_baml.
Proof. by apply example_clock_sane. Qed.

Lemma env_failing_llm_sane : clock_sane env_failing_llm.
Proof. by apply example_clock_sane. Qed.

(** *** The escalation test in words *)


(** *** The routing test of the hybrid strategy in words *)

Lemma any_in_exists ws s :
  Py.any_in ws s = true ↔ ∃ w, w ∈ ws ∧ Py.contains w s = true.
Proof.
  unfold Py.any_in. rewrite existsb_exists.
  split; intros (w & Hin & Hw); exists w; (split; [|done]);
    by apply list_elem_of_In.
Qed.

Lemma count_in_political s :
  1 < Py.count_in ["political"; "government"; "policy"; "election"] s ↔
  ∃ w1 w2, w1 ≠ w2 ∧ w1 ∈ political_watchlist ∧ w2 ∈ political_watchlist
           ∧ Py.contains w1 s = true ∧ Py.contains w2 s = true.
Proof.
  assert (Hpair : ∀ w1 w2 : string,
            w1 ≠ w2 → In w1 political_watchlist → In w2 political_watchlist →
            Py.contains w1 s = true → Py.contains w2 s = true →
            ∃ w1 w2, w1 ≠ w2 ∧ w1 ∈ political_watchlist ∧ w2 ∈ political_watchlist
                     ∧ Py.contains w1 s = true ∧ Py.contains w2 s = true).
  { intros w1 w2 Hne Hi1 Hi2 Hc1 Hc2. exists w1, w2.
    repeat split; try done; by apply list_elem_of_In. }
  unfold Py.count_in. cbn [List.filter].
  destruct (Py.contains "political" s) eqn:H1,
           (Py.contains "government" s) eqn:H2,
           (Py.contains "policy" s) eqn:H3,
           (Py.contains "election" s) eqn:H4; cbn [length];
    (split;
     [ intros Hlt; try (exfalso; lia);
       first [ solve [apply (Hpair "political" "government"); fin]
             | solve [apply (Hpair "political" "policy"); fin]
             | solve [apply (Hpair "political" "election"); fin]
             | solve [apply (Hpair "government" "policy"); fin]
             | solve [apply (Hpair "government" "election"); fin]
             | solve [apply (Hpair "policy" "election"); fin] ]
     | intros (w1 & w2 & Hne & Hw1 & Hw2 & Hc1 & Hc2); try lia;
       exfalso; apply list_elem_of_In in Hw1, Hw2; simpl in Hw1, Hw2;
       destruct Hw1 as [<-|[<-|[<-|[<-|[]]]]], Hw2 as [<-|[<-|[<-|[<-|[]]]]];
       congruence ]).
Qed.

Lemma _should_use_llm_only_spec content uc :
  _should_use_llm_only content uc = true ↔ routes_to_llm content.
Proof.
  unfold _should_use_llm_only, routes_to_llm. cbn [existsb id]. cbv zeta.
  rewrite orb_false_r, !orb_true_iff, bool_decide_eq_true.
  rewrite !any_in_exists, count_in_political. reflexivity.
Qed.

(** ** Worked examples *)

(** The short-link example: blocked by the URL rules with confidence 0.9 and
    safety score 0.05; the two clock readings are 1 ms apart. *)
Example FastFilterLayer_check_short_link :
  FastFilterLayer_check env_without_baml "Click this: bit.ly/abc123" fresh_state =
  (Ok (Some 0), mkState [harmful_url_block 1] ∅ 2 0).
Proof. vm_compute. reflexivity. Qed.

Example harmful_url_block_fields :
  metadata (harmful_url_block 1) = Some {[ "filter_type" := VStr "harmful_url" ]}
  ∧ confidence (harmful_url_block 1) = 0.9%float
  ∧ safety_score (harmful_url_block 1) = 0.05%float.
Proof. repeat split. Qed.

(** A word is matched only between word boundaries, in any letter case. *)
Example profanity_word_boundaries :
  matches_profanity "you are a BITCH!" = true
  ∧ matches_profanity "bitchy" = false
  ∧ matches_profanity "I will kill   you" = true
  ∧ matches_profanity "skill you" = false.
Proof. vm_compute. repeat split. Qed.

(** Long content escalates to the LLM tier whatever the age category. *)
Example long_content_requires_llm :
  Py.len long_content = 600
  ∧ matches_profanity long_content = false
  ∧ matches_harmful_url long_content = false
  ∧ _requires_llm_analysis long_content adult_user = true.
Proof. vm_compute. repeat split. Qed.

(** The lunch example through a hybrid engine: multi-layer route, allowed. *)
Example hybrid_lunch :
  ∃ st r,
    CurationEngine_curate_content env_with_baml HYBRID
      "Just had a great lunch today" adult_user fresh_state = (Ok 0, st)
    ∧ heap st !! 0 = Some r
    ∧ action r = "allow"
    ∧ strategy_used r = "hybrid_multi"
    ∧ llm_calls st = 0.
Proof.
  eexists _, _. split; [vm_compute; reflexivity|]. repeat split.
Qed.

(** Three toxic words stay under the threshold, four exceed it. *)
Example toxicity_scores :
  PrimFloat.ltb toxicity_threshold (_mock_toxicity_analysis "stupid idiot moron") = false
  ∧ PrimFloat.ltb toxicity_threshold
      (_mock_toxicity_analysis "stupid idiot moron, a threat") = true
  ∧ reason (toxicity_block (_mock_toxicity_analysis "stupid idiot moron, a threat") 0)
    = "High toxicity detected (score: 0.80)".
Proof. vm_compute. repeat split. Qed.

(** ** Properties of the engine

    Two assumptions recur. [clock_sane]: the clock readings are ordinary
    numbers, so that [int(...)] of an elapsed time does not raise. [wf]: the
    cache holds references to objects that exist, as any Python dictionary
    does. *)

Section Claims.

Context (E : Env).

(** C5. [FastFilterLayer.check] decides from the content alone. It returns
    the blocking result of the first category with a matching rule, the
    profanity rules being tried before the URL rules: action "block" with
    confidence 0.95 for a profanity or harmful-language match, 0.90 for a
    harmful-URL match. It returns no result exactly when no rule of either
    category matches. Only the measured [processing_time_ms] comes from
    outside the content (the clock); the cache and the existing objects are
    left alone. *)
Theorem FastFilterLayer_check_first_match (content : string) (st : State) :
  clock_sane E →
  ∃ ms : Z,
    FastFilterLayer_check E content st =
      (if matches_profanity content
       then (Ok (Some (length (heap st))), push (profanity_block ms) (tick (tick st)))
       else if matches_harmful_url content
       then (Ok (Some (length (heap st))), push (harmful_url_block ms) (tick (tick st)))
       else (Ok None, tick st))
    ∧ action (profanity_block ms) = "block"
    ∧ confidence (profanity_block ms) = 0.95%float
    ∧ action (harmful_url_block ms) = "block"
    ∧ confidence (harmful_url_block ms) = 0.9%float
    ∧ (fst (FastFilterLayer_check E content st) = Ok None ↔
       ∀ p, p ∈ profanity_patterns ++ harmful_url_patterns →
            pattern_search p content = false).
Proof.
  intros Hs. exists (ms_between E (ticks st) (S (ticks st))).
  rewrite (FastFilterLayer_check_run _ _ _ Hs). cbv zeta.
  split; [reflexivity|]. do 4 (split; [reflexivity|]).
  assert (Hall : (∀ p, p ∈ profanity_patterns ++ harmful_url_patterns →
                       pattern_search p content = false)
                 ↔ matches_profanity content = false
                   ∧ matches_harmful_url content = false).
  { unfold matches_profanity, matches_harmful_url.
    rewrite <- orb_false_iff, <- existsb_app, <- not_true_iff_false, existsb_exists.
    split.
    - intros H (p & Hin & Hp). apply list_elem_of_In in Hin.
      rewrite (H p Hin) in Hp. discriminate.
    - intros H p Hin. apply not_true_iff_false. intros Hp.
      apply H. exists p. split; [by apply list_elem_of_In | done]. }
  rewrite Hall.
  destruct (matches_profanity content), (matches_harmful_url content); simpl;
    split; try done; intros [? ?]; done.
Qed.



(** C7. When a call of [MultiLayerStrategy.analyze_content] returns a
    result, the next call with the same content and age category is served
    from the cache and returns a result with the same action, confidence and
    safety_score (and reason and strategy_used); it differs only in
    [processing_time_ms], now 1, and in the metadata, now carrying
    [cache_hit = True]. *)
Theorem MultiLayerStrategy_second_call_is_cache_hit
    (content : string) (uc uc2 : UserContext) (st st1 : State) (l1 : nat) :
  clock_sane E → wf st →
  age_category uc2 = age_category uc →
  MultiLayerStrategy_analyze_content E content uc st = (Ok l1, st1) →
  ∃ r1 st2 r2,
    heap st1 !! l1 = Some r1
    ∧ cache st1 !! cache_key E content uc2 = Some l1
    ∧ MultiLayerStrategy_analyze_content E content uc2 st1 = (Ok l1, st2)
    ∧ heap st2 !! l1 = Some r2
    ∧ action r2 = action r1
    ∧ confidence r2 = confidence r1
    ∧ safety_score r2 = safety_score r1
    ∧ reason r2 = reason r1
    ∧ strategy_used r2 = strategy_used r1
    ∧ processing_time_ms r2 = NInt 1
    ∧ metadata r2 = Some (<["cache_hit" := VBool true]> (or_empty (metadata r1)))
    ∧ cache st2 = cache st1
    ∧ llm_calls st2 = llm_calls st1.
Proof.
  intros Hs Hwf Hage Hrun.
  destruct (MultiLayerStrategy_analyze_content_cached _ _ _ _ _ _ Hs Hwf Hrun)
    as [Hl Hk].
  assert (Hkey : cache_key E content uc2 = cache_key E content uc).
  { unfold cache_key. by rewrite Hage. }
  destruct (lookup_lt_is_Some_2 _ _ Hl) as [r1 Hr1].
  rewrite MultiLayerStrategy_analyze_content_run, Hkey, Hk.
  eexists r1, _, _. split; [exact Hr1|]. split; [reflexivity|].
  split; [reflexivity|]. simpl.
  rewrite !list_lookup_alter_eq, Hr1. simpl. split; [reflexivity|]. done.
Qed.

(** C10. When the escalation step is reached (cache miss, both filter
    layers pass, LLM analysis is required and configured) and the delegated
    analysis raises, the exception leaves [MultiLayerStrategy.analyze_content]
    and the cache is as before: no entry under the key of this request, no
    object created. An identical request made next runs the layers again
    instead of the cache-hit branch. *)
Theorem MultiLayerStrategy_llm_failure_not_cached
    (content : string) (uc : UserContext) (st : State) (e : Exn) :
  clock_sane E →
  cache st !! cache_key E content uc = None →
  matches_profanity content = false →
  matches_harmful_url content = false →
  PrimFloat.ltb toxicity_threshold (_mock_toxicity_analysis content) = false →
  PrimFloat.ltb nsfw_threshold (_mock_nsfw_analysis content) = false →
  _requires_llm_analysis content uc = true →
  BAML_AVAILABLE E = true →
  llm E (llm_calls st) content uc = Raise e →
  ∃ st',
    MultiLayerStrategy_analyze_content E content uc st = (Raise e, st')
    ∧ cache st' = cache st
    ∧ heap st' = heap st
    ∧ cache st' !! cache_key E content uc = None
    ∧ MultiLayerStrategy_analyze_content E content uc st' =
        layers E (clock E (ticks st')) (cache_key E content uc) content uc (tick st').
Proof.
  intros Hs Hk Hp Hu Ht Hn Hreq HB He.
  rewrite MultiLayerStrategy_analyze_content_run, Hk.
  rewrite (layers_run _ _ _ _ _ _ Hs). cbv zeta.
  rewrite Hp, Hu, Ht, Hn, Hreq, HB.
  change (llm_calls (tick st)) with (llm_calls st). rewrite He.
  eexists. split; [reflexivity|]. simpl.
  do 3 (split; [done|]).
  rewrite MultiLayerStrategy_analyze_content_run. simpl. by rewrite Hk.
Qed.

(** C1. [CurationEngine.curate_content] always returns a result object and
    never an exception, whatever the strategy, the content and the user
    context. When the active strategy's [analyze_content] raises, the result
    has action "caution", confidence 0.0, a reason that contains the message
    of the exception, and strategy_used "error_handling". *)
Theorem CurationEngine_curate_content_never_raises
    (strategy : CurationStrategy) (content : string) (uc : UserContext) (st : State) :
  clock_sane E → wf st →
  ∃ l st' r,
    CurationEngine_curate_content E strategy content uc st = (Ok l, st')
    ∧ heap st' !! l = Some r
    ∧ ∀ e st1,
        strategy_analyze_content E strategy content uc (tick st) = (Raise e, st1) →
        action r = "caution"
        ∧ confidence r = 0%float
        ∧ Py.contains (str_exn e) (reason r) = true
        ∧ strategy_used r = "error_handling".
Proof.
  intros Hs Hwf. rewrite (CurationEngine_curate_content_run _ _ _ _ _ Hs).
  destruct (strategy_analyze_content E strategy content uc (tick st))
    as [[l|e] st1] eqn:Hrun.
  - apply (strategy_analyze_content_valid _ _ _ _ _ _ _ Hs) in Hrun as Hl; [|done].
    destruct (lookup_lt_is_Some_2 _ _ Hl) as [r0 Hr0].
    eexists l, _, _. split; [reflexivity|]. simpl.
    rewrite !list_lookup_alter_eq, Hr0. split; [reflexivity|]. discriminate.
  - eexists _, _, _. split; [reflexivity|]. simpl.
    split; [apply list_lookup_middle; reflexivity|].
    intros e' st1' [= <- <-]. simpl.
    split; [done|]. split; [done|]. split; [|done].
    apply (contains_app_r "Engine error: ").
Qed.

(** C8, as the code has it. On the success path the result returned by
    [CurationEngine.curate_content] is the strategy's object with the keys
    [engine_strategy] and [total_processing_time_ms] written into its
    metadata, and every key the strategy had set is still present. On the
    error path the metadata holds the key [error] and nothing else. *)
Theorem CurationEngine_curate_content_metadata
    (strategy : CurationStrategy) (content : string) (uc : UserContext) (st : State) :
  clock_sane E → wf st →
  ∃ l st' r md,
    CurationEngine_curate_content E strategy content uc st = (Ok l, st')
    ∧ heap st' !! l = Some r
    ∧ metadata r = Some md
    ∧ match strategy_analyze_content E strategy content uc (tick st) with
      | (Ok l0, st1) =>
          l = l0
          ∧ md !! "engine_strategy" = Some (VStr (CurationStrategy_value strategy))
          ∧ (∃ z, md !! "total_processing_time_ms" = Some (VInt z))
          ∧ ∃ r0, heap st1 !! l0 = Some r0
                  ∧ (∀ k, is_Some (or_empty (metadata r0) !! k) → is_Some (md !! k))
                  ∧ (∀ k, k ≠ "engine_strategy" → k ≠ "total_processing_time_ms" →
                          md !! k = or_empty (metadata r0) !! k)
      | (Raise e, _) => md = {[ "error" := VStr (str_exn e) ]}
      end.
Proof.
  intros Hs Hwf. rewrite (CurationEngine_curate_content_run _ _ _ _ _ Hs).
  destruct (strategy_analyze_content E strategy content uc (tick st))
    as [[l|e] st1] eqn:Hrun.
  - apply (strategy_analyze_content_valid _ _ _ _ _ _ _ Hs) in Hrun as Hl; [|done].
    destruct (lookup_lt_is_Some_2 _ _ Hl) as [r0 Hr0].
    eexists l, _, _, _. split; [reflexivity|]. simpl.
    rewrite !list_lookup_alter_eq, Hr0. simpl.
    split; [reflexivity|]. split; [reflexivity|]. split; [reflexivity|].
    split; [by rewrite lookup_insert_ne, lookup_insert_eq|].
    split; [eexists; apply lookup_insert_eq|].
    exists r0. split; [done|]. split.
    + intros k Hk. rewrite !lookup_insert. repeat case_decide; eauto.
    + intros k Hk1 Hk2. by rewrite !lookup_insert_ne.
  - eexists _, _, _, _. split; [reflexivity|]. simpl.
    split; [apply list_lookup_middle; reflexivity|]. split; reflexivity.
Qed.

(** C2, as the code has it. On a cache hit [analyze_content] returns the
    cached object itself, not a copy. It sets that object's
    [processing_time_ms] to 1 and its metadata key [cache_hit] to [True] in
    place; the object's action, reason, confidence, safety_score and
    strategy_used, every other object and the cache stay as they were. *)
Theorem MultiLayerStrategy_cache_hit_in_place
    (content : string) (uc : UserContext) (st : State) (l : nat) (r : CurationResult) :
  cache st !! cache_key E content uc = Some l →
  heap st !! l = Some r →
  ∃ st' r',
    MultiLayerStrategy_analyze_content E content uc st = (Ok l, st')
    ∧ heap st' !! l = Some r'
    ∧ processing_time_ms r' = NInt 1
    ∧ metadata r' = Some (<["cache_hit" := VBool true]> (or_empty (metadata r)))
    ∧ action r' = action r
    ∧ reason r' = reason r
    ∧ confidence r' = confidence r
    ∧ safety_score r' = safety_score r
    ∧ strategy_used r' = strategy_used r
    ∧ length (heap st') = length (heap st)
    ∧ (∀ l', l' ≠ l → heap st' !! l' = heap st !! l')
    ∧ cache st' = cache st.
Proof.
  intros Hk Hr. rewrite MultiLayerStrategy_analyze_content_run, Hk.
  eexists _, _. split; [reflexivity|]. simpl.
  rewrite !list_lookup_alter_eq, Hr. simpl. split; [reflexivity|].
  do 7 (split; [reflexivity|]). rewrite !length_alter. split; [reflexivity|].
  split; [|reflexivity]. intros l' Hne. by rewrite !list_lookup_alter_ne.
Qed.

(** C6. [HybridStrategy.analyze_content] delegates to [LLMOnlyStrategy] and
    retags the result "hybrid_llm" exactly when [_should_use_llm_only] holds,
    that is when the lower-cased content contains "demo" or "test", or a word
    of the nuance watchlist, or a word of the educational watchlist, or more
    than one word of the political watchlist; otherwise it delegates to
    [MultiLayerStrategy] and retags the result "hybrid_multi". An exception of
    the delegate passes through. Content containing "education" is routed to
    the LLM and a result returned for it reads "hybrid_llm". *)
Theorem HybridStrategy_routing
    (content : string) (uc : UserContext) (st : State) :
  clock_sane E → wf st →
  (_should_use_llm_only content uc = true ↔ routes_to_llm content)
  ∧ HybridStrategy_analyze_content E content uc st =
      (if _should_use_llm_only content uc
       then retag "hybrid_llm" (LLMOnlyStrategy_analyze_content E content uc st)
       else retag "hybrid_multi" (MultiLayerStrategy_analyze_content E content uc st))
  ∧ (∀ l st',
       HybridStrategy_analyze_content E content uc st = (Ok l, st') →
       ∃ r, heap st' !! l = Some r
            ∧ strategy_used r =
                if _should_use_llm_only content uc then "hybrid_llm" else "hybrid_multi")
  ∧ (Py.contains "education" content = true →
     _should_use_llm_only content uc = true).
Proof.
  intros Hs Hwf. split; [apply _should_use_llm_only_spec|].
  split; [apply HybridStrategy_analyze_content_run|]. split.
  - intros l st' Hrun. rewrite HybridStrategy_analyze_content_run in Hrun.
    destruct (_should_use_llm_only content uc).
    + destruct (LLMOnlyStrategy_analyze_content E content uc st)
        as [[l0|e] st0] eqn:Hd; [|discriminate].
      injection Hrun as <- <-.
      apply (LLMOnlyStrategy_analyze_content_fresh _ _ _ _ _ _ Hs) in Hd
        as (-> & r & Hh & _).
      simpl. rewrite Hh, list_lookup_alter_eq, list_lookup_middle by done.
      eexists. split; reflexivity.
    + destruct (MultiLayerStrategy_analyze_content E content uc st)
        as [[l0|e] st0] eqn:Hd; [|discriminate].
      injection Hrun as <- <-.
      apply (MultiLayerStrategy_analyze_content_cached _ _ _ _ _ _ Hs Hwf) in Hd
        as [Hl _].
      destruct (lookup_lt_is_Some_2 _ _ Hl) as [r0 Hr0].
      simpl. rewrite list_lookup_alter_eq, Hr0. eexists. split; reflexivity.
  - intros Hedu. apply _should_use_llm_only_spec. right. right. left.
    exists "education". split.
    + unfold educational_watchlist. set_solver.
    + apply (contains_lower "education"), Hedu.
Qed.

End Claims.

(** ** Properties at concrete inputs *)

(** C9. With no LLM capability configured, a question about an opinion put
    by an adult user to a freshly built [MultiLayerStrategy] takes the caution
    branch, and the result it returns holds a float (here between 4 and 5)
    in [processing_time_ms], not an integer: that branch stores the elapsed
    time without the [int(...)] every other branch applies. *)
Theorem cautious_result_processing_time_is_float :
  ∃ l st' r x,
    MultiLayerStrategy_analyze_content env_without_baml "What is your opinion?"
      adult_user fresh_state = (Ok l, st')
    ∧ heap st' !! l = Some r
    ∧ action r = "caution"
    ∧ strategy_used r = "multi_layer_cautious"
    ∧ processing_time_ms r = NFloat x
    ∧ (∀ z, processing_time_ms r ≠ NInt z)
    ∧ PrimFloat.ltb 4 x = true ∧ PrimFloat.ltb x 5 = true.
Proof.
  eexists 0, _, _, _. split; [vm_compute; reflexivity|].
  split; [reflexivity|]. split; [reflexivity|]. split; [reflexivity|].
  split; [reflexivity|]. split; [discriminate|]. split; reflexivity.
Qed.

(** C2 fails as stated: after a first call has cached its result (object 0),
    the second call returns that very object and no new one, and the object
    in the cache has changed: its [processing_time_ms] went from 4 to 1. *)
Lemma cache_hit_mutates_cached_instance :
  let content := "Just had a great lunch today" in
  let first := MultiLayerStrategy_analyze_content env_without_baml content
                 adult_user fresh_state in
  let second := MultiLayerStrategy_analyze_content env_without_baml content
                  adult_user first.2 in
  cache first.2 !! cache_key env_without_baml content adult_user = Some 0
  ∧ second.1 = Ok 0
  ∧ length (heap second.2) = length (heap first.2)
  ∧ processing_time_ms <$> heap first.2 !! 0 = Some (NInt 4)
  ∧ processing_time_ms <$> heap second.2 !! 0 = Some (NInt 1)
  ∧ heap second.2 !! 0 ≠ heap first.2 !! 0.
Proof.
  cbv zeta. split; [vm_compute; reflexivity|]. split; [vm_compute; reflexivity|].
  split; [vm_compute; reflexivity|].
  assert (H1 : processing_time_ms <$>
                 heap (MultiLayerStrategy_analyze_content env_without_baml
                         "Just had a great lunch today" adult_user fresh_state).2 !! 0
               = Some (NInt 4)) by (vm_compute; reflexivity).
  assert (H2 : processing_time_ms <$>
                 heap (MultiLayerStrategy_analyze_content env_without_baml
                         "Just had a great lunch today" adult_user
                         (MultiLayerStrategy_analyze_content env_without_baml
                            "Just had a great lunch today" adult_user fresh_state).2).2
                   !! 0
               = Some (NInt 1)) by (vm_compute; reflexivity).
  split; [exact H1|]. split; [exact H2|].
  intros Heq. rewrite Heq, H1 in H2. discriminate H2.
Qed.

(** C8 fails as stated: when the strategy raises (the LLM-only strategy
    without its analyzer), the result the engine returns has neither
    [engine_strategy] nor [total_processing_time_ms] in its metadata. *)
Lemma error_result_lacks_engine_metadata :
  ∃ l st' r md,
    CurationEngine_curate_content env_without_baml LLM_ONLY
      "AI helps doctors diagnose diseases faster" adult_user fresh_state = (Ok l, st')
    ∧ heap st' !! l = Some r
    ∧ strategy_used r = "error_handling"
    ∧ metadata r = Some md
    ∧ md !! "engine_strategy" = None
    ∧ md !! "total_processing_time_ms" = None.
Proof.
  eexists 0, _, _, _. split; [vm_compute; reflexivity|].
  split; [reflexivity|]. split; [reflexivity|]. split; [reflexivity|].
  split; reflexivity.
Qed.



(** *** Instances of the theorems *)

(** C5 on a content with a suspicious short link. *)
Lemma FastFilterLayer_check_first_match_witness :
  clock_sane env_without_baml
  ∧ ∃ ms : Z,
      FastFilterLayer_check env_without_baml "Click this: bit.ly/abc123" fresh_state =
        (if matches_profanity "Click this: bit.ly/abc123"
         then (Ok (Some (length (heap fresh_state))),
               push (profanity_block ms) (tick (tick fresh_state)))
         else if matches_harmful_url "Click this: bit.ly/abc123"
         then (Ok (Some (length (heap fresh_state))),
               push (harmful_url_block ms) (tick (tick fresh_state)))
         else (Ok None, tick fresh_state))
      ∧ action (profanity_block ms) = "block"
      ∧ confidence (profanity_block ms) = 0.95%float
      ∧ action (harmful_url_block ms) = "block"
      ∧ confidence (harmful_url_block ms) = 0.9%float
      ∧ (fst (FastFilterLayer_check env_without_baml "Click this: bit.ly/abc123"
                fresh_state) = Ok None ↔
         ∀ p, p ∈ profanity_patterns ++ harmful_url_patterns →
              pattern_search p "Click this: bit.ly/abc123" = false).
Proof.
  split; [exact env_without_baml_sane|].
  exact (FastFilterLayer_check_first_match env_without_baml
           "Click this: bit.ly/abc123" fresh_state env_without_baml_sane).
Defined.



(** C7 on the lunch example, the second request coming with another
    jurisdiction but the same age category. *)
Lemma MultiLayerStrategy_second_call_is_cache_hit_witness :
  let content := "Just had a great lunch today" in
  let uc2 := mkUserContext ADULT "EU" "STRICT" [] "HIGH" in
  let st1 := (MultiLayerStrategy_analyze_content env_with_baml content adult_user
                fresh_state).2 in
  ∃ r1 st2 r2,
    heap st1 !! 0 = Some r1
    ∧ cache st1 !! cache_key env_with_baml content uc2 = Some 0
    ∧ MultiLayerStrategy_analyze_content env_with_baml content uc2 st1 = (Ok 0, st2)
    ∧ heap st2 !! 0 = Some r2
    ∧ action r2 = action r1
    ∧ confidence r2 = confidence r1
    ∧ safety_score r2 = safety_score r1
    ∧ reason r2 = reason r1
    ∧ strategy_used r2 = strategy_used r1
    ∧ processing_time_ms r2 = NInt 1
    ∧ metadata r2 = Some (<["cache_hit" := VBool true]> (or_empty (metadata r1)))
    ∧ cache st2 = cache st1
    ∧ llm_calls st2 = llm_calls st1.
Proof.
  cbv zeta.
  apply (MultiLayerStrategy_second_call_is_cache_hit env_with_baml
           "Just had a great lunch today" adult_user
           (mkUserContext ADULT "EU" "STRICT" [] "HIGH") fresh_state _ 0
           env_with_baml_sane (wf_fresh _ _ _)).
  - reflexivity.
  - vm_compute. reflexivity.
Defined.

(** C10 with an analyzer that times out. *)
Lemma MultiLayerStrategy_llm_failure_not_cached_witness :
  let content := "What is your opinion?" in
  let key := cache_key env_failing_llm content adult_user in
  ∃ st',
    MultiLayerStrategy_analyze_content env_failing_llm content adult_user fresh_state
      = (Raise (Exception "LLM backend timed out"), st')
    ∧ cache st' = cache fresh_state
    ∧ heap st' = heap fresh_state
    ∧ cache st' !! key = None
    ∧ MultiLayerStrategy_analyze_content env_failing_llm content adult_user st' =
        layers env_failing_llm (clock env_failing_llm (ticks st')) key content
          adult_user (tick st').
Proof.
  cbv zeta.
  apply (MultiLayerStrategy_llm_failure_not_cached env_failing_llm
           "What is your opinion?" adult_user fresh_state
           (Exception "LLM backend timed out") env_failing_llm_sane).
  - reflexivity.
  - vm_compute. reflexivity.
  - vm_compute. reflexivity.
  - vm_compute. reflexivity.
  - vm_compute. reflexivity.
  - vm_compute. reflexivity.
  - reflexivity.
  - reflexivity.
Defined.

(** C1 with the LLM-only strategy and no analyzer: the strategy raises. *)
Lemma CurationEngine_curate_content_never_raises_witness :
  let content := "AI helps doctors diagnose diseases faster" in
  ∃ l st' r,
    CurationEngine_curate_content env_without_baml LLM_ONLY content adult_user
      fresh_state = (Ok l, st')
    ∧ heap st' !! l = Some r
    ∧ ∀ e st1,
        strategy_analyze_content env_without_baml LLM_ONLY content adult_user
          (tick fresh_state) = (Raise e, st1) →
        action r = "caution"
        ∧ confidence r = 0%float
        ∧ Py.contains (str_exn e) (reason r) = true
        ∧ strategy_used r = "error_handling".
Proof.
  cbv zeta.
  exact (CurationEngine_curate_content_never_raises env_without_baml LLM_ONLY
           "AI helps doctors diagnose diseases faster" adult_user fresh_state
           env_without_baml_sane (wf_fresh _ _ _)).
Defined.

(** C8 (as the code has it) with the hybrid strategy on the success path. *)
Lemma CurationEngine_curate_content_metadata_witness :
  let content := "Online education for everyone" in
  ∃ l st' r md,
    CurationEngine_curate_content env_with_baml HYBRID content adult_user fresh_state
      = (Ok l, st')
    ∧ heap st' !! l = Some r
    ∧ metadata r = Some md
    ∧ match strategy_analyze_content env_with_baml HYBRID content adult_user
              (tick fresh_state) with
      | (Ok l0, st1) =>
          l = l0
          ∧ md !! "engine_strategy" = Some (VStr (CurationStrategy_value HYBRID))
          ∧ (∃ z, md !! "total_processing_time_ms" = Some (VInt z))
          ∧ ∃ r0, heap st1 !! l0 = Some r0
                  ∧ (∀ k, is_Some (or_empty (metadata r0) !! k) → is_Some (md !! k))
                  ∧ (∀ k, k ≠ "engine_strategy" → k ≠ "total_processing_time_ms" →
                          md !! k = or_empty (metadata r0) !! k)
      | (Raise e, _) => md = {[ "error" := VStr (str_exn e) ]}
      end.
Proof.
  cbv zeta.
  exact (CurationEngine_curate_content_metadata env_with_baml HYBRID
           "Online education for everyone" adult_user fresh_state
           env_with_baml_sane (wf_fresh _ _ _)).
Defined.

(** C2 (as the code has it) on the state left by a first request. *)
Lemma MultiLayerStrategy_cache_hit_in_place_witness :
  let content := "Just had a great lunch today" in
  let st := (MultiLayerStrategy_analyze_content env_without_baml content adult_user
               fresh_state).2 in
  let r := allow_result 4 in
  ∃ st' r',
    MultiLayerStrategy_analyze_content env_without_baml content adult_user st
      = (Ok 0, st')
    ∧ heap st' !! 0 = Some r'
    ∧ processing_time_ms r' = NInt 1
    ∧ metadata r' = Some (<["cache_hit" := VBool true]> (or_empty (metadata r)))
    ∧ action r' = action r
    ∧ reason r' = reason r
    ∧ confidence r' = confidence r
    ∧ safety_score r' = safety_score r
    ∧ strategy_used r' = strategy_used r
    ∧ length (heap st') = length (heap st)
    ∧ (∀ l', l' ≠ 0 → heap st' !! l' = heap st !! l')
    ∧ cache st' = cache st.
Proof.
  cbv zeta.
  apply (MultiLayerStrategy_cache_hit_in_place env_without_baml
           "Just had a great lunch today" adult_user _ 0 (allow_result 4)).
  - vm_compute. reflexivity.
  - vm_compute. reflexivity.
Defined.

(** C6 on a content with the word "education". *)
Lemma HybridStrategy_routing_witness :
  let content := "Online education for everyone" in
  (_should_use_llm_only content adult_user = true ↔ routes_to_llm content)
  ∧ HybridStrategy_analyze_content env_with_baml content adult_user fresh_state =
      (if _should_use_llm_only content adult_user
       then retag "hybrid_llm"
              (LLMOnlyStrategy_analyze_content env_with_baml content adult_user
                 fresh_state)
       else retag "hybrid_multi"
              (MultiLayerStrategy_analyze_content env_with_baml content adult_user
                 fresh_state))
  ∧ (∀ l st',
       HybridStrategy_analyze_content env_with_baml content adult_user fresh_state
         = (Ok l, st') →
       ∃ r, heap st' !! l = Some r
            ∧ strategy_used r =
                if _should_use_llm_only content adult_user
                then "hybrid_llm" else "hybrid_multi")
  ∧ (Py.contains "education" content = true →
     _should_use_llm_only content adult_user = true).
Proof.
  cbv zeta.
  exact (HybridStrategy_routing env_with_baml "Online education for everyone"
           adult_user fresh_state env_with_baml_sane (wf_fresh _ _ _)).
Defined.

(** ** Further properties of the layers and strategies *)

(** *** SpecializedAILayer *)

Lemma count_in_le ws s : Py.count_in ws s ≤ length ws.
Proof. unfold Py.count_in. apply List.filter_length_le. Qed.

Lemma toxicity_fires_iff content :
  PrimFloat.ltb toxicity_threshold (_mock_toxicity_analysis content) = true
  ↔ 4 ≤ Py.count_in toxic_words (Py.lower content).
Proof.
  unfold _mock_toxicity_analysis.
  pose proof (count_in_le toxic_words (Py.lower content)) as Hle.
  destruct (Py.count_in toxic_words (Py.lower content)) as [|[|[|[|[|[|[|n]]]]]]];
    simpl in Hle; try lia;
    vm_compute; split; intros H; try discriminate; try reflexivity; lia.
Qed.

Lemma nsfw_fires_iff content :
  PrimFloat.ltb nsfw_threshold (_mock_nsfw_analysis content) = true
  ↔ 4 ≤ Py.count_in nsfw_words (Py.lower content).
Proof.
  unfold _mock_nsfw_analysis.
  pose proof (count_in_le nsfw_words (Py.lower content)) as Hle.
  destruct (Py.count_in nsfw_words (Py.lower content)) as [|[|[|[|[|[|n]]]]]];
    simpl in Hle; try lia;
    vm_compute; split; intros H; try discriminate; try reflexivity; lia.
Qed.

(** X1. Both mock scores lie between 0 and 1. The toxicity score exceeds its
    threshold of 0.7 exactly when at least four of the six toxic words occur
    in the lower-cased content (three give 0.6000000000000001), and the NSFW
    score exceeds 0.8 exactly when at least four of the five NSFW words
    occur. *)
Theorem mock_scores_fire_from_four_words (content : string) :
  (PrimFloat.ltb toxicity_threshold (_mock_toxicity_analysis content) = true
   ↔ 4 ≤ Py.count_in toxic_words (Py.lower content))
  ∧ (PrimFloat.ltb nsfw_threshold (_mock_nsfw_analysis content) = true
     ↔ 4 ≤ Py.count_in nsfw_words (Py.lower content))
  ∧ PrimFloat.leb 0 (_mock_toxicity_analysis content) = true
  ∧ PrimFloat.leb (_mock_toxicity_analysis content) 1 = true
  ∧ PrimFloat.leb 0 (_mock_nsfw_analysis content) = true
  ∧ PrimFloat.leb (_mock_nsfw_analysis content) 1 = true.
Proof.
  split; [apply toxicity_fires_iff|]. split; [apply nsfw_fires_iff|].
  unfold _mock_toxicity_analysis, _mock_nsfw_analysis.
  pose proof (count_in_le toxic_words (Py.lower content)) as Ht.
  pose proof (count_in_le nsfw_words (Py.lower content)) as Hn.
  destruct (Py.count_in toxic_words (Py.lower content)) as [|[|[|[|[|[|[|t]]]]]]];
    simpl in Ht; try lia;
    destruct (Py.count_in nsfw_words (Py.lower content)) as [|[|[|[|[|[|n]]]]]];
    simpl in Hn; try lia; vm_compute; repeat split.
Qed.

Lemma nsfw_score_when_firing content :
  4 ≤ Py.count_in nsfw_words (Py.lower content) →
  _mock_nsfw_analysis content = 1%float.
Proof.
  unfold _mock_nsfw_analysis.
  pose proof (count_in_le nsfw_words (Py.lower content)) as Hle.
  destruct (Py.count_in nsfw_words (Py.lower content)) as [|[|[|[|[|[|n]]]]]];
    simpl in Hle; intros H; try lia; vm_compute; reflexivity.
Qed.

Lemma toxicity_block_safety content :
  4 ≤ Py.count_in toxic_words (Py.lower content) →
  PrimFloat.leb (PrimFloat.sub 1 (_mock_toxicity_analysis content)) 0.2 = true
  ∧ PrimFloat.leb 0 (PrimFloat.sub 1 (_mock_toxicity_analysis content)) = true.
Proof.
  unfold _mock_toxicity_analysis.
  pose proof (count_in_le toxic_words (Py.lower content)) as Hle.
  destruct (Py.count_in toxic_words (Py.lower content)) as [|[|[|[|[|[|[|n]]]]]]];
    simpl in Hle; intros H; try lia; vm_compute; split; reflexivity.
Qed.

Section Further.

Context (E : Env).

(** X2. [SpecializedAILayer.analyze] blocks for toxicity when four or more
    toxic words occur, whether or not the NSFW words do as well; otherwise it
    blocks for NSFW when four or more NSFW words occur; otherwise it returns
    no result. A toxicity block has a safety score between 0 and 0.2; an NSFW
    block always has score 1.00 in its reason and safety score 0. The cache
    and the existing objects are left alone. *)
Theorem SpecializedAILayer_analyze_outcome (content : string) (st : State) :
  clock_sane E →
  ∃ ms : Z,
    SpecializedAILayer_analyze E content st =
      (if bool_decide (4 ≤ Py.count_in toxic_words (Py.lower content))
       then (Ok (Some (length (heap st))),
             push (toxicity_block (_mock_toxicity_analysis content) ms) (tick (tick st)))
       else if bool_decide (4 ≤ Py.count_in nsfw_words (Py.lower content))
       then (Ok (Some (length (heap st))), push (nsfw_block 1 ms) (tick (tick st)))
       else (Ok None, tick st))
    ∧ (4 ≤ Py.count_in toxic_words (Py.lower content) →
       let r := toxicity_block (_mock_toxicity_analysis content) ms in
       action r = "block" ∧ confidence r = 0.85%float
       ∧ PrimFloat.leb 0 (safety_score r) = true
       ∧ PrimFloat.leb (safety_score r) 0.2 = true)
    ∧ action (nsfw_block 1 ms) = "block"
    ∧ confidence (nsfw_block 1 ms) = 0.9%float
    ∧ safety_score (nsfw_block 1 ms) = 0%float
    ∧ reason (nsfw_block 1 ms) = "NSFW content detected (score: 1.00)".
Proof.
  intros Hs. exists (ms_between E (ticks st) (S (ticks st))).
  split; [|split; [|repeat split]].
  - rewrite (SpecializedAILayer_analyze_run _ _ _ Hs). cbv zeta.
    destruct (PrimFloat.ltb toxicity_threshold _) eqn:Ht.
    + apply toxicity_fires_iff in Ht. by rewrite bool_decide_eq_true_2.
    + rewrite bool_decide_eq_false_2
        by (intros H; apply toxicity_fires_iff in H; congruence).
      destruct (PrimFloat.ltb nsfw_threshold _) eqn:Hn.
      * apply nsfw_fires_iff in Hn. rewrite bool_decide_eq_true_2 by done.
        by rewrite (nsfw_score_when_firing _ Hn).
      * by rewrite bool_decide_eq_false_2
          by (intros H; apply nsfw_fires_iff in H; congruence).
  - intros Ht. cbv zeta. simpl.
    destruct (toxicity_block_safety _ Ht) as [H1 H2]. repeat split; assumption.
Qed.

(** *** MultiLayerStrategy *)

(** X3. [MultiLayerStrategy.analyze_content] calls the analyzer at most once,
    and only when the request misses the cache, passes the fast filter and
    the specialized layer, requires LLM analysis and an LLM is configured.
    A cache hit and a block by either filter layer never reach the analyzer. *)
Theorem MultiLayerStrategy_analyzer_calls
    (content : string) (uc : UserContext) (st : State) :
  clock_sane E →
  llm_calls (MultiLayerStrategy_analyze_content E content uc st).2 =
    if bool_decide (cache st !! cache_key E content uc = None)
       && negb (matches_profanity content)
       && negb (matches_harmful_url content)
       && negb (PrimFloat.ltb toxicity_threshold (_mock_toxicity_analysis content))
       && negb (PrimFloat.ltb nsfw_threshold (_mock_nsfw_analysis content))
       && _requires_llm_analysis content uc
       && BAML_AVAILABLE E
    then S (llm_calls st) else llm_calls st.
Proof.
  intros Hs. rewrite MultiLayerStrategy_analyze_content_run.
  destruct (cache st !! cache_key E content uc) as [l|] eqn:Hk.
  - rewrite bool_decide_eq_false_2 by done. reflexivity.
  - rewrite bool_decide_eq_true_2 by done.
    rewrite (layers_run _ _ _ _ _ _ Hs). cbv zeta.
    destruct (matches_profanity content); [reflexivity|].
    destruct (matches_harmful_url content); [reflexivity|].
    destruct (PrimFloat.ltb toxicity_threshold _); [reflexivity|].
    destruct (PrimFloat.ltb nsfw_threshold _); [reflexivity|].
    destruct (_requires_llm_analysis content uc); [|reflexivity].
    destruct (BAML_AVAILABLE E); [|reflexivity].
    destruct (llm E (llm_calls (tick st)) content uc); reflexivity.
Qed.

(** X4. A call of [MultiLayerStrategy.analyze_content] never removes or
    redirects a cache entry, writes at most the entry of its own key, creates
    at most one object, and changes no existing object except, on a cache
    hit, the cached one it returns. *)
Theorem MultiLayerStrategy_analyze_content_frame
    (content : string) (uc : UserContext) (st : State) :
  clock_sane E →
  let st' := (MultiLayerStrategy_analyze_content E content uc st).2 in
  (∀ k l, cache st !! k = Some l → cache st' !! k = Some l)
  ∧ (∀ k, k ≠ cache_key E content uc → cache st' !! k = cache st !! k)
  ∧ length (heap st) ≤ length (heap st') ≤ S (length (heap st))
  ∧ (∀ l r, heap st !! l = Some r →
            cache st !! cache_key E content uc ≠ Some l →
            heap st' !! l = Some r).
Proof.
  intros Hs. cbv zeta. rewrite MultiLayerStrategy_analyze_content_run.
  destruct (cache st !! cache_key E content uc) as [l0|] eqn:Hk.
  - simpl. rewrite !length_alter. repeat split; try done; try lia.
    intros l r Hr Hne. rewrite !list_lookup_alter_ne by congruence. done.
  - assert (Hfresh : ∀ (f : CurationResult → CurationResult) h r0 l r,
              h !! l = Some r →
              (alter f (length h) (h ++ [r0])) !! l = Some r).
    { intros f h r0 l r Hr. rewrite alter_last.
      rewrite lookup_app_l; [done | by eapply lookup_lt_Some]. }
    rewrite (layers_run _ _ _ _ _ _ Hs). cbv zeta.
    destruct (matches_profanity content);
      [|destruct (matches_harmful_url content);
        [|destruct (PrimFloat.ltb toxicity_threshold _);
          [|destruct (PrimFloat.ltb nsfw_threshold _);
            [|destruct (_requires_llm_analysis content uc);
              [destruct (BAML_AVAILABLE E);
                [destruct (llm E (llm_calls (tick st)) content uc)|]|]]]]];
      simpl; rewrite ?length_alter, ?length_app; simpl;
      (split; [intros k l Hl; rewrite ?lookup_insert; try case_decide;
               [congruence | done ..] |]);
      (split; [intros k Hne; by rewrite ?lookup_insert_ne |]);
      (split; [lia|]);
      intros l r Hr _; try done;
      first [ by apply Hfresh
            | rewrite lookup_app_l; [done | by eapply lookup_lt_Some] ].
Qed.

(** *** The tag and the verdict of a returned object *)

(** X5. In an instance in use, where no earlier request collides with this
    one in the cache key, the [strategy_used] of a result of
    [MultiLayerStrategy.analyze_content] names the layer that decides the
    request: "fast_filter" when a filter rule matches, else "specialized_ai"
    when a threshold is exceeded, else for content that requires LLM
    analysis "multi_layer_llm" when an LLM is configured and
    "multi_layer_cautious" when not, else "multi_layer_auto". The one
    exception is a cache hit in an instance a [HybridStrategy] owns, where
    the tag can be the "hybrid_multi" that strategy left on the cached
    object. So content that requires LLM analysis is never passed as
    "multi_layer_auto". *)
Theorem MultiLayerStrategy_strategy_used
    (hybrid_owned : bool) (content : string) (uc : UserContext)
    (reqs : list (string * UserContext)) (st st' : State) (l : nat) :
  clock_sane E → served E hybrid_owned reqs st → no_collision E reqs content uc →
  MultiLayerStrategy_analyze_content E content uc st = (Ok l, st') →
  ∃ r,
    heap st' !! l = Some r
    ∧ (strategy_used r =
         (if matches_profanity content || matches_harmful_url content
          then "fast_filter"
          else if PrimFloat.ltb toxicity_threshold (_mock_toxicity_analysis content)
                  || PrimFloat.ltb nsfw_threshold (_mock_nsfw_analysis content)
          then "specialized_ai"
          else if _requires_llm_analysis content uc
          then (if BAML_AVAILABLE E then "multi_layer_llm"
                else "multi_layer_cautious")
          else "multi_layer_auto")
       ∨ (hybrid_owned = true
          ∧ cache st !! cache_key E content uc = Some l
          ∧ strategy_used r = "hybrid_multi")).
Proof.
  intros Hs Hserved Hnc Hrun.
  pose proof (served_sound _ _ _ _ Hs Hserved) as Hsound.
  rewrite MultiLayerStrategy_analyze_content_run in Hrun.
  destruct (cache st !! cache_key E content uc) as [l0|] eqn:Hk.
  - injection Hrun as <- <-.
    destruct (Hsound _ _ Hk) as (r & c & u & Hr & Hin & Hkey & Hm).
    destruct (Hnc _ _ Hin Hkey) as [-> Ha].
    unfold made_for in Hm. rewrite (layer_decision_age _ _ _ _ Ha) in Hm.
    eexists. simpl. rewrite !list_lookup_alter_eq, Hr. simpl.
    split; [reflexivity|]. simpl.
    assert (Hhy : ∀ t, strategy_used r = t
                       ∨ hybrid_owned = true ∧ strategy_used r = "hybrid_multi" →
                       strategy_used r = t
                       ∨ hybrid_owned = true ∧ Some l0 = Some l0
                         ∧ strategy_used r = "hybrid_multi").
    { intros t [? | [? ?]]; [by left | by right]. }
    unfold layer_decision in Hm.
    destruct (matches_profanity content); [by apply Hhy, Hm|].
    destruct (matches_harmful_url content); [by apply Hhy, Hm|].
    destruct (PrimFloat.ltb toxicity_threshold _); [by apply Hhy, Hm|].
    destruct (PrimFloat.ltb nsfw_threshold _); [by apply Hhy, Hm|].
    destruct (_requires_llm_analysis content uc); [|by apply Hhy, Hm].
    destruct (BAML_AVAILABLE E); [by apply Hhy | by apply Hhy, Hm].
  - rewrite (layers_run _ _ _ _ _ _ Hs) in Hrun. cbv zeta in Hrun.
    destruct (matches_profanity content);
      [|destruct (matches_harmful_url content);
        [|destruct (PrimFloat.ltb toxicity_threshold _);
          [|destruct (PrimFloat.ltb nsfw_threshold _);
            [|destruct (_requires_llm_analysis content uc);
              [destruct (BAML_AVAILABLE E);
                [destruct (llm E (llm_calls (tick st)) content uc);
                  [|discriminate]|]|]]]]];
      injection Hrun as <- <-; eexists; simpl;
      rewrite ?alter_last, list_lookup_middle by done;
      (split; [reflexivity | by left]).
Qed.



(** *** LLMOnlyStrategy *)

(** X8. [LLMOnlyStrategy.analyze_content] never writes the cache and never
    changes an existing object. With no analyzer it raises its own error
    without calling anything; with one it makes exactly one call and either
    passes the analyzer's exception on unchanged, creating no object, or
    returns a new object tagged "llm_only" whose action, confidence, safety
    score and reason are the analyzer's, with "caution", 0.7, 0.5 and
    "LLM analysis completed" standing in for a missing entry. *)
Theorem LLMOnlyStrategy_analyze_content_outcome
    (content : string) (uc : UserContext) (st : State) :
  clock_sane E →
  let res := LLMOnlyStrategy_analyze_content E content uc st in
  cache res.2 = cache st
  ∧ (∀ l r, heap st !! l = Some r → heap res.2 !! l = Some r)
  ∧ (BAML_AVAILABLE E = false →
     res.1 = Raise (Exception "LLM-Only Strategy requires BAML but it's not available")
     ∧ heap res.2 = heap st ∧ llm_calls res.2 = llm_calls st)
  ∧ (BAML_AVAILABLE E = true →
     llm_calls res.2 = S (llm_calls st)
     ∧ match llm E (llm_calls st) content uc with
       | Raise e => res.1 = Raise e ∧ heap res.2 = heap st
       | Ok a =>
           res.1 = Ok (length (heap st))
           ∧ ∃ r, heap res.2 = heap st ++ [r]
                  ∧ action r = default "caution" (an_recommendation a)
                  ∧ confidence r = default 0.7%float (an_overall_confidence a)
                  ∧ safety_score r = default 0.5%float (an_safety_score a)
                  ∧ reason r = default "LLM analysis completed" (an_summary_reasoning a)
                  ∧ strategy_used r = "llm_only"
                  ∧ or_empty (metadata r) !! "full_analysis" = Some (VAnalysis a)
       end).
Proof.
  intros Hs. cbv zeta. rewrite (LLMOnlyStrategy_analyze_content_run _ _ _ _ Hs).
  destruct (BAML_AVAILABLE E).
  - destruct (llm E (llm_calls st) content uc) as [a|e]; simpl.
    + split; [reflexivity|]. split.
      { intros l r Hr. rewrite lookup_app_l; [done | by eapply lookup_lt_Some]. }
      split; [discriminate|]. intros _. split; [reflexivity|].
      split; [reflexivity|]. eexists. split; [reflexivity|]. repeat split.
    + split; [reflexivity|]. split; [done|]. split; [discriminate|].
      intros _. repeat split.
  - simpl. split; [reflexivity|]. split; [done|]. split; [|discriminate].
    intros _. repeat split.
Qed.

(** *** HybridStrategy and CurationEngine *)

(** X9. With no LLM configured, an engine running the LLM-only strategy, or
    the hybrid strategy on content it routes to the LLM, answers with the
    error result: action "caution", confidence 0.0, the reason "Engine error:
    LLM-Only Strategy requires BAML but it's not available". The analyzer is
    not called and the cache is not touched. *)
Theorem CurationEngine_without_llm_reports_error
    (strategy : CurationStrategy) (content : string) (uc : UserContext) (st : State) :
  clock_sane E →
  BAML_AVAILABLE E = false →
  strategy = LLM_ONLY
  ∨ (strategy = HYBRID ∧ _should_use_llm_only content uc = true) →
  ∃ st' r,
    CurationEngine_curate_content E strategy content uc st
      = (Ok (length (heap st)), st')
    ∧ heap st' = heap st ++ [r]
    ∧ action r = "caution"
    ∧ confidence r = 0%float
    ∧ reason r = "Engine error: LLM-Only Strategy requires BAML but it's not available"
    ∧ strategy_used r = "error_handling"
    ∧ cache st' = cache st
    ∧ llm_calls st' = llm_calls st.
Proof.
  intros Hs HB Hstrat.
  rewrite (CurationEngine_curate_content_run _ _ _ _ _ Hs).
  assert (Hrun : strategy_analyze_content E strategy content uc (tick st) =
                 (Raise (Exception
                    "LLM-Only Strategy requires BAML but it's not available"),
                  tick (tick st))).
  { destruct Hstrat as [-> | [-> Hroute]]; simpl.
    - by rewrite (LLMOnlyStrategy_analyze_content_run _ _ _ _ Hs), HB.
    - rewrite HybridStrategy_analyze_content_run, Hroute.
      by rewrite (LLMOnlyStrategy_analyze_content_run _ _ _ _ Hs), HB. }
  rewrite Hrun. eexists _, _. split; [reflexivity|]. repeat split.
Qed.

(** X10. [HybridStrategy.analyze_content] keeps no cache for the content it
    routes to the LLM: with an LLM configured, every such request calls the
    analyzer once, leaves the cache as it was, and a result it returns is a
    new object. *)
Theorem HybridStrategy_llm_route_uncached
    (content : string) (uc : UserContext) (st : State) :
  clock_sane E →
  BAML_AVAILABLE E = true →
  _should_use_llm_only content uc = true →
  let res := HybridStrategy_analyze_content E content uc st in
  llm_calls res.2 = S (llm_calls st)
  ∧ cache res.2 = cache st
  ∧ (∀ l, res.1 = Ok l → l = length (heap st) ∧ length (heap res.2) = S l).
Proof.
  intros Hs HB Hroute. cbv zeta.
  rewrite HybridStrategy_analyze_content_run, Hroute.
  rewrite (LLMOnlyStrategy_analyze_content_run _ _ _ _ Hs), HB.
  destruct (llm E (llm_calls st) content uc) as [a|e]; simpl.
  - split; [reflexivity|]. split; [reflexivity|].
    intros l [= <-]. rewrite length_alter, length_app. simpl. lia.
  - split; [reflexivity|]. split; [reflexivity|]. discriminate.
Qed.

(** X11. On the success path [CurationEngine.curate_content] returns the
    object the strategy returned and changes nothing but its metadata: the
    action, reason, confidence, safety score, processing time and strategy
    tag are as the strategy left them, every other object is untouched, and
    so are the cache and the count of analyzer calls. *)
Theorem CurationEngine_curate_content_keeps_decision
    (strategy : CurationStrategy) (content : string) (uc : UserContext)
    (st st1 : State) (l : nat) (r0 : CurationResult) :
  clock_sane E →
  strategy_analyze_content E strategy content uc (tick st) = (Ok l, st1) →
  heap st1 !! l = Some r0 →
  ∃ st' r,
    CurationEngine_curate_content E strategy content uc st = (Ok l, st')
    ∧ heap st' !! l = Some r
    ∧ decision r = decision r0
    ∧ processing_time_ms r = processing_time_ms r0
    ∧ (∀ l', l' ≠ l → heap st' !! l' = heap st1 !! l')
    ∧ length (heap st') = length (heap st1)
    ∧ cache st' = cache st1
    ∧ llm_calls st' = llm_calls st1.
Proof.
  intros Hs Hrun Hr0.
  rewrite (CurationEngine_curate_content_run _ _ _ _ _ Hs), Hrun.
  eexists _, _. split; [reflexivity|]. simpl.
  rewrite !list_lookup_alter_eq, Hr0. simpl. split; [reflexivity|].
  split; [reflexivity|]. split; [reflexivity|].
  rewrite !length_alter. repeat split.
  intros l' Hne. by rewrite !list_lookup_alter_ne.
Qed.

(** X12. When the strategy raises, the result [CurationEngine.curate_content]
    returns is a new object that the cache does not refer to, and the cache
    is as the failed strategy call left it: an error is never replayed from
    the cache. *)
Theorem CurationEngine_error_result_not_cached
    (strategy : CurationStrategy) (content : string) (uc : UserContext)
    (st st1 : State) (e : Exn) :
  clock_sane E → wf st1 →
  strategy_analyze_content E strategy content uc (tick st) = (Raise e, st1) →
  ∃ st' r,
    CurationEngine_curate_content E strategy content uc st
      = (Ok (length (heap st1)), st')
    ∧ heap st' = heap st1 ++ [r]
    ∧ strategy_used r = "error_handling"
    ∧ or_empty (metadata r) !! "error" = Some (VStr (str_exn e))
    ∧ cache st' = cache st1
    ∧ (∀ k, cache st' !! k ≠ Some (length (heap st1))).
Proof.
  intros Hs Hwf Hrun.
  rewrite (CurationEngine_curate_content_run _ _ _ _ _ Hs), Hrun.
  eexists _, _. split; [reflexivity|]. simpl.
  split; [reflexivity|]. split; [reflexivity|].
  split; [apply lookup_singleton_eq|]. split; [reflexivity|].
  intros k Hk. apply Hwf in Hk. lia.
Qed.

Lemma multi_route_first_call strategy content uc st l s0 :
  clock_sane E → wf st →
  strategy = MULTI_LAYER
  ∨ (strategy = HYBRID ∧ _should_use_llm_only content uc = false) →
  strategy_analyze_content E strategy content uc st = (Ok l, s0) →
  l < length (heap s0) ∧ cache s0 !! cache_key E content uc = Some l.
Proof.
  intros Hs Hwf [-> | [-> Hroute]] Hrun; simpl in Hrun.
  - by apply (MultiLayerStrategy_analyze_content_cached _ _ _ _ _ _ Hs Hwf).
  - rewrite HybridStrategy_analyze_content_run, Hroute in Hrun.
    destruct (MultiLayerStrategy_analyze_content E content uc st)
      as [[l0|e] st0] eqn:Hd; [|discriminate].
    injection Hrun as <- <-. simpl. rewrite length_alter.
    by apply (MultiLayerStrategy_analyze_content_cached _ _ _ _ _ _ Hs Hwf).
Qed.

(** X13. Through an engine on the multi-layer strategy, or on the hybrid
    strategy for content it does not route to the LLM: when a request was
    answered by the strategy, the same request made next is answered with the
    same object and the same decision, marked [cache_hit] with a processing
    time of 1 and still stamped with the engine's strategy; no object is
    created and the analyzer is not called. *)
Theorem CurationEngine_repeated_request
    (strategy : CurationStrategy) (content : string) (uc : UserContext)
    (st s0 : State) (l : nat) :
  clock_sane E → wf st →
  strategy = MULTI_LAYER
  ∨ (strategy = HYBRID ∧ _should_use_llm_only content uc = false) →
  strategy_analyze_content E strategy content uc (tick st) = (Ok l, s0) →
  let st1 := (CurationEngine_curate_content E strategy content uc st).2 in
  ∃ r1 st2 r2,
    heap st1 !! l = Some r1
    ∧ CurationEngine_curate_content E strategy content uc st1 = (Ok l, st2)
    ∧ heap st2 !! l = Some r2
    ∧ decision r2 = decision r1
    ∧ processing_time_ms r2 = NInt 1
    ∧ or_empty (metadata r2) !! "cache_hit" = Some (VBool true)
    ∧ or_empty (metadata r2) !! "engine_strategy"
      = Some (VStr (CurationStrategy_value strategy))
    ∧ length (heap st2) = length (heap st1)
    ∧ llm_calls st2 = llm_calls st1.
Proof.
  intros Hs Hwf Hstrat Hrun. cbv zeta.
  destruct (multi_route_first_call _ _ _ (tick st) _ _ Hs Hwf Hstrat Hrun)
    as [Hl Hk].
  destruct (lookup_lt_is_Some_2 _ _ Hl) as [r0 Hr0].
  rewrite (CurationEngine_curate_content_run _ _ _ _ _ Hs), Hrun. simpl.
  rewrite (CurationEngine_curate_content_run _ _ _ _ _ Hs).
  destruct Hstrat as [-> | [-> Hroute]]; simpl.
  - rewrite MultiLayerStrategy_analyze_content_run. simpl. rewrite Hk.
    eexists _, _, _. rewrite !list_lookup_alter_eq, Hr0. simpl.
    split; [reflexivity|]. split; [reflexivity|]. simpl.
    rewrite !list_lookup_alter_eq, Hr0. simpl. split; [reflexivity|].
    rewrite !length_alter. split; [reflexivity|]. split; [reflexivity|].
    split; [simpl; by simplify_map_eq|]. split; [simpl; by simplify_map_eq|].
    split; reflexivity.
  - assert (Htag : strategy_used r0 = "hybrid_multi").
    { simpl in Hrun. rewrite HybridStrategy_analyze_content_run, Hroute in Hrun.
      destruct (MultiLayerStrategy_analyze_content E content uc (tick st))
        as [[l0|e] st0] eqn:Hd; [|discriminate].
      injection Hrun as <- <-. simpl in Hr0.
      rewrite list_lookup_alter_eq in Hr0.
      destruct (heap st0 !! l0); [|discriminate]. by injection Hr0 as <-. }
    rewrite HybridStrategy_analyze_content_run, Hroute.
    rewrite MultiLayerStrategy_analyze_content_run. simpl. rewrite Hk. simpl.
    eexists _, _, _. rewrite !list_lookup_alter_eq, Hr0. simpl.
    split; [reflexivity|]. split; [reflexivity|]. simpl.
    rewrite !list_lookup_alter_eq, Hr0. simpl. split; [reflexivity|].
    rewrite !length_alter. split; [unfold decision; simpl; by rewrite Htag|].
    split; [reflexivity|].
    split; [simpl; by simplify_map_eq|]. split; [simpl; by simplify_map_eq|].
    split; reflexivity.
Qed.

End Further.

(** *** FastFilterLayer: letter case and literal rules *)

Local Ltac all_chars c := destruct c as [[] [] [] [] [] [] [] []]; vm_compute; reflexivity.

Lemma char_lower_idem c : Py.char_lower (Py.char_lower c) = Py.char_lower c.
Proof. all_chars c. Qed.

Lemma isspace_lower c : Py.isspace (Py.char_lower c) = Py.isspace c.
Proof. all_chars c. Qed.

Lemma is_word_lower c : Re.is_word (Py.char_lower c) = Re.is_word c.
Proof. all_chars c. Qed.

Lemma alnum_range_lower c :
  Re.cset_match true (Re.Ranges [("0", "9"); ("a", "z"); ("A", "Z")]%char)
    (Py.char_lower c)
  = Re.cset_match true (Re.Ranges [("0", "9"); ("a", "z"); ("A", "Z")]%char) c.
Proof. all_chars c. Qed.

Lemma chr_match_lower p c :
  Re.chr_match true p c = Ascii.eqb (Py.char_lower p) (Py.char_lower c).
Proof.
  unfold Re.chr_match. destruct (Ascii.eqb_spec p c) as [->|Hne]; simpl.
  - by rewrite Ascii.eqb_refl.
  - reflexivity.
Qed.

Lemma chr_match_lower_arg p c :
  Re.chr_match true p (Py.char_lower c) = Re.chr_match true p c.
Proof. by rewrite !chr_match_lower, char_lower_idem. Qed.

Lemma cset_match_lower r cs c :
  (r = Re.Cls cs ∨ r = Re.PlusCls cs) → case_blind r →
  Re.cset_match true cs (Py.char_lower c) = Re.cset_match true cs c.
Proof.
  intros Hr Hcb. destruct cs as [| |rs].
  - apply isspace_lower.
  - apply is_word_lower.
  - destruct Hr as [-> | ->]; apply Hcb.
Qed.

Lemma at_boundary_lower prev s :
  Re.at_boundary (Py.char_lower <$> prev) (Py.lower s) = Re.at_boundary prev s.
Proof.
  unfold Re.at_boundary. f_equal.
  - destruct prev; simpl; [apply is_word_lower | reflexivity].
  - destruct s; simpl; [reflexivity | apply is_word_lower].
Qed.

Lemma plus_lower p s k k' :
  (∀ c, p (Py.char_lower c) = p c) →
  (∀ q t, k' (Py.char_lower <$> q) (Py.lower t) = k q t) →
  Re.plus p (Py.lower s) k' = Re.plus p s k.
Proof.
  intros Hp Hk. induction s as [|c s IH]; simpl; [reflexivity|].
  rewrite Hp, IH, <- (Hk (Some c) s). reflexivity.
Qed.

Lemma matches_lower r : case_blind r →
  ∀ prev s k k',
    (∀ q t, k' (Py.char_lower <$> q) (Py.lower t) = k q t) →
    Re.matches true r (Py.char_lower <$> prev) (Py.lower s) k'
    = Re.matches true r prev s k.
Proof.
  induction r as [|p|cs|cs| |r1 IH1 r2 IH2|r1 IH1 r2 IH2];
    intros Hcb prev s k k' Hk; cbn [Re.matches].
  - apply Hk.
  - destruct s as [|c s]; cbn [Py.lower]; [reflexivity|].
    rewrite chr_match_lower_arg, <- (Hk (Some c) s). reflexivity.
  - destruct s as [|c s]; cbn [Py.lower]; [reflexivity|].
    rewrite (cset_match_lower (Re.Cls cs)) by auto.
    rewrite <- (Hk (Some c) s). reflexivity.
  - apply plus_lower; [|exact Hk].
    intros c. apply (cset_match_lower (Re.PlusCls cs)); auto.
  - by rewrite at_boundary_lower, Hk.
  - destruct Hcb as [Hc1 Hc2]. apply IH1; [exact Hc1|].
    intros q t. by apply IH2.
  - destruct Hcb as [Hc1 Hc2].
    by rewrite (IH1 Hc1 prev s k k' Hk), (IH2 Hc2 prev s k k' Hk).
Qed.

Lemma search_from_lower r prev s : case_blind r →
  Re.search_from true r (Py.char_lower <$> prev) (Py.lower s)
  = Re.search_from true r prev s.
Proof.
  intros Hcb. revert prev. induction s as [|c s IH]; intros prev.
  - pose proof (matches_lower r Hcb prev "" (λ _ _, true) (λ _ _, true)
                  (λ _ _, eq_refl)) as Hm.
    cbn [Re.search_from Py.lower] in *. by rewrite Hm.
  - pose proof (matches_lower r Hcb prev (String c s) (λ _ _, true) (λ _ _, true)
                  (λ _ _, eq_refl)) as Hm.
    specialize (IH (Some c)).
    cbn [Re.search_from Py.lower] in *. cbn [fmap option_fmap option_map] in IH.
    by rewrite Hm, IH.
Qed.

Lemma filter_patterns_case_blind :
  Forall case_blind (profanity_patterns ++ harmful_url_patterns).
Proof.
  repeat constructor; simpl; repeat split; try exact I; apply alnum_range_lower.
Qed.

Lemma pattern_search_lower p content :
  p ∈ profanity_patterns ++ harmful_url_patterns →
  pattern_search p (Py.lower content) = pattern_search p content.
Proof.
  intros Hin. unfold pattern_search, Re.search.
  apply (search_from_lower p None content).
  by apply (proj1 (Forall_forall _ _) filter_patterns_case_blind).
Qed.

Lemma existsb_search_lower ps content :
  (∀ p, p ∈ ps → p ∈ profanity_patterns ++ harmful_url_patterns) →
  existsb (λ p, pattern_search p (Py.lower content)) ps
  = existsb (λ p, pattern_search p content) ps.
Proof.
  induction ps as [|p ps IH]; intros Hin; simpl; [reflexivity|].
  rewrite pattern_search_lower by (apply Hin; left).
  rewrite IH; [reflexivity|]. intros q Hq. apply Hin. by right.
Qed.

Lemma lower_idem s : Py.lower (Py.lower s) = Py.lower s.
Proof. induction s as [|c s IH]; simpl; [reflexivity|]. by rewrite char_lower_idem, IH. Qed.

Lemma len_lower s : Py.len (Py.lower s) = Py.len s.
Proof. unfold Py.len. induction s as [|c s IH]; simpl; [reflexivity | by rewrite IH]. Qed.

Lemma question_mark_lower c :
  Ascii.eqb "?" (Py.char_lower c) = Ascii.eqb "?" c.
Proof. all_chars c. Qed.

Lemma count_question_lower s : Py.count "?" (Py.lower s) = Py.count "?" s.
Proof.
  induction s as [|c s IH]; cbn [Py.count Py.lower]; [reflexivity|].
  by rewrite question_mark_lower, IH.
Qed.

(** X14. For contents of code points below 256, the verdicts depend on the
    content only through its lower-cased form: two such contents with the
    same lower-cased form get the same answer from the fast filter rules,
    the same toxicity and NSFW scores, the same escalation test and the same
    hybrid routing. (Beyond that range this fails: U+0130 changes the length
    when lower-cased and is not matched like its lower-cased form.) *)
Theorem verdicts_ignore_letter_case (c1 c2 : string) (uc : UserContext) :
  Py.lower c1 = Py.lower c2 →
  matches_profanity c1 = matches_profanity c2
  ∧ matches_harmful_url c1 = matches_harmful_url c2
  ∧ _mock_toxicity_analysis c1 = _mock_toxicity_analysis c2
  ∧ _mock_nsfw_analysis c1 = _mock_nsfw_analysis c2
  ∧ _requires_llm_analysis c1 uc = _requires_llm_analysis c2 uc
  ∧ _should_use_llm_only c1 uc = _should_use_llm_only c2 uc.
Proof.
  intros Hl.
  assert (Hp : ∀ c, matches_profanity (Py.lower c) = matches_profanity c).
  { intros c. apply existsb_search_lower. intros p Hin. apply elem_of_app. by left. }
  assert (Hu : ∀ c, matches_harmful_url (Py.lower c) = matches_harmful_url c).
  { intros c. apply existsb_search_lower. intros p Hin. apply elem_of_app. by right. }
  split; [by rewrite <- (Hp c1), <- (Hp c2), Hl|].
  split; [by rewrite <- (Hu c1), <- (Hu c2), Hl|].
  unfold _mock_toxicity_analysis, _mock_nsfw_analysis, _requires_llm_analysis,
    _should_use_llm_only.
  rewrite <- (len_lower c1), <- (len_lower c2).
  rewrite <- (count_question_lower c1), <- (count_question_lower c2).
  by rewrite Hl.
Qed.

Lemma eqb_ascii_dec {A : Type} (a b : ascii) (x y : A) :
  (if Ascii.eqb a b then x else y) = (if ascii_dec a b then x else y).
Proof.
  destruct (Ascii.eqb_spec a b), (ascii_dec a b); congruence.
Qed.

Lemma matches_lit w : ∀ prev s (k : string → bool),
  Re.matches true (Re.lit w) prev s (λ _ t, k t) =
  if String.prefix (Py.lower w) (Py.lower s)
  then k (slice_from (String.length w) s) else false.
Proof.
  induction w as [|a w IH]; intros prev s k.
  - destruct s; reflexivity.
  - cbn [Re.lit Re.matches]. destruct s as [|c s]; [reflexivity|].
    cbn [Py.lower String.prefix String.length slice_from].
    rewrite chr_match_lower, IH, <- eqb_ascii_dec.
    by destruct (Ascii.eqb _ _).
Qed.

Lemma search_lit w s :
  Re.search true (Re.lit w) s = Py.contains (Py.lower w) (Py.lower s).
Proof.
  unfold Re.search. generalize (@None ascii) as prev.
  induction s as [|c s IH]; intros prev;
    cbn [Re.search_from Py.contains Py.lower];
    rewrite (matches_lit w prev _ (λ _, true)).
  - cbn [Py.lower]. by destruct (String.prefix _ _).
  - rewrite IH. cbn [Py.lower]. by destruct (String.prefix _ _).
Qed.

Lemma plus_head p s :
  Re.plus p s (λ _ _, true) =
  match s with String c _ => p c | EmptyString => false end.
Proof. destruct s as [|c s]; simpl; [reflexivity|]. by repeat case_match. Qed.

Lemma slice_from_lower n s : slice_from n (Py.lower s) = Py.lower (slice_from n s).
Proof.
  revert s. induction n as [|n IH]; intros [|c s]; simpl; try reflexivity. apply IH.
Qed.

Lemma prefix_nil t : String.prefix "" t = true.
Proof. by destruct t. Qed.

Lemma prefix_snoc w d t :
  String.prefix (w +:+ String d "") t =
  String.prefix w t &&
  match slice_from (String.length w) t with
  | String c _ => Ascii.eqb d c
  | EmptyString => false
  end.
Proof.
  revert t. induction w as [|a w IH]; intros t.
  - rewrite prefix_nil. destruct t as [|c t]; [reflexivity|].
    change ("" +:+ String d "") with (String d "").
    cbn [String.prefix String.length slice_from]. rewrite prefix_nil.
    simpl andb. by destruct (Ascii.eqb_spec d c), (ascii_dec d c).
  - change (String a w +:+ String d "") with (String a (w +:+ String d "")).
    destruct t as [|c t]; [reflexivity|].
    cbn [String.prefix String.length slice_from].
    destruct (ascii_dec a c); [apply IH | reflexivity].
Qed.

Lemma alnum_range_chars c :
  Re.cset_match true (Re.Ranges [("0", "9"); ("a", "z"); ("A", "Z")]%char) c
  = existsb (λ d, Ascii.eqb d (Py.char_lower c)) lower_alnum.
Proof. all_chars c. Qed.

Lemma existsb_pointwise {A : Type} (f g : A → bool) l :
  (∀ x, f x = g x) → existsb f l = existsb g l.
Proof. intros H. induction l as [|x l IH]; simpl; [reflexivity|]. by rewrite H, IH. Qed.

Lemma existsb_orb {A : Type} (f g : A → bool) l :
  existsb (λ x, f x || g x) l = existsb f l || existsb g l.
Proof.
  induction l as [|x l IH]; simpl; [reflexivity|].
  rewrite IH. destruct (f x), (g x), (existsb f l); reflexivity.
Qed.

Lemma existsb_andb_l {A : Type} (b : bool) (f : A → bool) l :
  existsb (λ x, b && f x) l = b && existsb f l.
Proof.
  induction l as [|x l IH]; simpl; [by destruct b|].
  rewrite IH. destruct b; reflexivity.
Qed.

Lemma bitly_at_position prev s :
  Re.matches true
    (Re.seq [Re.lit "bit.ly/";
             Re.PlusCls (Re.Ranges [("0", "9"); ("a", "z"); ("A", "Z")]%char)])
    prev s (λ _ _, true)
  = existsb (λ d, String.prefix ("bit.ly/" +:+ String d "") (Py.lower s)) lower_alnum.
Proof.
  cbn [Re.seq foldr Re.matches].
  rewrite (matches_lit "bit.ly/" prev s
             (λ t, Re.plus (Re.cset_match true
                      (Re.Ranges [("0", "9"); ("a", "z"); ("A", "Z")]%char)) t
                     (λ _ _, true))).
  erewrite existsb_pointwise; [|intros d; apply prefix_snoc].
  rewrite existsb_andb_l.
  change (Py.lower "bit.ly/") with "bit.ly/".
  destruct (String.prefix "bit.ly/" (Py.lower s)); [|reflexivity].
  rewrite plus_head, slice_from_lower. cbn [andb].
  generalize (slice_from (String.length "bit.ly/") s). intros [|c t].
  - reflexivity.
  - cbn [Py.lower]. apply alnum_range_chars.
Qed.

Lemma bitly_search s :
  pattern_search
    (Re.seq [Re.lit "bit.ly/";
             Re.PlusCls (Re.Ranges [("0", "9"); ("a", "z"); ("A", "Z")]%char)]) s
  = existsb (λ d, Py.contains ("bit.ly/" +:+ String d "") (Py.lower s)) lower_alnum.
Proof.
  unfold pattern_search, Re.search. generalize (@None ascii) as prev.
  induction s as [|c s IH]; intros prev;
    cbn [Re.search_from Py.lower]; rewrite bitly_at_position.
  - cbn [Py.lower Py.contains]. rewrite existsb_orb.
    replace (existsb (λ _ : ascii, false) lower_alnum) with false by reflexivity.
    rewrite orb_false_r. by destruct (existsb _ _).
  - rewrite IH. cbn [Py.lower Py.contains]. rewrite existsb_orb.
    by destruct (existsb _ _).
Qed.

(** X15. For contents of code points below 256, the harmful-URL rules are
    substring tests on the lower-cased content: such a content matches
    exactly when it contains "pornhub.com", "xxx." or ".onion", or "bit.ly/"
    directly followed by a digit or an unaccented letter. A bare "bit.ly/" is
    not matched. (Beyond that range IGNORECASE also folds U+017F, U+0131,
    U+0130 and U+212A to the rules' letters.) *)
Theorem harmful_url_rules_as_substrings (content : string) :
  matches_harmful_url content =
    existsb (λ d, Py.contains ("bit.ly/" +:+ String d "") (Py.lower content))
            lower_alnum
    || Py.contains "pornhub.com" (Py.lower content)
    || Py.contains "xxx." (Py.lower content)
    || Py.contains ".onion" (Py.lower content).
Proof.
  unfold matches_harmful_url, harmful_url_patterns. cbn [existsb].
  rewrite bitly_search. unfold pattern_search. rewrite !search_lit.
  change (Py.lower "pornhub.com") with "pornhub.com".
  change (Py.lower "xxx.") with "xxx.".
  change (Py.lower ".onion") with ".onion".
  rewrite orb_false_r, !orb_assoc. reflexivity.
Qed.


(** *** The engine object: strategy names, switching and serialization *)

Lemma CurationStrategy_of_value_Ok v s :
  CurationStrategy_of_value v = Ok s ↔ CurationStrategy_value s = v.
Proof.
  split.
  - unfold CurationStrategy_of_value.
    destruct (String.eqb_spec v "llm_only") as [-> | ?]; [by intros [= <-]|].
    destruct (String.eqb_spec v "multi_layer") as [-> | ?]; [by intros [= <-]|].
    destruct (String.eqb_spec v "hybrid") as [-> | ?]; [by intros [= <-]|].
    discriminate.
  - intros <-. by destruct s.
Qed.

(** X16. [CurationStrategy(value)] and [.value] are inverse to each other on
    the three strategy names; every other string, whatever its letter case,
    is refused with the message [repr(value) is not a valid
    CurationStrategy]. *)
Theorem CurationStrategy_of_value_round_trip :
  (∀ s, CurationStrategy_of_value (CurationStrategy_value s) = Ok s)
  ∧ (∀ v s, CurationStrategy_of_value v = Ok s ↔ CurationStrategy_value s = v)
  ∧ (∀ v, (∀ s, CurationStrategy_value s ≠ v) ↔
          CurationStrategy_of_value v
          = Raise (Exception (py_repr v +:+ " is not a valid CurationStrategy"))).
Proof.
  split; [by intros []|]. split; [apply CurationStrategy_of_value_Ok|].
  intros v. split.
  - intros Hv. unfold CurationStrategy_of_value.
    destruct (String.eqb_spec v "llm_only") as [-> | ?];
      [by destruct (Hv LLM_ONLY)|].
    destruct (String.eqb_spec v "multi_layer") as [-> | ?];
      [by destruct (Hv MULTI_LAYER)|].
    destruct (String.eqb_spec v "hybrid") as [-> | ?];
      [by destruct (Hv HYBRID)|].
    reflexivity.
  - intros Hr s Hs. apply CurationStrategy_of_value_Ok in Hs. congruence.
Qed.

Section EngineFacts.

Context (E : Env).

(** A strategy called on a key that is not cached creates its result. *)
Lemma LLMOnlyStrategy_analyze_content_heap content uc st :
  clock_sane E →
  match LLMOnlyStrategy_analyze_content E content uc st with
  | (Ok l, st1) => l = length (heap st) ∧ ∃ r, heap st1 = heap st ++ [r]
  | (Raise e, st1) => heap st1 = heap st
  end.
Proof.
  intros Hs. rewrite (LLMOnlyStrategy_analyze_content_run _ _ _ _ Hs).
  destruct (BAML_AVAILABLE E); [|reflexivity].
  destruct (llm E (llm_calls st) content uc); [|reflexivity].
  split; [reflexivity|]. eexists. reflexivity.
Qed.

Lemma MultiLayerStrategy_analyze_content_miss content uc st :
  clock_sane E →
  cache st !! cache_key E content uc = None →
  match MultiLayerStrategy_analyze_content E content uc st with
  | (Ok l, st1) => l = length (heap st) ∧ ∃ r, heap st1 = heap st ++ [r]
  | (Raise e, st1) => heap st1 = heap st
  end.
Proof.
  intros Hs Hmiss. rewrite MultiLayerStrategy_analyze_content_run, Hmiss.
  rewrite (layers_run _ _ _ _ _ _ Hs). cbv zeta.
  destruct (matches_profanity content);
    [|destruct (matches_harmful_url content);
      [|destruct (PrimFloat.ltb toxicity_threshold _);
        [|destruct (PrimFloat.ltb nsfw_threshold _);
          [|destruct (_requires_llm_analysis content uc);
            [destruct (BAML_AVAILABLE E);
              [destruct (llm E (llm_calls (tick st)) content uc)|]|]]]]];
    simpl; try reflexivity;
    (split; [reflexivity|]); rewrite ?alter_last; eexists; reflexivity.
Qed.

Lemma strategy_analyze_content_miss member content uc st :
  clock_sane E →
  cache st !! cache_key E content uc = None →
  match strategy_analyze_content E member content uc st with
  | (Ok l, st1) => l = length (heap st) ∧ ∃ r, heap st1 = heap st ++ [r]
  | (Raise e, st1) => heap st1 = heap st
  end.
Proof.
  intros Hs Hmiss. destruct member; simpl.
  - by apply LLMOnlyStrategy_analyze_content_heap.
  - by apply MultiLayerStrategy_analyze_content_miss.
  - rewrite HybridStrategy_analyze_content_run.
    destruct (_should_use_llm_only content uc).
    + pose proof (LLMOnlyStrategy_analyze_content_heap content uc st Hs) as H.
      destruct (LLMOnlyStrategy_analyze_content E content uc st) as [[l|e] st1];
        simpl; [|exact H].
      destruct H as (-> & r & Hr). split; [reflexivity|].
      rewrite Hr, alter_last. eexists. reflexivity.
    + pose proof (MultiLayerStrategy_analyze_content_miss content uc st Hs Hmiss)
        as H.
      destruct (MultiLayerStrategy_analyze_content E content uc st)
        as [[l|e] st1]; simpl; [|exact H].
      destruct H as (-> & r & Hr). split; [reflexivity|].
      rewrite Hr, alter_last. eexists. reflexivity.
Qed.

Lemma CurationEngine_curate_miss self content uc st :
  clock_sane E →
  cache st !! cache_key E content uc = None →
  ∃ r st',
    CurationEngine_curate E self content uc st = (Ok (length (heap st)), st')
    ∧ heap st' = heap st ++ [r].
Proof.
  intros Hs Hmiss. rewrite (CurationEngine_curate_run _ _ _ _ _ Hs).
  pose proof (strategy_analyze_content_miss (strategy self) content uc (tick st)
                Hs Hmiss) as H.
  destruct (strategy_analyze_content E (strategy self) content uc (tick st))
    as [[l|e] st1].
  - destruct H as (-> & r & Hr). eexists _, _. split; [reflexivity|].
    simpl. rewrite Hr, !alter_last. reflexivity.
  - eexists _, _. split; [simpl in H; by rewrite H|]. simpl. by rewrite H.
Qed.

Section WithAnalyzer.

Context (analyzer_init : Outcome unit).

(** X17. After [CurationEngine(strategy)] or a [switch_strategy] that
    returns, also one to the strategy the engine already had, no request is
    answered from the cache: the next [curate_content] call, for any content
    and user, returns a newly created object and leaves every object created
    before as it was. *)
Theorem CurationEngine_switch_strategy_discards_cache
    (self self' : CurationEngine) (new_strategy : string + CurationStrategy)
    (st st' : State) (content : string) (uc : UserContext) :
  clock_sane E →
  CurationEngine_switch_strategy E analyzer_init self new_strategy st
    = (Ok (), self', st')
  ∨ CurationEngine_init E analyzer_init new_strategy st = (Ok self', st') →
  ∃ r st'',
    CurationEngine_curate E self' content uc st' = (Ok (length (heap st)), st'')
    ∧ heap st'' = heap st ++ [r].
Proof.
  intros Hs Hsw.
  assert (Hst : st' = new_strategy_instance st).
  { unfold CurationEngine_switch_strategy, CurationEngine_init in Hsw.
    destruct Hsw as [Hsw | Hsw];
      destruct (resolve_strategy new_strategy); try discriminate;
      destruct (_create_strategy E analyzer_init a); try discriminate;
      by injection Hsw as _ <-. }
  subst st'.
  apply (CurationEngine_curate_miss self' content uc (new_strategy_instance st) Hs).
  apply lookup_empty.
Qed.

(** X18. What [switch_strategy] does to the engine. A name that is not one of
    the three strategy values raises before anything is assigned: the engine
    and its cache are as before. When the call returns, the engine holds the
    named strategy and [get_strategy_info] reports its value and its name.
    When the call raises while the strategy is being built, the old instance
    and its cache are kept, but [strategy_type] is already the new one. *)
Theorem CurationEngine_switch_strategy_outcome
    (self : CurationEngine) (new_strategy : string + CurationStrategy)
    (st : State) :
  let '(o, self', st') :=
    CurationEngine_switch_strategy E analyzer_init self new_strategy st in
  match resolve_strategy new_strategy, o with
  | Raise e, _ => o = Raise e ∧ self' = self ∧ st' = st
  | Ok member, Ok _ =>
      strategy_type self' = member ∧ strategy self' = member
      ∧ cache st' = ∅ ∧ heap st' = heap st
      ∧ CurationEngine_get_strategy_info E self' !! "strategy_type"
        = Some (VStr (CurationStrategy_value member))
      ∧ CurationEngine_get_strategy_info E self' !! "strategy_name"
        = Some (VStr (get_strategy_name member))
  | Ok member, Raise e =>
      BAML_AVAILABLE E = true ∧ analyzer_init = Raise e
      ∧ strategy_type self' = member ∧ strategy self' = strategy self
      ∧ st' = st
  end.
Proof.
  unfold CurationEngine_switch_strategy.
  destruct (resolve_strategy new_strategy) as [member|e]; [|done].
  destruct (_create_strategy E analyzer_init member) as [[]|e] eqn:Hc.
  - repeat split; by simplify_map_eq.
  - split; [|split; [|done]].
    + unfold _create_strategy, HybridStrategy_init, MultiLayerStrategy_init,
        LLMOnlyStrategy_init in Hc.
      destruct (BAML_AVAILABLE E); [done|]. by destruct member.
    + unfold _create_strategy, HybridStrategy_init, MultiLayerStrategy_init,
        LLMOnlyStrategy_init in Hc.
      destruct (BAML_AVAILABLE E); [|by destruct member].
      destruct member, analyzer_init; congruence.
Qed.

(** X19. A [switch_strategy] that raises while the new strategy is being
    built leaves an engine that runs the old strategy under the new name: the
    next [curate_content] is answered by the old strategy instance, cache
    included, and stamped with the new strategy's value as
    [engine_strategy]. *)
Theorem CurationEngine_failed_switch_mislabels
    (self : CurationEngine) (member : CurationStrategy) (e : Exn)
    (st st1 : State) (content : string) (uc : UserContext) (l : nat) :
  clock_sane E → wf st →
  BAML_AVAILABLE E = true →
  analyzer_init = Raise e →
  strategy_analyze_content E (strategy self) content uc (tick st) = (Ok l, st1) →
  ∃ self' st' r,
    CurationEngine_switch_strategy E analyzer_init self (inr member) st
      = (Raise e, self', st)
    ∧ CurationEngine_curate E self' content uc st = (Ok l, st')
    ∧ heap st' !! l = Some r
    ∧ (∀ r1, heap st1 !! l = Some r1 → decision r = decision r1)
    ∧ or_empty (metadata r) !! "engine_strategy"
      = Some (VStr (CurationStrategy_value member)).
Proof.
  intros Hs Hwf HB Hinit Hrun.
  unfold CurationEngine_switch_strategy. simpl.
  assert (Hc : _create_strategy E analyzer_init member = Raise e).
  { unfold _create_strategy, HybridStrategy_init, MultiLayerStrategy_init,
      LLMOnlyStrategy_init. rewrite HB, Hinit. by destruct member. }
  rewrite Hc.
  pose proof (strategy_analyze_content_valid _ _ _ _ _ _ _ Hs
                (ltac:(exact Hwf) : wf (tick st)) Hrun) as Hl.
  destruct (lookup_lt_is_Some_2 _ _ Hl) as [r0 Hr0].
  eexists _, _, _. split; [reflexivity|].
  rewrite (CurationEngine_curate_run _ _ _ _ _ Hs). simpl. rewrite Hrun.
  split; [reflexivity|]. simpl. rewrite !list_lookup_alter_eq, Hr0. simpl.
  split; [reflexivity|]. split.
  - intros r1 [= <-]. reflexivity.
  - simpl. by simplify_map_eq.
Qed.

End WithAnalyzer.

(** *** Serialization *)

Lemma to_dict_metadata r :
  to_dict r !! "metadata"
  = if metadata_truthy (metadata r) then Some (DDict (or_empty (metadata r)))
    else None.
Proof. unfold to_dict. destruct (metadata_truthy (metadata r)); by simplify_map_eq. Qed.

Lemma metadata_truthy_insert k v m : metadata_truthy (Some (<[k := v]> m)) = true.
Proof.
  unfold metadata_truthy. apply negb_true_iff, Nat.eqb_neq.
  intros H. apply map_size_empty_iff in H. by apply insert_non_empty in H.
Qed.

Lemma metadata_update2_truthy k1 v1 k2 v2 r :
  metadata_truthy (metadata (metadata_update2 k1 v1 k2 v2 r)) = true.
Proof. apply metadata_truthy_insert. Qed.

(** X20. [to_dict] always has the six field keys and has the key
    ["metadata"] exactly when the metadata is a dictionary with an entry.
    Every result [curate_content] returns has one, so it serializes with all
    seven keys, the ["metadata"] entry being the result's own dictionary. *)
Theorem CurationEngine_results_serialize_with_metadata
    (self : CurationEngine) (content : string) (uc : UserContext) (st : State) :
  clock_sane E → wf st →
  (∀ r, dom (to_dict r) ∖ {["metadata"]}
        = ({["action"; "reason"; "confidence"; "safety_score";
             "processing_time_ms"; "strategy_used"]} : gset string))
  ∧ (∀ r, to_dict r !! "metadata" = None ↔
          metadata r = None ∨ metadata r = Some ∅)
  ∧ ∃ l st' r,
      CurationEngine_curate E self content uc st = (Ok l, st')
      ∧ heap st' !! l = Some r
      ∧ to_dict r !! "metadata" = Some (DDict (or_empty (metadata r))).
Proof.
  intros Hs Hwf. split; [|split].
  - intros r. unfold to_dict.
    destruct (metadata_truthy (metadata r));
      rewrite !dom_insert_L, dom_empty_L; set_solver.
  - intros r. rewrite to_dict_metadata. unfold metadata_truthy.
    destruct (metadata r) as [m|]; [|by split; [left|]].
    destruct (Nat.eqb_spec (size m) 0) as [H0|H0]; simpl.
    + apply map_size_empty_iff in H0 as ->. by split; [right|].
    + split; [done|]. intros [?|[= ->]]; [done|]. by rewrite map_size_empty in H0.
  - rewrite (CurationEngine_curate_run _ _ _ _ _ Hs).
    destruct (strategy_analyze_content E (strategy self) content uc (tick st))
      as [[l|e] st1] eqn:Hrun.
    + pose proof (strategy_analyze_content_valid _ _ _ _ _ _ _ Hs
                    (ltac:(exact Hwf) : wf (tick st)) Hrun) as Hl.
      destruct (lookup_lt_is_Some_2 _ _ Hl) as [r0 Hr0].
      eexists _, _, _. split; [reflexivity|]. simpl.
      rewrite !list_lookup_alter_eq, Hr0. split; [reflexivity|].
      by rewrite to_dict_metadata, metadata_update2_truthy.
    + eexists _, _, _. split; [reflexivity|]. simpl.
      split; [apply list_lookup_middle; reflexivity|].
      by rewrite to_dict_metadata.
Qed.

End EngineFacts.

(** *** The analyzer: the mock fallback and the keys the strategy reads *)

Lemma mock_recommendation_entry draws content :
  dict_get "recommendation" (_mock_comprehensive_analysis draws content)
  = Some (OStr (mock_recommendation (_mock_safety_classification draws content))).
Proof. reflexivity. Qed.

Lemma mock_safety_table draws content :
  let safety := _mock_safety_classification draws content in
  let k := violence_hits content in
  let c := has_concerning content in
  (k ≤ 6)
  ∧ ms_safety_score safety
    = match k, c with
      | 0, false => 0.9 | 0, true => 0.6
      | 1, false => 0.7 | 1, true => 0.4
      | 2, false => 0.5 | 2, true => 0.2
      | 3, false => 0.3 | 3, true => 0.1
      | _, _ => 0.1
      end%float
  ∧ ms_content_warnings safety
    = (if decide (2 ≤ k) then ["violence"] else [])
      ++ (if c then ["mature themes"] else [])
  ∧ ms_age_appropriateness safety
    = (if c then "18+" else if decide (2 ≤ k) then "13+" else "all").
Proof.
  cbv zeta. unfold _mock_safety_classification, violence_hits, has_concerning.
  cbn [ms_safety_score ms_content_warnings ms_age_appropriateness].
  pose proof (count_in_le violence_keywords (Py.lower content)) as Hle.
  change (length violence_keywords) with 6 in Hle.
  split; [exact Hle|].
  generalize dependent (Py.count_in violence_keywords (Py.lower content)).
  intros k Hle.
  destruct (Py.any_in concerning_keywords (Py.lower content));
    do 7 (destruct k as [|k]; [by vm_compute|]); lia.
Qed.

Lemma mock_recommendation_cases draws content :
  mock_recommendation (_mock_safety_classification draws content)
  = if decide (2 ≤ violence_hits content
               ∨ (violence_hits content = 1 ∧ has_concerning content = true))
    then "block"
    else if decide (violence_hits content = 0 ∧ has_concerning content = false)
    then "allow"
    else "caution".
Proof.
  destruct (mock_safety_table draws content) as (Hle & Hs & Hw & _).
  cbv zeta in Hs, Hw.
  unfold mock_recommendation. rewrite Hs, Hw. clear Hs Hw.
  generalize dependent (violence_hits content). intros k Hle.
  destruct (has_concerning content);
    do 7 (destruct k as [|k]; [by vm_compute|]); lia.
Qed.

(** X21. The mock fallback of the analyzer decides by keywords alone, on the
    lower-cased content: it recommends "block" when two or more of the six
    violence keywords occur, or one of them together with a concerning
    keyword; "allow" when neither kind occurs; "caution" otherwise. The
    safety score it reports is 0.9 less 0.2 for each violence keyword and 0.3
    for a concerning one, never below 0.1; a single violence keyword does not
    yet add the "violence" warning. *)
Theorem mock_recommendation_by_keywords (draws : Draws) (content : string) :
  let k := violence_hits content in
  let c := has_concerning content in
  dict_get "recommendation" (_mock_comprehensive_analysis draws content)
  = Some (OStr (if decide (2 ≤ k ∨ (k = 1 ∧ c = true)) then "block"
                else if decide (k = 0 ∧ c = false) then "allow"
                else "caution"))
  ∧ (∃ d, dict_get "safety" (_mock_comprehensive_analysis draws content)
          = Some (ODict d)
          ∧ dict_get "score" d
            = Some (OFloat match k, c with
                           | 0, false => 0.9 | 0, true => 0.6
                           | 1, false => 0.7 | 1, true => 0.4
                           | 2, false => 0.5 | 2, true => 0.2
                           | 3, false => 0.3
                           | _, _ => 0.1
                           end%float)
          ∧ dict_get "warnings" d
            = Some (OStrList ((if decide (2 ≤ k) then ["violence"] else [])
                              ++ (if c then ["mature themes"] else [])))).
Proof.
  cbv zeta. rewrite mock_recommendation_entry, mock_recommendation_cases.
  destruct (mock_safety_table draws content) as (Hle & Hs & Hw & _).
  cbv zeta in Hs, Hw. split; [reflexivity|].
  - eexists. split; [reflexivity|]. cbn [dict_get String.eqb]. 
    change (dict_get "score" _) with
      (Some (OFloat (ms_safety_score (_mock_safety_classification draws content)))).
    change (dict_get "warnings" _) with
      (Some (OStrList (ms_content_warnings (_mock_safety_classification draws content)))).
    rewrite Hs, Hw. split; [|reflexivity]. clear Hs Hw.
    generalize dependent (violence_hits content). intros k Hle.
    destruct (has_concerning content);
      do 7 (destruct k as [|k]; [reflexivity|]); lia.
Qed.

Lemma prefix_app_l a b s :
  String.prefix (a +:+ b) s = true → String.prefix a s = true.
Proof.
  revert s. induction a as [|c a IH]; intros s; [by rewrite prefix_nil|].
  destruct s as [|c' s]; simpl; [done|].
  destruct (ascii_dec c c'); [apply IH | done].
Qed.

Lemma contains_app_l a b s :
  Py.contains (a +:+ b) s = true → Py.contains a s = true.
Proof.
  induction s as [|c s IH]; cbn [Py.contains]; rewrite !orb_true_iff.
  - intros [H|?]; [|done]. left. by apply prefix_app_l in H.
  - intros [H|H]; [left; by apply prefix_app_l in H | right; by apply IH].
Qed.

(** X22. A content in which the word "fighting" occurs, in any letter case,
    hits two violence keywords at once, "fight" and "fighting": the mock
    fallback recommends "block" for it. *)
Theorem mock_blocks_fighting (draws : Draws) (content : string) :
  Py.contains "fighting" (Py.lower content) = true →
  2 ≤ violence_hits content
  ∧ dict_get "recommendation" (_mock_comprehensive_analysis draws content)
    = Some (OStr "block").
Proof.
  intros H.
  assert (Hk : 2 ≤ violence_hits content).
  { pose proof (contains_app_l "fight" "ing" _ H) as H'.
    unfold violence_hits, Py.count_in, violence_keywords. cbn [List.filter].
    rewrite H, H'.
    destruct (Py.contains "violence" _), (Py.contains "attack" _),
      (Py.contains "kill" _), (Py.contains "hurt" _); simpl; lia. }
  split; [exact Hk|].
  rewrite mock_recommendation_entry, mock_recommendation_cases.
  rewrite decide_True by (left; exact Hk). reflexivity.
Qed.

Lemma Analysis_of_dict_comprehensive baml_available call draws content a :
  Analysis_of_dict
    (RealBAMLContentAnalyzer_comprehensive_analysis baml_available call draws content)
  = Some a →
  ∃ recommendation,
    dict_get "recommendation"
      (RealBAMLContentAnalyzer_comprehensive_analysis baml_available call draws content)
    = Some (OStr recommendation)
    ∧ a = mkAnalysis None (Some recommendation) None None.
Proof.
  unfold RealBAMLContentAnalyzer_comprehensive_analysis.
  assert (Hmock : ∀ a,
    Analysis_of_dict (_mock_comprehensive_analysis draws content) = Some a →
    ∃ recommendation,
      dict_get "recommendation" (_mock_comprehensive_analysis draws content)
      = Some (OStr recommendation)
      ∧ a = mkAnalysis None (Some recommendation) None None).
  { intros a' [= <-]. eexists. split; reflexivity. }
  destruct baml_available; simpl; [|apply Hmock].
  destruct call as [result|e]; [|apply Hmock].
  unfold Analysis_of_dict, get_str. simpl.
  destruct (result_recommendation result); simpl; try discriminate.
  intros [= <-]. eexists. split; reflexivity.
Qed.

(** X23. [LLMOnlyStrategy] asks the analyzer's dictionary for
    ["safety"]["safety_score"], ["overall_confidence"] and
    ["summary_reasoning"], entries [comprehensive_analysis] never writes: it
    files them as ["safety"]["score"], ["confidence"] and ["summary"]. So
    whatever the analyzer found, from the client or from the mock fallback,
    the result has the safety score 0.5, the confidence 0.7 and the reason
    "LLM analysis completed"; only the recommendation gets through. *)
Theorem LLMOnlyStrategy_reads_unwritten_keys
    (baml_available : bool) (call : Outcome ComprehensiveClassification)
    (draws : Draws) (content : string) (a : Analysis) (ms : Z) :
  let result :=
    RealBAMLContentAnalyzer_comprehensive_analysis baml_available call draws content in
  Analysis_of_dict result = Some a →
  (∃ safety, dict_get "safety" result = Some (ODict safety)
             ∧ is_Some (dict_get "score" safety)
             ∧ dict_get "safety_score" safety = None)
  ∧ is_Some (dict_get "confidence" result)
  ∧ dict_get "overall_confidence" result = None
  ∧ is_Some (dict_get "summary" result)
  ∧ dict_get "summary_reasoning" result = None
  ∧ dict_get "recommendation" result = Some (OStr (action (llm_result a ms)))
  ∧ safety_score (llm_result a ms) = 0.5%float
  ∧ confidence (llm_result a ms) = 0.7%float
  ∧ reason (llm_result a ms) = "LLM analysis completed".
Proof.
  cbv zeta. intros Ha.
  destruct (Analysis_of_dict_comprehensive _ _ _ _ _ Ha) as (rec & Hrec & ->).
  rewrite Hrec. clear Ha Hrec.
  unfold RealBAMLContentAnalyzer_comprehensive_analysis.
  destruct baml_available; simpl; [destruct call as [result|e]; simpl|];
    (split; [eexists; split; [reflexivity|]; split; [by eexists | reflexivity]|]);
    (split; [by eexists|]); (split; [reflexivity|]);
    (split; [by eexists|]); (split; [reflexivity|]); done.
Qed.

Section IntegratedAnalyzer.

Context (E : Env).

(** X24. With the repository's analyzer behind it, the LLM-only strategy
    cannot fail once BAML is available, since [comprehensive_analysis] turns
    every failure of the client into a mock analysis; and every result it
    creates reports the confidence 0.7, the safety score 0.5 and the reason
    "LLM analysis completed". *)
Theorem LLMOnlyStrategy_with_integrated_analyzer
    (content : string) (uc : UserContext) (st : State) :
  clock_sane E → BAML_AVAILABLE E = true → integrated_analyzer E →
  ∃ st' r result,
    LLMOnlyStrategy_analyze_content E content uc st = (Ok (length (heap st)), st')
    ∧ heap st' = heap st ++ [r]
    ∧ llm E (llm_calls st) content uc = Ok result
    ∧ an_recommendation result = Some (action r)
    ∧ strategy_used r = "llm_only"
    ∧ confidence r = 0.7%float
    ∧ safety_score r = 0.5%float
    ∧ reason r = "LLM analysis completed".
Proof.
  intros Hs HB Hint.
  destruct (Hint (llm_calls st) content uc) as (av & call & draws & a & Ha & Hl).
  destruct (Analysis_of_dict_comprehensive _ _ _ _ _ Ha) as (rec & _ & ->).
  rewrite (LLMOnlyStrategy_analyze_content_run _ _ _ _ Hs), HB, Hl.
  eexists _, _, _. split; [reflexivity|]. split; [reflexivity|].
  split; [reflexivity|]. repeat split; reflexivity.
Qed.

End IntegratedAnalyzer.

(** *** The further properties at concrete inputs *)

Lemma env_mock_analyzer_sane : clock_sane env_mock_analyzer.
Proof. by apply example_clock_sane. Qed.

Lemma env_mock_analyzer_integrated : integrated_analyzer env_mock_analyzer.
Proof.
  intros n content uc.
  exists false, (Raise (Exception "unused")), example_draws. eexists.
  split; reflexivity.
Qed.

(** X2 on a content with four toxic words. *)
Lemma SpecializedAILayer_analyze_outcome_witness :
  let E := env_without_baml in
  let content := "I hate this stupid idiot, what a moron" in
  let st := fresh_state in
  ∃ ms : Z,
    SpecializedAILayer_analyze E content st =
      (if bool_decide (4 ≤ Py.count_in toxic_words (Py.lower content))
       then (Ok (Some (length (heap st))),
             push (toxicity_block (_mock_toxicity_analysis content) ms) (tick (tick st)))
       else if bool_decide (4 ≤ Py.count_in nsfw_words (Py.lower content))
       then (Ok (Some (length (heap st))), push (nsfw_block 1 ms) (tick (tick st)))
       else (Ok None, tick st))
    ∧ (4 ≤ Py.count_in toxic_words (Py.lower content) →
       let r := toxicity_block (_mock_toxicity_analysis content) ms in
       action r = "block" ∧ confidence r = 0.85%float
       ∧ PrimFloat.leb 0 (safety_score r) = true
       ∧ PrimFloat.leb (safety_score r) 0.2 = true)
    ∧ action (nsfw_block 1 ms) = "block"
    ∧ confidence (nsfw_block 1 ms) = 0.9%float
    ∧ safety_score (nsfw_block 1 ms) = 0%float
    ∧ reason (nsfw_block 1 ms) = "NSFW content detected (score: 1.00)".
Proof.
  cbv zeta.
  apply (SpecializedAILayer_analyze_outcome
           env_without_baml "I hate this stupid idiot, what a moron" fresh_state).
  - exact env_without_baml_sane.
Defined.

(** X3 on a first request that is escalated to the analyzer. *)
Lemma MultiLayerStrategy_analyzer_calls_witness :
  let E := env_with_baml in
  let content := "What is your opinion on this debate?" in
  let uc := adult_user in
  let st := fresh_state in
  llm_calls (MultiLayerStrategy_analyze_content E content uc st).2 =
    if bool_decide (cache st !! cache_key E content uc = None)
       && negb (matches_profanity content)
       && negb (matches_harmful_url content)
       && negb (PrimFloat.ltb toxicity_threshold (_mock_toxicity_analysis content))
       && negb (PrimFloat.ltb nsfw_threshold (_mock_nsfw_analysis content))
       && _requires_llm_analysis content uc
       && BAML_AVAILABLE E
    then S (llm_calls st) else llm_calls st.
Proof.
  cbv zeta.
  apply (MultiLayerStrategy_analyzer_calls
           env_with_baml "What is your opinion on this debate?" adult_user fresh_state).
  - exact env_with_baml_sane.
Defined.

(** X4 on the second request to a strategy instance. *)
Lemma MultiLayerStrategy_analyze_content_frame_witness :
  let E := env_with_baml in
  let content := "Just had a great lunch today" in
  let uc := adult_user in
  let st :=
    (MultiLayerStrategy_analyze_content env_with_baml "An earlier request"
       adult_user fresh_state).2 in
  let st' := (MultiLayerStrategy_analyze_content E content uc st).2 in
  (∀ k l, cache st !! k = Some l → cache st' !! k = Some l)
  ∧ (∀ k, k ≠ cache_key E content uc → cache st' !! k = cache st !! k)
  ∧ length (heap st) ≤ length (heap st') ≤ S (length (heap st))
  ∧ (∀ l r, heap st !! l = Some r →
            cache st !! cache_key E content uc ≠ Some l →
            heap st' !! l = Some r).
Proof.
  cbv zeta.
  apply (MultiLayerStrategy_analyze_content_frame
           env_with_baml "Just had a great lunch today" adult_user
           (MultiLayerStrategy_analyze_content env_with_baml "An earlier request"
              adult_user fresh_state).2).
  - exact env_with_baml_sane.
Defined.

(** X5 in the instance of a hybrid strategy that has answered one other
    request. *)
Lemma MultiLayerStrategy_strategy_used_witness :
  let E := env_without_baml in
  let content := "Just had a great lunch today" in
  let uc := adult_user in
  let st := (HybridStrategy_analyze_content E "I will kill you" uc fresh_state).2 in
  let st' := (MultiLayerStrategy_analyze_content E content uc st).2 in
  let l := 1 in
  ∃ r,
    heap st' !! l = Some r
    ∧ (strategy_used r =
         (if matches_profanity content || matches_harmful_url content
          then "fast_filter"
          else if PrimFloat.ltb toxicity_threshold (_mock_toxicity_analysis content)
                  || PrimFloat.ltb nsfw_threshold (_mock_nsfw_analysis content)
          then "specialized_ai"
          else if _requires_llm_analysis content uc
          then (if BAML_AVAILABLE E then "multi_layer_llm"
                else "multi_layer_cautious")
          else "multi_layer_auto")
       ∨ (true = true
          ∧ cache st !! cache_key E content uc = Some l
          ∧ strategy_used r = "hybrid_multi")).
Proof.
  cbv zeta.
  apply (MultiLayerStrategy_strategy_used env_without_baml true
           "Just had a great lunch today" adult_user
           [("I will kill you", adult_user)]
           (HybridStrategy_analyze_content env_without_baml "I will kill you"
              adult_user fresh_state).2).
  - exact env_without_baml_sane.
  - eapply (served_strategy _ _ _ _ HYBRID);
      [apply served_new | done | apply surjective_pairing].
  - intros c u Hin Hk.
    apply elem_of_cons in Hin as [[= -> ->] | Hin];
      [vm_compute in Hk; discriminate Hk|].
    apply elem_of_nil in Hin. destruct Hin.
  - vm_compute. reflexivity.
Defined.



(** X8 with an analyzer that answers. *)
Lemma LLMOnlyStrategy_analyze_content_outcome_witness :
  let E := env_with_baml in
  let content := "Just had a great lunch today" in
  let uc := adult_user in
  let st := fresh_state in
  let res := LLMOnlyStrategy_analyze_content E content uc st in
  cache res.2 = cache st
  ∧ (∀ l r, heap st !! l = Some r → heap res.2 !! l = Some r)
  ∧ (BAML_AVAILABLE E = false →
     res.1 = Raise (Exception "LLM-Only Strategy requires BAML but it's not available")
     ∧ heap res.2 = heap st ∧ llm_calls res.2 = llm_calls st)
  ∧ (BAML_AVAILABLE E = true →
     llm_calls res.2 = S (llm_calls st)
     ∧ match llm E (llm_calls st) content uc with
       | Raise e => res.1 = Raise e ∧ heap res.2 = heap st
       | Ok a =>
           res.1 = Ok (length (heap st))
           ∧ ∃ r, heap res.2 = heap st ++ [r]
                  ∧ action r = default "caution" (an_recommendation a)
                  ∧ confidence r = default 0.7%float (an_overall_confidence a)
                  ∧ safety_score r = default 0.5%float (an_safety_score a)
                  ∧ reason r = default "LLM analysis completed" (an_summary_reasoning a)
                  ∧ strategy_used r = "llm_only"
                  ∧ or_empty (metadata r) !! "full_analysis" = Some (VAnalysis a)
       end).
Proof.
  cbv zeta.
  apply (LLMOnlyStrategy_analyze_content_outcome
           env_with_baml "Just had a great lunch today" adult_user fresh_state).
  - exact env_with_baml_sane.
Defined.

(** X9 with the LLM-only strategy. *)
Lemma CurationEngine_without_llm_reports_error_witness :
  let E := env_without_baml in
  let strategy := LLM_ONLY in
  let content := "Just had a great lunch today" in
  let uc := adult_user in
  let st := fresh_state in
  ∃ st' r,
    CurationEngine_curate_content E strategy content uc st
      = (Ok (length (heap st)), st')
    ∧ heap st' = heap st ++ [r]
    ∧ action r = "caution"
    ∧ confidence r = 0%float
    ∧ reason r = "Engine error: LLM-Only Strategy requires BAML but it's not available"
    ∧ strategy_used r = "error_handling"
    ∧ cache st' = cache st
    ∧ llm_calls st' = llm_calls st.
Proof.
  cbv zeta.
  apply (CurationEngine_without_llm_reports_error
           env_without_baml LLM_ONLY "Just had a great lunch today" adult_user
           fresh_state).
  - exact env_without_baml_sane.
  - reflexivity.
  - left. reflexivity.
Defined.

(** X10 on a content with the word demo. *)
Lemma HybridStrategy_llm_route_uncached_witness :
  let E := env_with_baml in
  let content := "This is a demo of the engine" in
  let uc := adult_user in
  let st := fresh_state in
  let res := HybridStrategy_analyze_content E content uc st in
  llm_calls res.2 = S (llm_calls st)
  ∧ cache res.2 = cache st
  ∧ (∀ l, res.1 = Ok l → l = length (heap st) ∧ length (heap res.2) = S l).
Proof.
  cbv zeta.
  apply (HybridStrategy_llm_route_uncached
           env_with_baml "This is a demo of the engine" adult_user fresh_state).
  - exact env_with_baml_sane.
  - reflexivity.
  - vm_compute. reflexivity.
Defined.

(** X11 with the multi-layer strategy on a content no layer flags. *)
Lemma CurationEngine_curate_content_keeps_decision_witness :
  let E := env_with_baml in
  let strategy := MULTI_LAYER in
  let content := "Just had a great lunch today" in
  let uc := adult_user in
  let st := fresh_state in
  let st1 :=
    (strategy_analyze_content env_with_baml MULTI_LAYER
       "Just had a great lunch today" adult_user (tick fresh_state)).2 in
  let l := 0 in
  let r0 := allow_result (ms_between env_with_baml 1 4) in
  ∃ st' r,
    CurationEngine_curate_content E strategy content uc st = (Ok l, st')
    ∧ heap st' !! l = Some r
    ∧ decision r = decision r0
    ∧ processing_time_ms r = processing_time_ms r0
    ∧ (∀ l', l' ≠ l → heap st' !! l' = heap st1 !! l')
    ∧ length (heap st') = length (heap st1)
    ∧ cache st' = cache st1
    ∧ llm_calls st' = llm_calls st1.
Proof.
  cbv zeta.
  apply (CurationEngine_curate_content_keeps_decision
           env_with_baml MULTI_LAYER "Just had a great lunch today" adult_user
           fresh_state _ 0 (allow_result (ms_between env_with_baml 1 4))).
  - exact env_with_baml_sane.
  - vm_compute. reflexivity.
  - vm_compute. reflexivity.
Defined.

(** X12 with the LLM-only strategy and no analyzer. *)
Lemma CurationEngine_error_result_not_cached_witness :
  let E := env_without_baml in
  let strategy := LLM_ONLY in
  let content := "Just had a great lunch today" in
  let uc := adult_user in
  let st := fresh_state in
  let st1 := tick (tick fresh_state) in
  let e := (Exception "LLM-Only Strategy requires BAML but it's not available") in
  ∃ st' r,
    CurationEngine_curate_content E strategy content uc st
      = (Ok (length (heap st1)), st')
    ∧ heap st' = heap st1 ++ [r]
    ∧ strategy_used r = "error_handling"
    ∧ or_empty (metadata r) !! "error" = Some (VStr (str_exn e))
    ∧ cache st' = cache st1
    ∧ (∀ k, cache st' !! k ≠ Some (length (heap st1))).
Proof.
  cbv zeta.
  apply (CurationEngine_error_result_not_cached
           env_without_baml LLM_ONLY "Just had a great lunch today" adult_user
           fresh_state (tick (tick fresh_state))
           (Exception "LLM-Only Strategy requires BAML but it's not available")).
  - exact env_without_baml_sane.
  - exact (wf_fresh [] 2 0).
  - vm_compute. reflexivity.
Defined.

(** X13 with the multi-layer strategy. *)
Lemma CurationEngine_repeated_request_witness :
  let E := env_with_baml in
  let strategy := MULTI_LAYER in
  let content := "Just had a great lunch today" in
  let uc := adult_user in
  let st := fresh_state in
  let l := 0 in
  let st1 := (CurationEngine_curate_content E strategy content uc st).2 in
  ∃ r1 st2 r2,
    heap st1 !! l = Some r1
    ∧ CurationEngine_curate_content E strategy content uc st1 = (Ok l, st2)
    ∧ heap st2 !! l = Some r2
    ∧ decision r2 = decision r1
    ∧ processing_time_ms r2 = NInt 1
    ∧ or_empty (metadata r2) !! "cache_hit" = Some (VBool true)
    ∧ or_empty (metadata r2) !! "engine_strategy"
      = Some (VStr (CurationStrategy_value strategy))
    ∧ length (heap st2) = length (heap st1)
    ∧ llm_calls st2 = llm_calls st1.
Proof.
  cbv zeta.
  apply (CurationEngine_repeated_request
           env_with_baml MULTI_LAYER "Just had a great lunch today" adult_user
           fresh_state
           (strategy_analyze_content env_with_baml MULTI_LAYER
              "Just had a great lunch today" adult_user (tick fresh_state)).2
           0).
  - exact env_with_baml_sane.
  - exact (wf_fresh [] 0 0).
  - left. reflexivity.
  - vm_compute. reflexivity.
Defined.

(** X14 on two spellings of one content. *)
Lemma verdicts_ignore_letter_case_witness :
  let c1 := "Visit PornHub.COM for a Demo" in
  let c2 := "visit pornhub.com for a demo" in
  let uc := adult_user in
  matches_profanity c1 = matches_profanity c2
  ∧ matches_harmful_url c1 = matches_harmful_url c2
  ∧ _mock_toxicity_analysis c1 = _mock_toxicity_analysis c2
  ∧ _mock_nsfw_analysis c1 = _mock_nsfw_analysis c2
  ∧ _requires_llm_analysis c1 uc = _requires_llm_analysis c2 uc
  ∧ _should_use_llm_only c1 uc = _should_use_llm_only c2 uc.
Proof.
  cbv zeta.
  apply (verdicts_ignore_letter_case
           "Visit PornHub.COM for a Demo" "visit pornhub.com for a demo" adult_user).
  - reflexivity.
Defined.

(** X17: the content that was just cached, after a switch to the same strategy. *)
Lemma CurationEngine_switch_strategy_discards_cache_witness :
  let E := env_without_baml in
  let self' := mkCurationEngine MULTI_LAYER MULTI_LAYER in
  let content := "Just had a great lunch today" in
  let uc := adult_user in
  let st :=
    (CurationEngine_curate_content env_without_baml MULTI_LAYER
       "Just had a great lunch today" adult_user fresh_state).2 in
  let st' := new_strategy_instance st in
  ∃ r st'',
    CurationEngine_curate E self' content uc st' = (Ok (length (heap st)), st'')
    ∧ heap st'' = heap st ++ [r].
Proof.
  cbv zeta.
  apply (CurationEngine_switch_strategy_discards_cache
           env_without_baml (Ok ()) (mkCurationEngine MULTI_LAYER MULTI_LAYER)
           (mkCurationEngine MULTI_LAYER MULTI_LAYER) (inl "multi_layer")
           (CurationEngine_curate_content env_without_baml MULTI_LAYER
              "Just had a great lunch today" adult_user fresh_state).2
           _ "Just had a great lunch today" adult_user).
  - exact env_without_baml_sane.
  - left. reflexivity.
Defined.

(** X19: a multi-layer engine after a failed switch to the LLM-only strategy. *)
Lemma CurationEngine_failed_switch_mislabels_witness :
  let E := env_with_baml in
  let analyzer_init :=
    Raise (A := unit) (Exception "cannot open logs/baml-collector.log") in
  let self := mkCurationEngine MULTI_LAYER MULTI_LAYER in
  let member := LLM_ONLY in
  let e := (Exception "cannot open logs/baml-collector.log") in
  let st := fresh_state in
  let content := "Just had a great lunch today" in
  let uc := adult_user in
  let st1 :=
    (strategy_analyze_content env_with_baml MULTI_LAYER
       "Just had a great lunch today" adult_user (tick fresh_state)).2 in
  let l := 0 in
  ∃ self' st' r,
    CurationEngine_switch_strategy E analyzer_init self (inr member) st
      = (Raise e, self', st)
    ∧ CurationEngine_curate E self' content uc st = (Ok l, st')
    ∧ heap st' !! l = Some r
    ∧ (∀ r1, heap st1 !! l = Some r1 → decision r = decision r1)
    ∧ or_empty (metadata r) !! "engine_strategy"
      = Some (VStr (CurationStrategy_value member)).
Proof.
  cbv zeta.
  apply (CurationEngine_failed_switch_mislabels
           env_with_baml
           (Raise (Exception "cannot open logs/baml-collector.log"))
           (mkCurationEngine MULTI_LAYER MULTI_LAYER) LLM_ONLY
           (Exception "cannot open logs/baml-collector.log") fresh_state
           (strategy_analyze_content env_with_baml MULTI_LAYER
              "Just had a great lunch today" adult_user (tick fresh_state)).2
           "Just had a great lunch today" adult_user 0).
  - exact env_with_baml_sane.
  - exact (wf_fresh [] 0 0).
  - reflexivity.
  - reflexivity.
  - vm_compute. reflexivity.
Defined.

(** X20 with the hybrid strategy. *)
Lemma CurationEngine_results_serialize_with_metadata_witness :
  let E := env_without_baml in
  let self := mkCurationEngine HYBRID HYBRID in
  let content := "Just had a great lunch today" in
  let uc := adult_user in
  let st := fresh_state in
  (∀ r, dom (to_dict r) ∖ {["metadata"]}
        = ({["action"; "reason"; "confidence"; "safety_score";
             "processing_time_ms"; "strategy_used"]} : gset string))
  ∧ (∀ r, to_dict r !! "metadata" = None ↔
          metadata r = None ∨ metadata r = Some ∅)
  ∧ ∃ l st' r,
      CurationEngine_curate E self content uc st = (Ok l, st')
      ∧ heap st' !! l = Some r
      ∧ to_dict r !! "metadata" = Some (DDict (or_empty (metadata r))).
Proof.
  cbv zeta.
  apply (CurationEngine_results_serialize_with_metadata
           env_without_baml (mkCurationEngine HYBRID HYBRID)
           "Just had a great lunch today" adult_user fresh_state).
  - exact env_without_baml_sane.
  - exact (wf_fresh [] 0 0).
Defined.

(** X22 on a content with the word in capitals. *)
Lemma mock_blocks_fighting_witness :
  let draws := example_draws in
  let content := "Two kids were FIGHTING at school" in
  2 ≤ violence_hits content
  ∧ dict_get "recommendation" (_mock_comprehensive_analysis draws content)
    = Some (OStr "block").
Proof.
  cbv zeta.
  apply (mock_blocks_fighting example_draws "Two kids were FIGHTING at school").
  - vm_compute. reflexivity.
Defined.

(** X23 on the mock fallback. *)
Lemma LLMOnlyStrategy_reads_unwritten_keys_witness :
  let baml_available := false in
  let call := Raise (A := ComprehensiveClassification) (Exception "unused") in
  let draws := example_draws in
  let content := "Students learn science at school" in
  let a := mkAnalysis None (Some "allow") None None in
  let ms := 12%Z in
  let result :=
    RealBAMLContentAnalyzer_comprehensive_analysis baml_available call draws content in
  (∃ safety, dict_get "safety" result = Some (ODict safety)
             ∧ is_Some (dict_get "score" safety)
             ∧ dict_get "safety_score" safety = None)
  ∧ is_Some (dict_get "confidence" result)
  ∧ dict_get "overall_confidence" result = None
  ∧ is_Some (dict_get "summary" result)
  ∧ dict_get "summary_reasoning" result = None
  ∧ dict_get "recommendation" result = Some (OStr (action (llm_result a ms)))
  ∧ safety_score (llm_result a ms) = 0.5%float
  ∧ confidence (llm_result a ms) = 0.7%float
  ∧ reason (llm_result a ms) = "LLM analysis completed".
Proof.
  cbv zeta.
  apply (LLMOnlyStrategy_reads_unwritten_keys
           false (Raise (Exception "unused")) example_draws
           "Students learn science at school"
           (mkAnalysis None (Some "allow") None None) 12%Z).
  - vm_compute. reflexivity.
Defined.

(** X24 with the mock fallback as the analyzer. *)
Lemma LLMOnlyStrategy_with_integrated_analyzer_witness :
  let E := env_mock_analyzer in
  let content := "Students learn science at school" in
  let uc := adult_user in
  let st := fresh_state in
  ∃ st' r result,
    LLMOnlyStrategy_analyze_content E content uc st = (Ok (length (heap st)), st')
    ∧ heap st' = heap st ++ [r]
    ∧ llm E (llm_calls st) content uc = Ok result
    ∧ an_recommendation result = Some (action r)
    ∧ strategy_used r = "llm_only"
    ∧ confidence r = 0.7%float
    ∧ safety_score r = 0.5%float
    ∧ reason r = "LLM analysis completed".
Proof.
  cbv zeta.
  apply (LLMOnlyStrategy_with_integrated_analyzer
           env_mock_analyzer "Students learn science at school" adult_user fresh_state).
  - exact env_mock_analyzer_sane.
  - reflexivity.
  - exact env_mock_analyzer_integrated.
Defined.
